(** * chatbot-frontend: the API client and the chat page, embedded in Rocq

    The development follows the TypeScript sources:
    - [Api]    : src/api.ts, the axios instance with [setAuthToken],
                 [refreshToken] and the response interceptor;
    - [Login]  : [handleLogin] of src/pages/Login.tsx;
    - [Chat]   : src/pages/Chat.tsx, the component App.tsx mounts on /chat;
    - [ChatV3], [ChatV4] : the older copies of the chat page kept in the
                 repository (sessions with a page reload; a single thread
                 with a sorted history);
    - [Client] : the operations of all of them that reach localStorage.
    The properties come after the definitions, module by module.

    JavaScript strings are modelled by [string]; a character is a code unit
    below 256. A promise is modelled by its settled outcome; a request the
    page awaits is an explicit entry of the page state, and the order in
    which requests settle is left to the events. *)

From Stdlib Require Import ZArith Bool Ascii String List Lia Sorted Permutation.
From stdpp Require Import gmap strings.
Import ListNotations.

Local Open Scope string_scope.
Local Open Scope list_scope.

(** ** JavaScript truthiness of the values that occur in the sources *)

(** [!!s] for a string: the empty string is falsy. *)
Definition truthy_str (s : string) : bool :=
  match s with
  | EmptyString => false
  | String _ _ => true
  end.

(** [!!v] for [string | null | undefined]. *)
Definition truthy (v : option string) : bool :=
  match v with
  | Some s => truthy_str s
  | None => false
  end.

(** ** JSON as the client reads it

    The bodies the backend endpoints exchange are objects with string
    fields and arrays of such objects (or of strings). Numbers, booleans and
    deeper nesting do not occur and are left out of the model. *)

(** An object with string fields. A missing key reads as [undefined]. *)
Definition JsonObj := list (string * string).

Fixpoint field (k : string) (o : JsonObj) : option string :=
  match o with
  | [] => None
  | (k', v) :: o' => if String.eqb k k' then Some v else field k o'
  end.

(** [{...o, k: v}] *)
Fixpoint set_field (k v : string) (o : JsonObj) : JsonObj :=
  match o with
  | [] => [(k, v)]
  | (k', v') :: o' =>
      if String.eqb k k' then (k, v) :: o' else (k', v') :: set_field k v o'
  end.

Inductive Item :=
| IStr (s : string)
| IObj (o : JsonObj).

(** A decoded response body ([res.data]): an object, an array, a body that
    is not JSON (axios hands it over as a string; the empty body of a 204 is
    [BText ""]), or [null]. *)
Inductive Body :=
| BObj (o : JsonObj)
| BArr (items : list Item)
| BText (s : string)
| BNull.

(** [body.k] for a body that is not [null]: arrays and strings have none of
    the keys the client reads. Reading a key of [null] throws; the callers
    treat [BNull] before they come here. *)
Definition body_field (k : string) (b : Body) : option string :=
  match b with
  | BObj o => field k o
  | BArr _ | BText _ | BNull => None
  end.

(** ** Whitespace, [String.prototype.trim] *)

(** The WhiteSpace and LineTerminator code units below 256: TAB, LF, VT, FF,
    CR, SP, NBSP. The class [\s] of the regular expressions is the same. *)
Definition is_space (c : ascii) : bool :=
  let n := nat_of_ascii c in
  ((n =? 9) || (n =? 10) || (n =? 11) || (n =? 12) || (n =? 13)
   || (n =? 32) || (n =? 160))%nat.

Fixpoint trimStart (s : string) : string :=
  match s with
  | EmptyString => EmptyString
  | String c s' => if is_space c then trimStart s' else s
  end.

Fixpoint trimEnd (s : string) : string :=
  match s with
  | EmptyString => EmptyString
  | String c s' =>
      match trimEnd s' with
      | EmptyString => if is_space c then EmptyString else String c EmptyString
      | t => String c t
      end
  end.

Definition trim (s : string) : string := trimEnd (trimStart s).

Fixpoint all_space (s : string) : bool :=
  match s with
  | EmptyString => true
  | String c s' => is_space c && all_space s'
  end.

Module Api.

(** *** Requests, responses, errors *)

Inductive Method := GET | POST | DELETE.

Definition Method_eqb (a b : Method) : bool :=
  match a, b with
  | GET, GET | POST, POST | DELETE, DELETE => true
  | _, _ => false
  end.

(** The axios request config. [authorization] is [headers.Authorization];
    [_retry] is the marker the interceptor sets on [error.config]
    ([undefined] reads as [false]). *)
Record Config := mkConfig {
  method : Method;
  url : string;
  data : JsonObj;
  authorization : option string;
  _retry : bool
}.

Definition with_retry (c : Config) : Config :=
  mkConfig (method c) (url c) (data c) (authorization c) true.

Definition with_authorization (a : string) (c : Config) : Config :=
  mkConfig (method c) (url c) (data c) (Some a) (_retry c).

(** What comes back from the network for one request. *)
Inductive Reply :=
| HttpReply (status : Z) (body : Body)
| NetworkError.

(** axios' default [validateStatus]. *)
Definition validateStatus (status : Z) : bool :=
  (200 <=? status)%Z && (status <? 300)%Z.

Record Response := mkResponse { status : Z; rdata : Body }.

(** The AxiosError: [error.config] and [error.response] (absent on a network
    error). *)
Record AxiosError := mkError {
  config : Config;
  response : option Response
}.

(** [error.response?.status] *)
Definition error_status (e : AxiosError) : option Z :=
  match response e with
  | Some r => Some (status r)
  | None => None
  end.

(** [error.response?.status === 401] *)
Definition unauthorized (e : AxiosError) : bool :=
  match error_status e with
  | Some st => (st =? 401)%Z
  | None => false
  end.

Inductive Outcome :=
| Resolved (r : Response)
| Rejected (e : AxiosError).

(** The outcomes of [api.post("/user/refresh", ...)] on which [refreshToken]
    returns [null]: the call throws, or [res.data] carries no usable
    [access_token]. *)
Definition no_token (out : Outcome) : bool :=
  match out with
  | Rejected _ => true
  | Resolved res => negb (truthy (body_field "access_token" (rdata res)))
  end.

(** *** The state the client shares between requests *)

(** [storage]: window.localStorage; [defaults_auth]:
    api.defaults.headers.common["Authorization"]; [log]: the requests put on
    the wire so far, oldest first. *)
Record World := mkWorld {
  storage : gmap string string;
  defaults_auth : option string;
  log : list Config
}.

Definition set_storage (f : gmap string string -> gmap string string) (w : World) : World :=
  mkWorld (f (storage w)) (defaults_auth w) (log w).

Definition getItem (k : string) (w : World) : option string := storage w !! k.
Definition setItem (k v : string) (w : World) : World := set_storage (insert k v) w.
Definition removeItem (k : string) (w : World) : World := set_storage (delete k) w.

Definition bearer (token : string) : string := "Bearer " ++ token.

(** [setAuthToken(token)] *)
Definition setAuthToken (token : option string) (w : World) : World :=
  match token with
  | Some t =>
      if truthy_str t
      then mkWorld (storage w) (Some (bearer t)) (log w)
      else mkWorld (storage w) None (log w)
  | None => mkWorld (storage w) None (log w)
  end.

(** axios merges the instance defaults under the headers of the call. *)
Definition merge_defaults (c : Config) (w : World) : Config :=
  match authorization c with
  | Some _ => c
  | None => mkConfig (method c) (url c) (data c) (defaults_auth w) (_retry c)
  end.

Definition refresh_config (refresh_token : string) : Config :=
  mkConfig POST "/user/refresh" [("refresh_token", refresh_token)] None false.

Definition is_refresh (c : Config) : bool :=
  Method_eqb (method c) POST && String.eqb (url c) "/user/refresh".

Section Client.

(** The backend and the network: the reply to a request, given the requests
    that were sent before it. *)
Variable backend : list Config -> Config -> Reply.

(** One round trip: the request is logged, the reply settles the raw
    promise. *)
Definition transport (c : Config) (w : World) : Outcome * World :=
  let w' := mkWorld (storage w) (defaults_auth w) (log w ++ [c]) in
  match backend (log w) c with
  | HttpReply st body =>
      if validateStatus st
      then (Resolved (mkResponse st body), w')
      else (Rejected (mkError c (Some (mkResponse st body))), w')
  | NetworkError => (Rejected (mkError c None), w')
  end.

Definition M (A : Type) := option (A * World).

(** [refreshToken()], over the instance [call] it posts with. *)
Definition refreshToken_with (call : Config -> World -> M Outcome) (w : World)
  : M (option string) :=
  let refresh_token := getItem "refresh_token" w in
  if negb (truthy refresh_token) then Some (None, w)
  else
    match call (refresh_config (default "" refresh_token)) w with
    | None => None
    | Some (Resolved res, w1) =>
        match rdata res with
        | BNull => Some (None, w1) (* the destructuring throws; [catch] *)
        | body =>
            let newAccessToken := body_field "access_token" body in
            if truthy newAccessToken then
              let t := default "" newAccessToken in
              Some (Some t, setAuthToken (Some t) (setItem "access_token" t w1))
            else Some (None, w1)
        end
    | Some (Rejected err, w1) => Some (None, w1)
    end.

(** [originalRequest._retry = true] writes on [error.config]: the error
    object is the same, its config now carries the marker. *)
Definition marked (error : AxiosError) : AxiosError :=
  mkError (with_retry (config error)) (response error).

(** The rejection handler of [api.interceptors.response.use]. *)
Definition onRejected_with (call : Config -> World -> M Outcome)
    (error : AxiosError) (w : World) : M Outcome :=
  let originalRequest := config error in
  if unauthorized error && negb (_retry originalRequest)
  then
    let error := marked error in
    let originalRequest := config error in
    match refreshToken_with call w with
    | None => None
    | Some (Some newAccessToken, w1) =>
        call (with_authorization (bearer newAccessToken) originalRequest) w1
    | Some (None, w1) =>
        Some (Rejected error,
              removeItem "refresh_token" (removeItem "access_token" w1))
    end
  else Some (Rejected error, w).

(** [api(config)]: the instance with its interceptor installed. The fuel
    bounds the nesting of calls made from inside the interceptor. *)
Fixpoint api (fuel : nat) (c : Config) (w : World) : M Outcome :=
  match fuel with
  | O => None
  | S fuel' =>
      match transport (merge_defaults c w) w with
      | (Resolved r, w1) => Some (Resolved r, w1)
      | (Rejected e, w1) => onRejected_with (api fuel') e w1
      end
  end.

Definition refreshToken (fuel : nat) : World -> M (option string) :=
  refreshToken_with (api fuel).

End Client.

(** A backend for examples: the n-th request gets the n-th reply of the
    script, whatever it asks; past the script the network is down. *)
Definition scripted (replies : list Reply) : list Config -> Config -> Reply :=
  fun sent _ => nth (length sent) replies NetworkError.

(** A backend that answers every request with [status]. *)
Definition always (status : Z) : list Config -> Config -> Reply :=
  fun _ _ => HttpReply status BNull.

End Api.

(** ** Login.tsx *)

Module Login.

Import Api.

(** The component state ([useState]) and the route [navigate] last went to. *)
Record State := mkState {
  email : string;
  password : string;
  error : string;
  location : string
}.

Definition setError (e : string) (st : State) : State :=
  mkState (email st) (password st) e (location st).

Definition navigate (to : string) (st : State) : State :=
  mkState (email st) (password st) (error st) to.

(** [[^\s@]] *)
Definition plain_char (c : ascii) : bool :=
  negb (is_space c) && negb (Ascii.eqb c "@").

Fixpoint all_plain (s : string) : bool :=
  match s with
  | EmptyString => true
  | String c s' => plain_char c && all_plain s'
  end.

(** [[^\s@]+\.[^\s@]+$] on a string of plain characters: some dot has a
    character before it and one after it. *)
Fixpoint dot_inside (seen_one : bool) (s : string) : bool :=
  match s with
  | EmptyString => false
  | String c s' =>
      (seen_one && Ascii.eqb c "." && truthy_str s') || dot_inside true s'
  end.

(** The text before the first [@] and the text after it. *)
Fixpoint split_at_sign (s : string) : option (string * string) :=
  match s with
  | EmptyString => None
  | String c s' =>
      if Ascii.eqb c "@" then Some (EmptyString, s')
      else match split_at_sign s' with
           | Some (l, r) => Some (String c l, r)
           | None => None
           end
  end.

(** [/^[^\s@]+@[^\s@]+\.[^\s@]+$/.test(s)] *)
Definition emailRegex_test (s : string) : bool :=
  match split_at_sign s with
  | Some (l, d) =>
      truthy_str l && all_plain l && all_plain d && dot_inside false d
  | None => false
  end.

Definition login_config (user_email user_password : string) : Config :=
  mkConfig POST "/user/login"
    [("user_email", user_email); ("user_password", user_password)] None false.

(** [err.response?.data?.message] *)
Definition error_message (e : AxiosError) : option string :=
  match response e with
  | Some r => body_field "message" (rdata r)
  | None => None
  end.

Section Handlers.

Variable backend : list Config -> Config -> Reply.

(** [handleLogin] *)
Definition handleLogin (fuel : nat) (st : State) (w : World)
  : option (State * World) :=
  let st := setError "" st in
  if negb (emailRegex_test (email st))
  then Some (setError "Please enter a valid email" st, w)
  else
    match api backend fuel (login_config (email st) (password st)) w with
    | None => None
    | Some (Resolved res, w1) =>
        match rdata res with
        | BNull => (* the destructuring throws a TypeError; [catch] *)
            Some (setError "Login failed. Check your email or password." st, w1)
        | body =>
            let access_token := body_field "access_token" body in
            if negb (truthy access_token)
            then Some (setError "Login failed. Invalid response from server." st, w1)
            else
              let t := default "" access_token in
              Some (navigate "/chat" st,
                    setAuthToken (Some t) (setItem "access_token" t w1))
        end
    | Some (Rejected err, w1) =>
        let m := error_message err in
        Some (setError (if truthy m then default "" m
                        else "Login failed. Check your email or password.") st,
              w1)
    end.

End Handlers.

End Login.

(** ** pages/Chat.tsx *)

Module Chat.

Import Api.

Inductive Sender := user | bot.

(** [isTyping] absent reads as [false]. *)
Record ChatMessage := mkMessage {
  text : string;
  from : Sender;
  isTyping : bool;
  createdAt : option string
}.

(** The values held in [sessions] and in [activeSessionId]. The component
    passes whole entries of [res.data] around, so an entry is what the
    backend sent: a string, or an object, which has an identity. *)
Inductive JsVal :=
| VStr (s : string)
| VObj (ref : nat) (o : JsonObj).

(** [a === b] *)
Definition strict_eq (a b : JsVal) : bool :=
  match a, b with
  | VStr x, VStr y => String.eqb x y
  | VObj r _, VObj r' _ => Nat.eqb r r'
  | _, _ => false
  end.

(** [a === b] where either side may be [null]. *)
Definition same (a b : option JsVal) : bool :=
  match a, b with
  | Some x, Some y => strict_eq x y
  | None, None => true
  | _, _ => false
  end.

(** [!!v] *)
Definition truthy_val (v : option JsVal) : bool :=
  match v with
  | Some (VStr s) => truthy_str s
  | Some (VObj _ _) => true
  | None => false
  end.

(** [v.k] *)
Definition prop (k : string) (v : JsVal) : option string :=
  match v with
  | VStr _ => None
  | VObj _ o => field k o
  end.

(** A request the component awaits, with the variables its continuation
    closed over. *)
Inductive InFlight :=
| GetHistory (activeSessionId : JsVal)
    (* fetchChat: GET /chat/history/${activeSessionId} *)
| PostCreateSession
    (* createNewSession: POST /chat/createSession *)
| DeleteHistory (sessionId : JsVal) (activeSessionId : option JsVal)
                (sessions : list JsVal)
    (* deleteSession: DELETE /chat/history/${sessionId} *)
| PostChat (message : string) (id : JsVal).
    (* sendMessage: POST /chat {message, id} *)

Definition is_PostChat (r : InFlight) : bool :=
  match r with
  | PostChat _ _ => true
  | _ => false
  end.

(** The [useState] cells, the route, the requests in flight ([inflight]),
    every request issued so far ([sent]) and the next free object identity
    ([heap]). *)
Record State := mkState {
  messages : list ChatMessage;
  input : string;
  sessions : list JsVal;
  activeSessionId : option JsVal;
  location : string;
  inflight : list InFlight;
  sent : list InFlight;
  heap : nat
}.

(** The first render: [useState([])], [useState("")], [useState(null)]. *)
Definition init : State := mkState [] "" [] None "/chat" [] [] 0.

Definition setMessages (f : list ChatMessage -> list ChatMessage) (st : State) : State :=
  mkState (f (messages st)) (input st) (sessions st) (activeSessionId st)
          (location st) (inflight st) (sent st) (heap st).

Definition setInput (v : string) (st : State) : State :=
  mkState (messages st) v (sessions st) (activeSessionId st)
          (location st) (inflight st) (sent st) (heap st).

Definition setSessions (f : list JsVal -> list JsVal) (st : State) : State :=
  mkState (messages st) (input st) (f (sessions st)) (activeSessionId st)
          (location st) (inflight st) (sent st) (heap st).

Definition setActiveSessionId (a : option JsVal) (st : State) : State :=
  mkState (messages st) (input st) (sessions st) a
          (location st) (inflight st) (sent st) (heap st).

Definition navigate (to : string) (st : State) : State :=
  mkState (messages st) (input st) (sessions st) (activeSessionId st)
          to (inflight st) (sent st) (heap st).

Definition set_heap (h : nat) (st : State) : State :=
  mkState (messages st) (input st) (sessions st) (activeSessionId st)
          (location st) (inflight st) (sent st) h.

(** Start a request and await it. *)
Definition issue (r : InFlight) (st : State) : State :=
  mkState (messages st) (input st) (sessions st) (activeSessionId st)
          (location st) (inflight st ++ [r]) (sent st ++ [r]) (heap st).

(** The awaited request at position [i] settles and leaves [inflight]. *)
Fixpoint remove_nth {A} (i : nat) (l : list A) : list A :=
  match l, i with
  | [], _ => []
  | _ :: l', O => l'
  | x :: l', S i' => x :: remove_nth i' l'
  end.

Definition settled (i : nat) (st : State) : State :=
  mkState (messages st) (input st) (sessions st) (activeSessionId st)
          (location st) (remove_nth i (inflight st)) (sent st) (heap st).

(** *** The effect on [activeSessionId] and [fetchChat] *)

(** The body of [useEffect(..., [activeSessionId])]. *)
Definition fetchChat_effect (st : State) : State :=
  if negb (truthy_val (activeSessionId st)) then st
  else
    match activeSessionId st with
    | Some a => issue (GetHistory a) (setMessages (fun _ => []) st)
    | None => st
    end.

(** React runs the effect after a render in which the dependency changed. *)
Definition rerender (before : option JsVal) (st : State) : State :=
  if same before (activeSessionId st) then st else fetchChat_effect st.

(** The callback of [res.data.flatMap]. *)
Definition flatten_item (item : Item) : list ChatMessage :=
  match item with
  | IStr _ => []
  | IObj o =>
      (if truthy (field "user_message" o)
       then [mkMessage (default "" (field "user_message" o)) user false
                       (field "createdAt" o)]
       else [])
      ++
      (if truthy (field "bot_message" o)
       then [mkMessage (default "" (field "bot_message" o)) bot false
                       (field "createdAt" o)]
       else [])
  end.

Definition flatten_history (items : list Item) : list ChatMessage :=
  flat_map flatten_item items.

(** [prev.map((s) => s.id === activeSessionId ? { ...s, title } : s)]; the
    spread makes a new object. *)
Fixpoint rename_sessions (activeSessionId : JsVal) (title : string)
    (prev : list JsVal) (h : nat) : list JsVal * nat :=
  match prev with
  | [] => ([], h)
  | s :: prev' =>
      let hit :=
        match prop "id" s with
        | Some i => strict_eq (VStr i) activeSessionId
        | None => false
        end in
      let '(s', h') :=
        match s with
        | VObj _ o => if hit then (VObj h (set_field "title" title o), S h)
                      else (s, h)
        | VStr _ => (s, h)
        end in
      let '(rest, h'') := rename_sessions activeSessionId title prev' h' in
      (s' :: rest, h'')
  end.

(** What [fetchChat] does once [api.get] has resolved with [data]. *)
Definition fetchChat_resolved (activeSessionId : JsVal) (data : Body)
    (st : State) : State :=
  match data with
  | BArr items =>
      let history := flatten_history items in
      let st1 := setMessages (fun _ => history) st in
      match history with
      | first :: _ =>
          match from first with
          | user =>
              let '(renamed, h) :=
                rename_sessions activeSessionId (text first)
                                (sessions st1) (heap st1) in
              set_heap h (setSessions (fun _ => renamed) st1)
          | bot => st1
          end
      | [] => st1
      end
  | _ => st
  end.

(** *** [createNewSession] *)

Definition createNewSession (st : State) : State := issue PostCreateSession st.

(** After [api.post] resolved with [data]: the new entry is [res.data]
    itself, the active id is [res.data.id] ([undefined] is kept as [null]:
    both are falsy and equal to no entry). On a [null] body [null] is put in
    front of the list before [res.data.id] throws into the [catch], and the
    next render throws on [s.title]: the page unmounts. An array body is an
    entry [sessions] cannot hold here; it is outside the model. *)
Definition createNewSession_resolved (data : Body) (st : State) : option State :=
  match data with
  | BObj o =>
      let entry := VObj (heap st) o in
      let st1 := set_heap (S (heap st)) st in
      Some (setMessages (fun _ => [])
             (setActiveSessionId
                (match field "id" o with Some i => Some (VStr i) | None => None end)
                (setSessions (fun prev => entry :: prev) st1)))
  | BText s =>
      Some (setMessages (fun _ => [])
             (setActiveSessionId None
                (setSessions (fun prev => VStr s :: prev) st)))
  | BArr _ | BNull => None
  end.

(** *** [deleteSession] *)

(** [list.filter((s) => s !== sessionId)] *)
Definition without (sessionId : JsVal) (l : list JsVal) : list JsVal :=
  List.filter (fun s => negb (strict_eq s sessionId)) l.

(** The call, up to the [await]: [window.confirm], then the request; the
    continuation keeps the [activeSessionId] and [sessions] of this render. *)
Definition deleteSession (sessionId : JsVal) (confirmed : bool) (st : State) : State :=
  if negb confirmed then st
  else issue (DeleteHistory sessionId (activeSessionId st) (sessions st)) st.

(** After [api.delete] resolved. *)
Definition deleteSession_resolved (sessionId : JsVal)
    (activeSessionId : option JsVal) (sessions : list JsVal) (st : State) : State :=
  let st1 := setSessions (fun prev => without sessionId prev) st in
  if same activeSessionId (Some sessionId) then
    let remainingSessions := without sessionId sessions in
    match remainingSessions with
    | first :: _ => setActiveSessionId (Some first) st1
    | [] => setMessages (fun _ => []) (setActiveSessionId None st1)
    end
  else st1.

(** *** [sendMessage] *)

Definition typing_indicator : ChatMessage :=
  mkMessage "Typing..." bot true None.

(** The call, up to the [await]; [now] is [new Date().toISOString()]. *)
Definition sendMessage (now : string) (st : State) : State :=
  if negb (truthy_str (trim (input st))) || negb (truthy_val (activeSessionId st))
  then st
  else
    match activeSessionId st with
    | None => st
    | Some id =>
        let userMsg := mkMessage (input st) user false (Some now) in
        let st1 := setMessages (fun prev => prev ++ [userMsg]) st in
        let st2 := setInput "" st1 in
        let st3 := setMessages (fun prev => prev ++ [typing_indicator]) st2 in
        issue (PostChat (input st) id) st3
    end.

(** [[...prev.filter((m) => !m.isTyping), msg]] *)
Definition replace_typing (msg : ChatMessage) (prev : list ChatMessage)
  : list ChatMessage :=
  List.filter (fun m => negb (isTyping m)) prev ++ [msg].

(** The [catch] of [sendMessage]. *)
Definition sendMessage_rejected (now : string) (st : State) : State :=
  setMessages (replace_typing (mkMessage "Error sending message" bot false (Some now))) st.

(** After [api.post] resolved with [data]. [res.data.reply] is read inside
    the updater given to [setMessages], which React runs when it renders, after
    the [try] block has been left: on a [null] body the read throws there, the
    [catch] of [sendMessage] never sees it, no error boundary is installed and
    the page unmounts ([None]). On any other body the placeholders are dropped
    and the reply is appended (an absent reply is kept as the empty text,
    which renders the same). *)
Definition sendMessage_resolved (data : Body) (now : string) (st : State)
  : option State :=
  match data with
  | BNull => None
  | body =>
      Some (setMessages
              (replace_typing
                 (mkMessage (default "" (body_field "reply" body)) bot false (Some now)))
              st)
  end.

(** The typing placeholders on display, and the posts awaiting their
    reply. *)
Definition placeholders (st : State) : nat :=
  length (List.filter isTyping (messages st)).

Definition outstanding (st : State) : nat :=
  length (List.filter is_PostChat (inflight st)).

(** *** The sidebar *)

(** [onClick] of a session row. *)
Definition selectSession (s : JsVal) (st : State) : State :=
  if negb (same (Some s) (activeSessionId st))
  then setActiveSessionId (Some s) (setMessages (fun _ => []) st)
  else st.

(** *** Loading the session list ([initAuth], both the first try and the
    retry) *)

Fixpoint intern (items : list Item) (h : nat) : list JsVal * nat :=
  match items with
  | [] => ([], h)
  | IStr s :: rest =>
      let '(vs, h') := intern rest h in (VStr s :: vs, h')
  | IObj o :: rest =>
      let '(vs, h') := intern rest (S h) in (VObj h o :: vs, h')
  end.

Definition sessions_loaded (data : Body) (st : State) : State :=
  match data with
  | BArr items =>
      let '(vs, h) := intern items (heap st) in
      let st1 := set_heap h (setSessions (fun _ => vs) st) in
      match vs with
      | first :: _ => setActiveSessionId (Some first) st1
      | [] => st1
      end
  | _ => st
  end.

(** *** The component as a transition system *)

Inductive Result :=
| Fulfilled (data : Body)
| Failed.

Inductive Event :=
| SessionsLoaded (items : list Item)
| Typed (value : string)
| PressSend (now : string)
| ClickSession (k : nat)
| ClickNewChat
| ClickDelete (k : nat) (confirmed : bool)
| Settle (i : nat) (r : Result) (now : string).

(** The continuation of an awaited request. *)
Definition resume (req : InFlight) (r : Result) (now : string) (st : State)
  : option State :=
  match req, r with
  | GetHistory a, Fulfilled data => Some (fetchChat_resolved a data st)
  | GetHistory _, Failed => Some st
  | PostCreateSession, Fulfilled data => createNewSession_resolved data st
  | PostCreateSession, Failed => Some st
  | DeleteHistory x a ss, Fulfilled _ => Some (deleteSession_resolved x a ss st)
  | DeleteHistory _ _ _, Failed => Some st
  | PostChat _ _, Fulfilled data => sendMessage_resolved data now st
  | PostChat _ _, Failed => Some (sendMessage_rejected now st)
  end.

(** One event handler (or continuation) runs, then React renders and runs the
    effect. An event that cannot happen in the state gives [None]; so does a
    continuation whose state update throws while React renders, after which
    there is no page left. *)
Definition handle (e : Event) (st : State) : option State :=
  match e with
  | SessionsLoaded items => Some (sessions_loaded (BArr items) st)
  | Typed v => Some (setInput v st)
  | PressSend now => Some (sendMessage now st)
  | ClickSession k =>
      match sessions st !! k with
      | Some s => Some (selectSession s st)
      | None => None
      end
  | ClickNewChat => Some (createNewSession st)
  | ClickDelete k confirmed =>
      match sessions st !! k with
      | Some s => Some (deleteSession s confirmed st)
      | None => None
      end
  | Settle i r now =>
      match inflight st !! i with
      | Some req => resume req r now (settled i st)
      | None => None
      end
  end.

Definition step (e : Event) (st : State) : option State :=
  match handle e st with
  | Some st' => Some (rerender (activeSessionId st) st')
  | None => None
  end.

Fixpoint run (es : list Event) (st : State) : option State :=
  match es with
  | [] => Some st
  | e :: es' =>
      match step e st with
      | Some st' => run es' st'
      | None => None
      end
  end.

(** *** Session switching without overlap

    For a backend that holds the history [history a] for the session [a]:
    what it means that the list on display belongs to the active session,
    and the runs in which fetches do not overlap a switch. *)

Section Sync.

Variable history : JsVal -> list Item.

(** The list on display is empty or is the history of the active session. *)
Definition shows_active (st : State) : Prop :=
  messages st = []
  \/ exists a, activeSessionId st = Some a
               /\ messages st = flatten_history (history a).

(** No history fetch is in flight. *)
Definition no_fetch (st : State) : Prop :=
  forall a, ~ In (GetHistory a) (inflight st).

(** Every history fetch in flight is for the active session. *)
Definition fetches_active (st : State) : Prop :=
  forall a, In (GetHistory a) (inflight st) -> activeSessionId st = Some a.

(** The events of a run in which nothing is posted and the active session
    changes only while no history fetch is in flight. The session list
    arrives on the empty page; the user types, presses Send with nothing to
    send, clicks "New chat" or a delete button; a session is clicked, or a new
    chat is answered, while no fetch is in flight; a history fetch settles,
    with the history of the session it asked for when it brings an array; a
    deletion settles: of a session other than the one that was active at the
    click, or, with no fetch in flight, of the active one, either answered
    before the active session changed again with a truthy row to fall back
    to, or with no row left. *)
Definition calm (e : Event) (st : State) : Prop :=
  match e with
  | SessionsLoaded _ => messages st = [] /\ no_fetch st
  | Typed _ => True
  | PressSend _ => all_space (input st) = true \/ activeSessionId st = None
  | ClickSession _ => no_fetch st
  | ClickNewChat => True
  | ClickDelete _ _ => True
  | Settle i r _ =>
      match inflight st !! i, r with
      | Some (GetHistory a), Fulfilled (BArr items) => items = history a
      | Some (GetHistory a), _ => True
      | Some PostCreateSession, Fulfilled _ => no_fetch st
      | Some (DeleteHistory x a ss), Fulfilled _ =>
          same a (Some x) = false
          \/ (no_fetch st /\ a = activeSessionId st
              /\ truthy_val (head (without x ss)) = true)
          \/ (no_fetch st /\ without x ss = [])
      | Some PostCreateSession, Failed => True
      | Some (DeleteHistory _ _ _), Failed => True
      | Some (PostChat _ _), _ => False
      | None, _ => False
      end
  end.

Fixpoint calm_run (es : list Event) (st : State) : Prop :=
  match es with
  | [] => True
  | e :: es' =>
      calm e st
      /\ match step e st with
         | Some st' => calm_run es' st'
         | None => True
         end
  end.

End Sync.

(** *** [initAuth] and [handleLogout], on the API client *)

Definition sessions_config : Config := mkConfig GET "/chat/history" [] None false.

Definition clear_credentials (w : World) : World :=
  removeItem "refresh_token" (removeItem "access_token" w).

Section Mount.

Variable backend : list Config -> Config -> Reply.

Definition initAuth (fuel : nat) (st : State) (w : World) : option (State * World) :=
  let token := getItem "access_token" w in
  if negb (truthy token) then Some (navigate "/" st, w)
  else
    let w := setAuthToken token w in
    match api backend fuel sessions_config w with
    | None => None
    | Some (Resolved res, w1) =>
        Some (rerender (activeSessionId st) (sessions_loaded (rdata res) st), w1)
    | Some (Rejected err, w1) =>
        if unauthorized err then
          match refreshToken backend fuel w1 with
          | None => None
          | Some (Some newToken, w2) =>
              let w3 := setAuthToken (Some newToken) w2 in
              match api backend fuel sessions_config w3 with
              | None => None
              | Some (Resolved retryRes, w4) =>
                  Some (rerender (activeSessionId st)
                          (sessions_loaded (rdata retryRes) st), w4)
              | Some (Rejected _, w4) => Some (navigate "/" st, w4)
              end
          | Some (None, w2) => Some (navigate "/" st, clear_credentials w2)
          end
        else Some (st, w1)
    end.

End Mount.

Definition handleLogout (st : State) (w : World) : State * World :=
  (navigate "/" st, setAuthToken None (clear_credentials w)).

End Chat.

(** ** The older chat page with sessions (src/unnamed/part_003)

    Its sessions are objects keyed by [_id]; the active id is a string that
    is also kept in localStorage. *)

Module ChatV3.

Import Api.

Record State := mkState {
  messages : list Chat.ChatMessage;
  sessions : list JsonObj;
  activeSessionId : option string
}.

(** [session._id !== sessionId] *)
Definition other_id (sessionId : string) (session : JsonObj) : bool :=
  match field "_id" session with
  | Some i => negb (String.eqb i sessionId)
  | None => true
  end.

(** [deleteSession], after [api.delete] resolved. *)
Definition deleteSession_resolved (sessionId : string) (st : State) (w : World)
  : State * World :=
  let sessions' := List.filter (other_id sessionId) (sessions st) in
  match activeSessionId st with
  | Some a =>
      if String.eqb a sessionId
      then (mkState [] sessions' None, removeItem "activeSessionId" w)
      else (mkState (messages st) sessions' (activeSessionId st), w)
  | None => (mkState (messages st) sessions' (activeSessionId st), w)
  end.

(** [onClick] of a session row whose [_id] is [id]: no clearing of the
    messages here, and none in the effect that fetches. *)
Definition selectSession (id : string) (st : State) (w : World) : State * World :=
  (mkState (messages st) (sessions st) (Some id), setItem "activeSessionId" id w).

(** The first render, also after [window.location.reload()]: localStorage
    is all that survives a reload. *)
Definition init : State := mkState [] [] None.

(** [initAuth], once GET /chat/history has resolved with an array of session
    objects: the id kept in localStorage wins over the first session. *)
Definition sessions_loaded (entries : list JsonObj) (st : State) (w : World) : State :=
  let storedSessionId := getItem "activeSessionId" w in
  if truthy storedSessionId
  then mkState (messages st) entries storedSessionId
  else
    match entries with
    | first :: _ => mkState (messages st) entries (field "_id" first)
    | [] => mkState (messages st) entries (activeSessionId st)
    end.

(** [createNewSession], once the post has resolved with the object [o], up
    to the reload. [setItem] stores the string form of its argument:
    ["undefined"] when [o] has no [_id]. *)
Definition createNewSession_resolved (o : JsonObj) (st : State) (w : World)
  : State * World :=
  (mkState [] (sessions st) (field "_id" o),
   setItem "activeSessionId" (default "undefined" (field "_id" o)) w).

End ChatV3.

(** ** The single-thread chat page (src/unnamed/part_004) *)

Module ChatV4.

Import Chat.

Section History.

(** [new Date(s).getTime()]; [None] is NaN (an invalid date). *)
Variable Date_getTime : string -> option Z.

(** [new Date(m.createdAt || 0).getTime()] *)
Definition getTime (m : ChatMessage) : option Z :=
  if truthy (createdAt m) then Date_getTime (default "" (createdAt m))
  else Some 0%Z.

(** The comparator: [aTime - bTime]. *)
Definition comparefn (a b : ChatMessage) : option Z :=
  match getTime a, getTime b with
  | Some x, Some y => Some (x - y)%Z
  | _, _ => None
  end.

(** SortCompare of Array.prototype.sort: a NaN from the comparator counts
    as +0. *)
Definition SortCompare (a b : ChatMessage) : Z := default 0%Z (comparefn a b).

(** Array.prototype.sort is stable; with a consistent comparator its result
    is fixed by the specification. It is written here as an insertion sort
    that keeps an element in front of the later ones it does not exceed. When
    a createdAt does not parse the comparator returns NaN for it and is not
    consistent: the order the runtime then produces is implementation-defined
    and need not be the one computed here. What is proved of the displayed
    order assumes readable dates. *)
Fixpoint insert_sorted (x : ChatMessage) (l : list ChatMessage) : list ChatMessage :=
  match l with
  | [] => [x]
  | y :: l' =>
      if (SortCompare x y <=? 0)%Z then x :: l else y :: insert_sorted x l'
  end.

Fixpoint sort (l : list ChatMessage) : list ChatMessage :=
  match l with
  | [] => []
  | x :: l' => insert_sorted x (sort l')
  end.

(** [fetchChatHistory], after [api.get("/chat")] resolved with [data]:
    the new value of [messages]. *)
Definition fetchChatHistory_resolved (data : Body) (messages : list ChatMessage)
  : list ChatMessage :=
  match data with
  | BArr items => sort (flatten_history items)
  | _ => messages
  end.

End History.

Record State := mkState {
  messages : list ChatMessage;
  input : string;
  posted : list string
}.

(** [sendMessage], up to the [await]. *)
Definition sendMessage (now : string) (st : State) : State :=
  if negb (truthy_str (trim (input st))) then st
  else
    let userMessage := mkMessage (input st) user false (Some now) in
    let typingMessage := mkMessage "Typing..." bot true None in
    mkState ((messages st ++ [userMessage]) ++ [typingMessage]) ""
            (posted st ++ [input st]).

(** The [catch] of [sendMessage]. *)
Definition sendMessage_rejected (now : string) (st : State) : State :=
  mkState (replace_typing (mkMessage "Error sending message" bot false (Some now))
                          (messages st))
          (input st) (posted st).

(** After [api.post] resolved with [data]. *)
Definition sendMessage_resolved (data : Body) (now : string) (st : State) : State :=
  match data with
  | BNull => sendMessage_rejected now st
  | body =>
      let botMessage :=
        mkMessage (default "" (body_field "reply" body)) bot false (Some now) in
      mkState (replace_typing botMessage (messages st)) (input st) (posted st)
  end.

End ChatV4.

(** ** The first chat page (src/unnamed/part_000)

    No history, no placeholder: [sendMessage] builds the new list from the
    [messages] of its render and writes that list back when the post
    settles. *)

Module ChatV0.

Record ChatMessage := mkMessage {
  text : string;
  from : Chat.Sender
}.

(** [inflight]: for each awaited post, the [newMessages] its continuation
    closed over; [posted]: the messages posted so far. *)
Record State := mkState {
  messages : list ChatMessage;
  input : string;
  inflight : list (list ChatMessage);
  posted : list string
}.

Definition init : State := mkState [] "" [] [].

Definition setInput (v : string) (st : State) : State :=
  mkState (messages st) v (inflight st) (posted st).

(** [sendMessage], up to the [await]. *)
Definition sendMessage (st : State) : State :=
  if negb (truthy_str (input st)) then st
  else
    let newMessages := messages st ++ [mkMessage (input st) Chat.user] in
    mkState newMessages "" (inflight st ++ [newMessages]) (posted st ++ [input st]).

(** The [catch]. *)
Definition sendMessage_rejected (newMessages : list ChatMessage) (st : State) : State :=
  mkState (newMessages ++ [mkMessage "Error sending message" Chat.bot])
          (input st) (inflight st) (posted st).

(** After [api.post] resolved with [data]. *)
Definition sendMessage_resolved (newMessages : list ChatMessage) (data : Body)
    (st : State) : State :=
  match data with
  | BNull => sendMessage_rejected newMessages st
  | body =>
      mkState (newMessages ++ [mkMessage (default "" (body_field "reply" body)) Chat.bot])
              (input st) (inflight st) (posted st)
  end.

Inductive Event :=
| Typed (value : string)
| PressSend
| Settle (i : nat) (r : Chat.Result).

Definition step (e : Event) (st : State) : option State :=
  match e with
  | Typed v => Some (setInput v st)
  | PressSend => Some (sendMessage st)
  | Settle i r =>
      match inflight st !! i with
      | Some newMessages =>
          let st' := mkState (messages st) (input st)
                             (Chat.remove_nth i (inflight st)) (posted st) in
          match r with
          | Chat.Fulfilled data => Some (sendMessage_resolved newMessages data st')
          | Chat.Failed => Some (sendMessage_rejected newMessages st')
          end
      | None => None
      end
  end.

Fixpoint run (es : list Event) (st : State) : option State :=
  match es with
  | [] => Some st
  | e :: es' =>
      match step e st with
      | Some st' => run es' st'
      | None => None
      end
  end.

End ChatV0.

(** ** Every operation of the client that reaches localStorage *)

Module Client.

Import Api.

Inductive Action :=
| Call (c : Config)
    (* a page awaits api.get / api.post / api.delete *)
| HandleLogin (email password : string)
    (* Login.tsx *)
| InitAuth
    (* pages/Chat.tsx and part_003, on mount *)
| HandleLogout
    (* pages/Chat.tsx *)
| HandleLogoutV3
    (* part_003: also forgets the active session *)
| HandleLogoutV4
    (* part_000, part_004: removes the access token only *)
| RememberSession (id : string)
    (* part_003: localStorage.setItem("activeSessionId", id) *)
| ForgetSession.
    (* part_003: localStorage.removeItem("activeSessionId") *)

Section Run.

Variable backend : list Config -> Config -> Reply.

Definition act (fuel : nat) (a : Action) (w : World) : option World :=
  match a with
  | Call c =>
      match api backend fuel c w with
      | Some (_, w') => Some w'
      | None => None
      end
  | HandleLogin e p =>
      match Login.handleLogin backend fuel (Login.mkState e p "" "/") w with
      | Some (_, w') => Some w'
      | None => None
      end
  | InitAuth =>
      match Chat.initAuth backend fuel Chat.init w with
      | Some (_, w') => Some w'
      | None => None
      end
  | HandleLogout => Some (snd (Chat.handleLogout Chat.init w))
  | HandleLogoutV3 =>
      Some (setAuthToken None
              (removeItem "activeSessionId" (Chat.clear_credentials w)))
  | HandleLogoutV4 => Some (setAuthToken None (removeItem "access_token" w))
  | RememberSession id => Some (setItem "activeSessionId" id w)
  | ForgetSession => Some (removeItem "activeSessionId" w)
  end.

Fixpoint run (fuel : nat) (actions : list Action) (w : World) : option World :=
  match actions with
  | [] => Some w
  | a :: rest =>
      match act fuel a w with
      | Some w' => run fuel rest w'
      | None => None
      end
  end.

End Run.

End Client.

(** ** Sample data for the worked examples *)

Module Sample.

Import Api.

(** localStorage right after [handleLogin] stored the token ["stale"]. *)
Definition logged_in : World :=
  mkWorld {["access_token" := "stale"]} (Some "Bearer stale") [].

(** The same, with a refresh token put there by other means. *)
Definition with_refresh_token : World :=
  mkWorld (<["refresh_token" := "r1"]> {["access_token" := "stale"]})
          (Some "Bearer stale") [].

(** 401, then a refresh that hands out ["fresh"], then an empty session
    list. *)
Definition expired_then_refreshed : list Reply :=
  [HttpReply 401 BNull;
   HttpReply 200 (BObj [("access_token", "fresh")]);
   HttpReply 200 (BArr [])].

(** 401, a refresh that hands out ["fresh"], and 401 again. *)
Definition expired_twice : list Reply :=
  [HttpReply 401 BNull;
   HttpReply 200 (BObj [("access_token", "fresh")]);
   HttpReply 401 BNull].

(** History records as GET /chat/history/{id} returns them. *)
Definition record (createdAt user_message bot_message : string) : Item :=
  IObj [("user_message", user_message); ("bot_message", bot_message);
        ("createdAt", createdAt)].

Definition T0 : string := "2024-05-01T10:00:00.000Z".
Definition T1 : string := "2024-05-01T11:00:00.000Z".
Definition T2 : string := "2024-05-01T12:00:00.000Z".

(** Three records, the latest first. *)
Definition unordered_history : list Item :=
  [record T2 "q2" "a2"; record T0 "q0" "a0"; record T1 "q1" "a1"].

(** [Date.prototype.getTime] on the three sample stamps (milliseconds since
    the first one); any other string is an invalid date. *)
Definition sample_getTime (s : string) : option Z :=
  if String.eqb s T0 then Some 0%Z
  else if String.eqb s T1 then Some 3600000%Z
  else if String.eqb s T2 then Some 7200000%Z
  else None.

(** The histories a backend holds for the sessions "A" and "B". *)
Definition history (a : Chat.JsVal) : list Item :=
  match a with
  | Chat.VStr "A" => [record T0 "asked in A" "answered in A"]
  | Chat.VStr "B" => [record T1 "asked in B" "answered in B"]
  | _ => []
  end.

(** An empty localStorage. *)
Definition fresh_browser : World := mkWorld ∅ None [].

(** The login is accepted with the token ["stale"]; the next request is
    answered 401. *)
Definition login_then_expired : list Reply :=
  [HttpReply 200 (BObj [("access_token", "stale")]); HttpReply 401 BNull].

(** 401, then a refresh refused with 403. *)
Definition refresh_refused : list Reply :=
  [HttpReply 401 BNull; HttpReply 403 BNull].

End Sample.

(** * Properties *)

(** ** Values on small inputs *)

Example trim_inner_space_kept : trim "  a b  " = "a b".
Proof. reflexivity. Qed.

Example trim_blank : trim "   " = "" /\ truthy_str (trim "   ") = false.
Proof. split; reflexivity. Qed.

Example emailRegex_accepts : Login.emailRegex_test "ann@example.org" = true.
Proof. reflexivity. Qed.

Example emailRegex_rejects :
  Login.emailRegex_test "ann@example" = false
  /\ Login.emailRegex_test "ann@.org" = false
  /\ Login.emailRegex_test "a nn@example.org" = false
  /\ Login.emailRegex_test "ann@@example.org" = false.
Proof. repeat split; reflexivity. Qed.

(** Two objects with the same fields are different entries; two equal
    strings are the same id. *)
Example strict_eq_identity :
  Chat.strict_eq (Chat.VObj 0 [("id", "s1")]) (Chat.VObj 1 [("id", "s1")]) = false
  /\ Chat.strict_eq (Chat.VStr "s1") (Chat.VStr "s1") = true
  /\ Chat.strict_eq (Chat.VStr "s1") (Chat.VObj 0 [("id", "s1")]) = false.
Proof. repeat split; reflexivity. Qed.

(** ** Truthiness and whitespace *)

Lemma truthy_str_nonempty s : truthy_str s = true <-> s <> "".
Proof. destruct s; simpl; split; congruence. Qed.

Lemma truthy_false v : truthy v = false <-> v = None \/ v = Some "".
Proof.
  destruct v as [[|c s]|]; simpl; split; intros H; auto; try discriminate.
  destruct H as [H|H]; discriminate.
Qed.

Lemma truthy_default v : truthy v = true -> v = Some (default "" v).
Proof. destruct v; simpl; [reflexivity | discriminate]. Qed.

Lemma trimStart_all_space s : all_space s = true -> trimStart s = "".
Proof.
  induction s as [|c s IH]; simpl; [reflexivity|].
  intros [Hc Hs]%andb_prop. rewrite Hc. auto.
Qed.

Lemma trimEnd_empty s : trimEnd s = "" <-> all_space s = true.
Proof.
  induction s as [|c s IH]; simpl; [tauto|].
  destruct (trimEnd s) eqn:Ht.
  - destruct (is_space c); simpl.
    + split; [intros _; apply IH; reflexivity | reflexivity].
    + split; discriminate.
  - split; [discriminate|]. intros [_ Hs]%andb_prop.
    apply IH in Hs. discriminate.
Qed.

Lemma trimStart_not_all_space s :
  all_space s = false -> all_space (trimStart s) = false.
Proof.
  induction s as [|c s IH]; simpl; [discriminate|].
  destruct (is_space c) eqn:Hc; simpl; [exact IH|].
  intros _. rewrite Hc. reflexivity.
Qed.

(** [!input.trim()] holds exactly for the empty and the whitespace-only
    strings. *)
Lemma trim_falsy s : truthy_str (trim s) = false <-> all_space s = true.
Proof.
  unfold trim. split.
  - intros H. destruct (all_space s) eqn:Hs; [reflexivity|].
    apply trimStart_not_all_space in Hs.
    destruct (trimEnd (trimStart s)) eqn:Ht; [|discriminate].
    apply trimEnd_empty in Ht. congruence.
  - intros H. rewrite (trimStart_all_space s H). reflexivity.
Qed.

(** ** The API client *)

Module ApiFacts.

Import Api.

Section Facts.

Variable backend : list Config -> Config -> Reply.

Lemma transport_world c w :
  snd (transport backend c w) = mkWorld (storage w) (defaults_auth w) (log w ++ [c]).
Proof.
  unfold transport. destruct (backend (log w) c) as [st body|]; simpl;
    [destruct (validateStatus st)|]; reflexivity.
Qed.

Lemma transport_storage c w out w1 :
  transport backend c w = (out, w1) ->
  storage w1 = storage w /\ defaults_auth w1 = defaults_auth w
  /\ log w1 = log w ++ [c].
Proof.
  intros H. pose proof (transport_world c w) as Hw. rewrite H in Hw.
  simpl in Hw. subst w1. simpl. auto.
Qed.

Lemma transport_rejected_config c w e w1 :
  transport backend c w = (Rejected e, w1) -> config e = c.
Proof.
  unfold transport. destruct (backend (log w) c) as [st body|];
    [destruct (validateStatus st)|]; intros H; inversion H; reflexivity.
Qed.

(** The marker stops the interceptor, whatever the status. *)
Lemma onRejected_marked call e w :
  _retry (config e) = true -> onRejected_with call e w = Some (Rejected e, w).
Proof.
  intros H. unfold onRejected_with. rewrite H, andb_false_r. reflexivity.
Qed.

Lemma onRejected_other_status call e w :
  unauthorized e = false -> onRejected_with call e w = Some (Rejected e, w).
Proof. intros H. unfold onRejected_with. rewrite H. reflexivity. Qed.

(** A retried request settles with its round trip: the interceptor does not
    act on it again. *)
Lemma api_marked fuel c w :
  _retry c = true -> authorization c <> None ->
  api backend (S fuel) c w = Some (transport backend c w).
Proof.
  intros Hr Ha. simpl.
  assert (merge_defaults c w = c) as ->.
  { unfold merge_defaults. destruct (authorization c); congruence. }
  destruct (transport backend c w) as [[r|e] w1] eqn:Ht; [reflexivity|].
  apply onRejected_marked.
  rewrite (transport_rejected_config _ _ _ _ Ht). exact Hr.
Qed.

Lemma merge_defaults_retry c w : _retry (merge_defaults c w) = _retry c.
Proof. unfold merge_defaults. destruct (authorization c); reflexivity. Qed.

(** C7. A request whose round trip fails with a network error or with a
    status other than 401 is rejected with that very error; the one request
    is all that went over the wire (no refresh, no retry), and the stored
    credentials and the default header are as before. *)
Theorem other_errors_propagate_unchanged fuel c w e w1 :
  transport backend (merge_defaults c w) w = (Rejected e, w1) ->
  unauthorized e = false ->
  api backend (S fuel) c w = Some (Rejected e, w1)
  /\ log w1 = log w ++ [merge_defaults c w]
  /\ storage w1 = storage w
  /\ defaults_auth w1 = defaults_auth w.
Proof.
  intros Ht Hs. simpl. rewrite Ht.
  rewrite (onRejected_other_status _ _ _ Hs).
  destruct (transport_storage _ _ _ _ Ht) as (H1 & H2 & H3). auto.
Qed.

(** The converse direction of C7: when a call puts more than its own request
    on the wire, its round trip had failed with status 401. *)
Lemma interceptor_acts_only_on_401 fuel c w out w' :
  api backend (S fuel) c w = Some (out, w') ->
  log w' <> log w ++ [merge_defaults c w] ->
  exists e w1,
    transport backend (merge_defaults c w) w = (Rejected e, w1)
    /\ unauthorized e = true /\ _retry c = false.
Proof.
  simpl. destruct (transport backend (merge_defaults c w) w) as [[r|e] w1] eqn:Ht.
  - intros H Hlog. inversion H; subst. exfalso. apply Hlog.
    apply (transport_storage _ _ _ _ Ht).
  - intros H Hlog. exists e, w1. split; [reflexivity|].
    destruct (unauthorized e) eqn:Hu.
    + split; [reflexivity|].
      destruct (_retry c) eqn:Hr; [|reflexivity].
      rewrite onRejected_marked in H.
      * inversion H; subst. exfalso. apply Hlog.
        apply (transport_storage _ _ _ _ Ht).
      * rewrite (transport_rejected_config _ _ _ _ Ht), merge_defaults_retry.
        exact Hr.
    + rewrite (onRejected_other_status _ _ _ Hu) in H.
      inversion H; subst. exfalso. apply Hlog.
      apply (transport_storage _ _ _ _ Ht).
Qed.

(** [refreshToken] with a stored refresh token and a call that resolves
    with a token. *)
Lemma refreshToken_success call w rt res w1 t :
  getItem "refresh_token" w = Some rt -> truthy_str rt = true ->
  call (refresh_config rt) w = Some (Resolved res, w1) ->
  body_field "access_token" (rdata res) = Some t -> truthy_str t = true ->
  refreshToken_with call w
  = Some (Some t, setAuthToken (Some t) (setItem "access_token" t w1)).
Proof.
  intros Hrt Hrt' Hcall Ht Ht'. unfold refreshToken_with.
  rewrite Hrt. simpl. rewrite Hrt'. simpl. rewrite Hcall.
  destruct (rdata res) eqn:Hd; simpl in Ht; try discriminate.
  rewrite Ht. simpl. rewrite Ht'. reflexivity.
Qed.

(** [refreshToken] gives [null] when its call throws or brings no token. *)
Lemma refreshToken_null call w rt out w1 :
  getItem "refresh_token" w = Some rt -> truthy_str rt = true ->
  call (refresh_config rt) w = Some (out, w1) ->
  no_token out = true ->
  refreshToken_with call w = Some (None, w1).
Proof.
  intros Hrt Hrt' Hcall Hno. unfold refreshToken_with.
  rewrite Hrt. simpl. rewrite Hrt'. simpl. rewrite Hcall.
  destruct out as [res|err]; [|reflexivity].
  simpl in Hno. destruct (rdata res); simpl in *; try reflexivity.
  apply negb_true_iff in Hno. rewrite Hno. reflexivity.
Qed.

(** [refreshToken] without a stored refresh token: [null], and nothing is
    sent. *)
Lemma refreshToken_missing call w :
  truthy (getItem "refresh_token" w) = false ->
  refreshToken_with call w = Some (None, w).
Proof. intros H. unfold refreshToken_with. rewrite H. reflexivity. Qed.

(** C1, as amended. A request fails with status 401 and carries no marker;
    a refresh token is stored and POST /user/refresh is answered with an
    access token [t]. Then the client stores [t], sets it as the default
    header, and sends the original request once more with [Bearer t] and the
    marker; the call settles with whatever that second round trip gives,
    a second 401 included. Exactly three requests went over the wire: the
    original, one refresh, one retry. *)
Theorem retry_once_after_refresh fuel c w e w1 rt res w2 t :
  transport backend (merge_defaults c w) w = (Rejected e, w1) ->
  unauthorized e = true ->
  _retry c = false ->
  getItem "refresh_token" w1 = Some rt -> truthy_str rt = true ->
  transport backend (merge_defaults (refresh_config rt) w1) w1 = (Resolved res, w2) ->
  body_field "access_token" (rdata res) = Some t -> truthy_str t = true ->
  let w3 := setAuthToken (Some t) (setItem "access_token" t w2) in
  let retry := with_authorization (bearer t) (with_retry (merge_defaults c w)) in
  api backend (S (S fuel)) c w = Some (transport backend retry w3)
  /\ log (snd (transport backend retry w3))
     = log w ++ [merge_defaults c w; merge_defaults (refresh_config rt) w1; retry]
  /\ getItem "access_token" (snd (transport backend retry w3)) = Some t
  /\ defaults_auth (snd (transport backend retry w3)) = Some (bearer t)
  /\ authorization retry = Some (bearer t).
Proof.
  intros Ht Hu Hr Hrt Hrt' Href Htok Htok' w3 retry.
  assert (Hcall : api backend (S fuel) (refresh_config rt) w1 = Some (Resolved res, w2)).
  { simpl. rewrite Href. reflexivity. }
  assert (Hapi : api backend (S (S fuel)) c w = Some (transport backend retry w3)).
  { change (api backend (S (S fuel)) c w)
      with (match transport backend (merge_defaults c w) w with
            | (Resolved r, w1) => Some (Resolved r, w1)
            | (Rejected e, w1) => onRejected_with (api backend (S fuel)) e w1
            end).
    rewrite Ht. unfold onRejected_with, marked. cbn [config].
    rewrite Hu, (transport_rejected_config _ _ _ _ Ht), merge_defaults_retry, Hr.
    simpl negb. simpl andb. cbv iota.
    rewrite (refreshToken_success _ _ _ _ _ _ Hrt Hrt' Hcall Htok Htok').
    apply api_marked; [reflexivity | discriminate]. }
  split; [exact Hapi|].
  rewrite transport_world. simpl.
  destruct (transport_storage _ _ _ _ Ht) as (_ & _ & Hl1).
  destruct (transport_storage _ _ _ _ Href) as (_ & _ & Hl2).
  unfold w3, setAuthToken. rewrite Htok'. simpl.
  rewrite Hl2, Hl1, <- !app_assoc. simpl.
  repeat split.
  unfold getItem. simpl. apply lookup_insert_eq.
Qed.

(** Where the refresh fails and the credentials are cleared. A request
    fails with status 401 and carries no marker; the refresh request is then
    answered with no response at all, with a status outside 2xx other than
    401, or with a 2xx that carries no access token. The caller gets the 401
    error back (rejected promise), neither [access_token] nor [refresh_token]
    is left in localStorage, and nothing is sent after the refresh request.
    A refresh answered with 401 is not among these cases: see
    [refresh_answered_401_never_settles]. *)
Lemma failed_refresh_clears_credentials fuel c w e w1 rt out w2 :
  transport backend (merge_defaults c w) w = (Rejected e, w1) ->
  unauthorized e = true ->
  _retry c = false ->
  getItem "refresh_token" w1 = Some rt -> truthy_str rt = true ->
  transport backend (merge_defaults (refresh_config rt) w1) w1 = (out, w2) ->
  no_token out = true ->
  match out with
  | Rejected e2 => unauthorized e2 = false
  | Resolved _ => True
  end ->
  exists w',
    api backend (S (S fuel)) c w = Some (Rejected (marked e), w')
    /\ getItem "access_token" w' = None
    /\ getItem "refresh_token" w' = None
    /\ log w' = log w ++ [merge_defaults c w; merge_defaults (refresh_config rt) w1].
Proof.
  intros Ht Hu Hr Hrt Hrt' Href Hno Hout.
  assert (Hcall : api backend (S fuel) (refresh_config rt) w1 = Some (out, w2)).
  { simpl. rewrite Href. destruct out as [res|e2]; [reflexivity|].
    apply onRejected_other_status, Hout. }
  exists (removeItem "refresh_token" (removeItem "access_token" w2)).
  split.
  - change (api backend (S (S fuel)) c w)
      with (match transport backend (merge_defaults c w) w with
            | (Resolved r, w1) => Some (Resolved r, w1)
            | (Rejected e, w1) => onRejected_with (api backend (S fuel)) e w1
            end).
    rewrite Ht. unfold onRejected_with.
    rewrite Hu, (transport_rejected_config _ _ _ _ Ht), merge_defaults_retry, Hr.
    simpl negb. simpl andb. cbv iota.
    rewrite (refreshToken_null _ _ _ _ _ Hrt Hrt' Hcall Hno).
    reflexivity.
  - destruct (transport_storage _ _ _ _ Ht) as (_ & _ & Hl1).
    destruct (transport_storage _ _ _ _ Href) as (_ & _ & Hl2).
    unfold getItem, removeItem, set_storage. simpl. repeat split.
    + rewrite lookup_delete_ne by discriminate. apply lookup_delete_eq.
    + apply lookup_delete_eq.
    + rewrite Hl2, Hl1, <- app_assoc. reflexivity.
Qed.

(** Without a stored refresh token a call is one round trip: a 401 is
    answered by clearing the credentials, never by a retry. *)
Lemma api_without_refresh_token fuel c w :
  truthy (getItem "refresh_token" w) = false ->
  api backend (S fuel) c w
  = match transport backend (merge_defaults c w) w with
    | (Resolved r, w1) => Some (Resolved r, w1)
    | (Rejected e, w1) =>
        if unauthorized e && negb (_retry c)
        then Some (Rejected (marked e),
                   removeItem "refresh_token" (removeItem "access_token" w1))
        else Some (Rejected e, w1)
    end.
Proof.
  intros Hrt. simpl.
  destruct (transport backend (merge_defaults c w) w) as [[r|e] w1] eqn:Ht;
    [reflexivity|].
  unfold onRejected_with.
  rewrite (transport_rejected_config _ _ _ _ Ht), merge_defaults_retry.
  destruct (unauthorized e && negb (_retry c)); [|reflexivity].
  rewrite refreshToken_missing.
  - reflexivity.
  - unfold getItem in *.
    destruct (transport_storage _ _ _ _ Ht) as (Hs & _ & _). rewrite Hs.
    exact Hrt.
Qed.

(** The refresh request goes through the same instance. When every request
    is answered with 401 and a refresh token is stored, each refresh call
    re-enters the interceptor with a fresh config and starts another one: no
    amount of fuel lets the call settle. *)
Lemma refresh_answered_401_never_settles
    (H401 : forall sent c, exists body, backend sent c = HttpReply 401 body)
    fuel c w rt :
  getItem "refresh_token" w = Some rt -> truthy_str rt = true ->
  _retry c = false ->
  api backend fuel c w = None.
Proof.
  revert c w. induction fuel as [|fuel IH]; intros c w Hrt Hrt' Hr; [reflexivity|].
  simpl. unfold transport at 1.
  destruct (H401 (log w) (merge_defaults c w)) as [body Hb]. rewrite Hb.
  simpl. unfold onRejected_with. simpl.
  rewrite merge_defaults_retry, Hr. simpl.
  unfold refreshToken_with. unfold getItem in *. simpl. rewrite Hrt. simpl.
  rewrite Hrt'. simpl.
  rewrite IH; [reflexivity | exact Hrt | exact Hrt' | reflexivity].
Qed.

(** More fuel does not change a result. *)
Lemma refreshToken_with_mono (call call' : Config -> World -> M Outcome) :
  (forall c w r, call c w = Some r -> call' c w = Some r) ->
  forall w r, refreshToken_with call w = Some r -> refreshToken_with call' w = Some r.
Proof.
  intros Hcall w r. unfold refreshToken_with.
  destruct (negb (truthy (getItem "refresh_token" w))); [auto|].
  destruct (call (refresh_config _) w) as [[out w1]|] eqn:E; [|discriminate].
  rewrite (Hcall _ _ _ E). auto.
Qed.

Lemma onRejected_with_mono (call call' : Config -> World -> M Outcome) :
  (forall c w r, call c w = Some r -> call' c w = Some r) ->
  forall e w r, onRejected_with call e w = Some r -> onRejected_with call' e w = Some r.
Proof.
  intros Hcall e w r. unfold onRejected_with.
  destruct (unauthorized e && negb (_retry (config e))); [|auto].
  destruct (refreshToken_with call w) as [[[t|] w1]|] eqn:E; [| |discriminate];
    rewrite (refreshToken_with_mono call call' Hcall _ _ E); auto.
Qed.

Lemma api_fuel_mono fuel : forall c w r,
  api backend fuel c w = Some r -> api backend (S fuel) c w = Some r.
Proof.
  induction fuel as [|fuel IH]; intros c w r H; [discriminate|].
  change (api backend (S (S fuel)) c w)
    with (match transport backend (merge_defaults c w) w with
          | (Resolved r, w1) => Some (Resolved r, w1)
          | (Rejected e, w1) => onRejected_with (api backend (S fuel)) e w1
          end).
  simpl in H.
  destruct (transport backend (merge_defaults c w) w) as [[res|e] w1]; [exact H|].
  exact (onRejected_with_mono _ _ IH _ _ _ H).
Qed.

End Facts.


Example other_errors_propagate_unchanged_witness :
  api (scripted [HttpReply 500 BNull]) 1 Chat.sessions_config Sample.logged_in
  = Some (Rejected (mkError (mkConfig GET "/chat/history" [] (Some "Bearer stale") false)
                            (Some (mkResponse 500 BNull))),
          mkWorld {["access_token" := "stale"]} (Some "Bearer stale")
                  [mkConfig GET "/chat/history" [] (Some "Bearer stale") false]).
Proof.
  apply (other_errors_propagate_unchanged (scripted [HttpReply 500 BNull]) 0
           Chat.sessions_config Sample.logged_in); reflexivity.
Defined.

(** C1 as stated fails where no refresh token is stored, which is the state
    [handleLogin] leaves: the request is answered 401 and carries no marker,
    yet one request is all that reaches the wire (no POST /user/refresh, no
    retry), although the backend would have answered a refresh and a retry. The
    caller gets the 401 back and the stored token is gone. *)
Example unauthorized_without_refresh_token_is_not_retried :
  api (scripted Sample.expired_then_refreshed) 3 Chat.sessions_config Sample.logged_in
  = Some (Rejected (mkError (mkConfig GET "/chat/history" [] (Some "Bearer stale") true)
                            (Some (mkResponse 401 BNull))),
          mkWorld ∅ (Some "Bearer stale")
                  [mkConfig GET "/chat/history" [] (Some "Bearer stale") false]).
Proof. vm_compute. reflexivity. Qed.

Example retry_once_after_refresh_witness :
  api (scripted Sample.expired_twice) 2 Chat.sessions_config Sample.with_refresh_token
  = Some (Rejected (mkError (mkConfig GET "/chat/history" [] (Some "Bearer fresh") true)
                            (Some (mkResponse 401 BNull))),
          mkWorld (<["access_token" := "fresh"]>
                     (<["refresh_token" := "r1"]> {["access_token" := "stale"]}))
                  (Some "Bearer fresh")
                  [mkConfig GET "/chat/history" [] (Some "Bearer stale") false;
                   mkConfig POST "/user/refresh" [("refresh_token", "r1")]
                            (Some "Bearer stale") false;
                   mkConfig GET "/chat/history" [] (Some "Bearer fresh") true]).
Proof.
  apply (retry_once_after_refresh (scripted Sample.expired_twice) 0
           Chat.sessions_config Sample.with_refresh_token
           (mkError (mkConfig GET "/chat/history" [] (Some "Bearer stale") false)
                    (Some (mkResponse 401 BNull)))
           (mkWorld (storage Sample.with_refresh_token) (Some "Bearer stale")
                    [mkConfig GET "/chat/history" [] (Some "Bearer stale") false])
           "r1"
           (mkResponse 200 (BObj [("access_token", "fresh")]))
           (mkWorld (storage Sample.with_refresh_token) (Some "Bearer stale")
                    [mkConfig GET "/chat/history" [] (Some "Bearer stale") false;
                     mkConfig POST "/user/refresh" [("refresh_token", "r1")]
                              (Some "Bearer stale") false])
           "fresh");
    reflexivity.
Defined.

Example failed_refresh_clears_credentials_refused :
  exists w',
    api (scripted Sample.refresh_refused) 2 Chat.sessions_config Sample.with_refresh_token
    = Some (Rejected (mkError (mkConfig GET "/chat/history" [] (Some "Bearer stale") true)
                              (Some (mkResponse 401 BNull))), w')
    /\ getItem "access_token" w' = None
    /\ getItem "refresh_token" w' = None
    /\ log w' = [mkConfig GET "/chat/history" [] (Some "Bearer stale") false;
                 mkConfig POST "/user/refresh" [("refresh_token", "r1")]
                          (Some "Bearer stale") false].
Proof.
  apply (failed_refresh_clears_credentials (scripted Sample.refresh_refused) 0
           Chat.sessions_config Sample.with_refresh_token
           (mkError (mkConfig GET "/chat/history" [] (Some "Bearer stale") false)
                    (Some (mkResponse 401 BNull)))
           (mkWorld (storage Sample.with_refresh_token) (Some "Bearer stale")
                    [mkConfig GET "/chat/history" [] (Some "Bearer stale") false])
           "r1"
           (Rejected (mkError (mkConfig POST "/user/refresh" [("refresh_token", "r1")]
                                        (Some "Bearer stale") false)
                              (Some (mkResponse 403 BNull))))
           (mkWorld (storage Sample.with_refresh_token) (Some "Bearer stale")
                    [mkConfig GET "/chat/history" [] (Some "Bearer stale") false;
                     mkConfig POST "/user/refresh" [("refresh_token", "r1")]
                              (Some "Bearer stale") false]));
    reflexivity.
Defined.

(** C6 on the interceptor of part_001. localStorage holds a refresh token and
    the backend answers 401 to every request, POST /user/refresh included (the
    refresh token has expired too). The refresh fails, yet nothing is cleared
    and the caller is never told: the refresh request goes out through the
    same intercepted instance with a config of its own (no [_retry] on it),
    so its 401 enters the interceptor, which calls [refreshToken] again, and
    so on. The first [refreshToken] never returns, the two [removeItem] after
    it are never reached, and no amount of fuel lets the call settle. *)
Theorem refresh_rejected_with_401_clears_nothing :
  forall fuel,
    api (always 401) fuel Chat.sessions_config Sample.with_refresh_token = None.
Proof.
  intros fuel.
  apply (refresh_answered_401_never_settles (always 401)) with (rt := "r1");
    try reflexivity.
  intros sent c. exists BNull. reflexivity.
Qed.

(** A backend that rejects the refresh token with 401 as well: the number
    of refresh calls follows the backend, here four of them before the
    network gives up. *)
Example refresh_calls_follow_the_backend :
  match api (scripted (repeat (HttpReply 401 BNull) 4)) 10
            Chat.sessions_config Sample.with_refresh_token with
  | Some (_, w') => length (List.filter is_refresh (log w')) = 4
  | None => False
  end.
Proof. vm_compute. reflexivity. Qed.

End ApiFacts.

(** ** The stored credentials over whole executions *)

Module ClientFacts.

Import Api.

Lemma setAuthToken_storage t w : storage (setAuthToken t w) = storage w.
Proof. destruct t as [t|]; simpl; [destruct (truthy_str t)|]; reflexivity. Qed.

Lemma setAuthToken_log t w : log (setAuthToken t w) = log w.
Proof. destruct t as [t|]; simpl; [destruct (truthy_str t)|]; reflexivity. Qed.

Lemma getItem_setAuthToken k t w : getItem k (setAuthToken t w) = getItem k w.
Proof. unfold getItem. rewrite setAuthToken_storage. reflexivity. Qed.

Lemma getItem_setItem_other k k' v w :
  k' <> k -> getItem k (setItem k' v w) = getItem k w.
Proof. intros H. unfold getItem, setItem. simpl. apply lookup_insert_ne, H. Qed.

Lemma getItem_removeItem_absent k k' w :
  getItem k w = None -> getItem k (removeItem k' w) = None.
Proof.
  unfold getItem, removeItem. simpl. intros H.
  rewrite lookup_delete. destruct (decide (k' = k)); [reflexivity | exact H].
Qed.

Lemma getItem_removeItem_same k w : getItem k (removeItem k w) = None.
Proof. unfold getItem, removeItem. simpl. apply lookup_delete_eq. Qed.

Lemma getItem_removeItem_other k k' w :
  k' <> k -> getItem k (removeItem k' w) = getItem k w.
Proof. intros H. unfold getItem, removeItem. simpl. apply lookup_delete_ne, H. Qed.

Section Executions.

Variable backend : list Config -> Config -> Reply.

(** Without a refresh token a call takes one round trip and leaves none
    behind. *)
Lemma api_keeps_refresh_token_absent fuel c w :
  getItem "refresh_token" w = None ->
  exists out w',
    api backend (S fuel) c w = Some (out, w')
    /\ getItem "refresh_token" w' = None
    /\ log w' = log w ++ [merge_defaults c w]
    /\ (forall r, out = Resolved r ->
                  fst (transport backend (merge_defaults c w) w) = Resolved r).
Proof.
  intros Hrt.
  rewrite ApiFacts.api_without_refresh_token by (rewrite Hrt; reflexivity).
  destruct (transport backend (merge_defaults c w) w) as [[r|e] w1] eqn:Ht.
  - destruct (ApiFacts.transport_storage _ _ _ _ _ Ht) as (Hs & _ & Hl).
    exists (Resolved r), w1. unfold getItem in *. rewrite Hs.
    repeat split; auto.
  - destruct (ApiFacts.transport_storage _ _ _ _ _ Ht) as (Hs & _ & Hl).
    assert (Hw1 : getItem "refresh_token" w1 = None)
      by (unfold getItem in *; rewrite Hs; exact Hrt).
    destruct (unauthorized e && negb (_retry c)).
    + eexists _, _. split; [reflexivity|]. repeat split.
      * apply getItem_removeItem_absent, getItem_removeItem_absent, Hw1.
      * exact Hl.
      * intros r H. discriminate H.
    + exists (Rejected e), w1. repeat split; auto; intros r H; discriminate H.
Qed.

Lemma refreshToken_keeps_absent fuel w :
  getItem "refresh_token" w = None ->
  refreshToken backend fuel w = Some (None, w).
Proof.
  intros H. apply ApiFacts.refreshToken_missing. rewrite H. reflexivity.
Qed.

Lemma handleLogin_keeps_absent fuel st w :
  getItem "refresh_token" w = None ->
  exists st' w',
    Login.handleLogin backend (S fuel) st w = Some (st', w')
    /\ getItem "refresh_token" w' = None.
Proof.
  intros Hrt. unfold Login.handleLogin.
  destruct (negb (Login.emailRegex_test _)); [eauto|].
  destruct (api_keeps_refresh_token_absent fuel
              (Login.login_config (Login.email (Login.setError "" st))
                                  (Login.password (Login.setError "" st))) w Hrt)
    as (out & w1 & Hapi & Hw1 & _).
  rewrite Hapi. destruct out as [res|err]; [|eauto].
  destruct (rdata res); try (eexists _, _; split; [reflexivity | exact Hw1]);
    destruct (negb (truthy _));
    try (eexists _, _; split; [reflexivity | exact Hw1]);
    (eexists _, _; split; [reflexivity|];
     rewrite getItem_setAuthToken, getItem_setItem_other by discriminate;
     exact Hw1).
Qed.

Lemma initAuth_keeps_absent fuel st w :
  getItem "refresh_token" w = None ->
  exists st' w',
    Chat.initAuth backend (S fuel) st w = Some (st', w')
    /\ getItem "refresh_token" w' = None.
Proof.
  intros Hrt. unfold Chat.initAuth.
  destruct (negb (truthy (getItem "access_token" w))); [eauto|].
  assert (Hrt' : getItem "refresh_token" (setAuthToken (getItem "access_token" w) w) = None)
    by (rewrite getItem_setAuthToken; exact Hrt).
  destruct (api_keeps_refresh_token_absent fuel Chat.sessions_config _ Hrt')
    as (out & w1 & Hapi & Hw1 & _).
  rewrite Hapi. destruct out as [res|err]; [eauto|].
  destruct (unauthorized err); [|eauto].
  rewrite (refreshToken_keeps_absent _ _ Hw1).
  eexists _, _. split; [reflexivity|].
  unfold Chat.clear_credentials.
  apply getItem_removeItem_absent, getItem_removeItem_absent, Hw1.
Qed.

Lemma act_keeps_absent fuel a w :
  getItem "refresh_token" w = None ->
  exists w',
    Client.act backend (S fuel) a w = Some w'
    /\ getItem "refresh_token" w' = None.
Proof.
  intros Hrt. destruct a as [c|e p| | | | |id|]; unfold Client.act.
  - destruct (api_keeps_refresh_token_absent fuel c w Hrt) as (out & w' & H & H' & _).
    rewrite H. eauto.
  - destruct (handleLogin_keeps_absent fuel (Login.mkState e p "" "/") w Hrt)
      as (st' & w' & H & H').
    rewrite H. eauto.
  - destruct (initAuth_keeps_absent fuel Chat.init w Hrt) as (st' & w' & H & H').
    rewrite H. eauto.
  - eexists. split; [reflexivity|]. unfold Chat.handleLogout. cbn [snd].
    rewrite getItem_setAuthToken. unfold Chat.clear_credentials.
    apply getItem_removeItem_absent, getItem_removeItem_absent, Hrt.
  - eexists. split; [reflexivity|].
    rewrite getItem_setAuthToken. unfold Chat.clear_credentials.
    do 3 apply getItem_removeItem_absent. exact Hrt.
  - eexists. split; [reflexivity|].
    rewrite getItem_setAuthToken. apply getItem_removeItem_absent, Hrt.
  - eexists. split; [reflexivity|].
    rewrite getItem_setItem_other by discriminate. exact Hrt.
  - eexists. split; [reflexivity|]. apply getItem_removeItem_absent, Hrt.
Qed.

Lemma run_keeps_absent fuel actions : forall w,
  getItem "refresh_token" w = None ->
  exists w',
    Client.run backend (S fuel) actions w = Some w'
    /\ getItem "refresh_token" w' = None.
Proof.
  induction actions as [|a rest IH]; intros w Hrt.
  - exists w. split; [reflexivity | exact Hrt].
  - destruct (act_keeps_absent fuel a w Hrt) as (w1 & Ha & Hw1).
    destruct (IH w1 Hw1) as (w' & Hr & Hw').
    exists w'. split; [|exact Hw'].
    change (Client.run backend (S fuel) (a :: rest) w)
      with (match Client.act backend (S fuel) a w with
            | Some w' => Client.run backend (S fuel) rest w'
            | None => None
            end).
    rewrite Ha. exact Hr.
Qed.

(** C9. Start from a localStorage without [refresh_token] and let the client
    run any sequence of its operations (calls through the instance, login,
    mount, logout, the session bookkeeping of the older page). Every
    operation returns, the key is still absent afterwards, [refreshToken]
    returns [null] without sending anything, and any further call is a
    single round trip: its result is never that of a retried request. *)
Theorem refresh_token_is_never_written fuel actions w :
  getItem "refresh_token" w = None ->
  exists w',
    Client.run backend (S fuel) actions w = Some w'
    /\ getItem "refresh_token" w' = None
    /\ refreshToken backend fuel w' = Some (None, w')
    /\ forall c, exists out w'',
         api backend (S fuel) c w' = Some (out, w'')
         /\ log w'' = log w' ++ [merge_defaults c w']
         /\ (forall r, out = Resolved r ->
               fst (transport backend (merge_defaults c w') w') = Resolved r).
Proof.
  intros Hrt.
  destruct (run_keeps_absent fuel actions w Hrt) as (w' & Hrun & Hw').
  exists w'. split; [exact Hrun|]. split; [exact Hw'|].
  split; [apply refreshToken_keeps_absent, Hw'|].
  intros c.
  destruct (api_keeps_refresh_token_absent fuel c w' Hw') as (out & w'' & H1 & _ & H2 & H3).
  exists out, w''. auto.
Qed.

(** From any localStorage: an operation that returns has left
    [refresh_token] as it was, or has removed it. *)
Lemma api_refresh_token_untouched fuel : forall c w out w',
  api backend fuel c w = Some (out, w') ->
  getItem "refresh_token" w' = None
  \/ getItem "refresh_token" w' = getItem "refresh_token" w.
Proof.
  induction fuel as [|fuel IH]; intros c w out w' H; [discriminate|].
  simpl in H.
  destruct (transport backend (merge_defaults c w) w) as [[r|e] w1] eqn:Ht;
    destruct (ApiFacts.transport_storage _ _ _ _ _ Ht) as (Hs & _ & _).
  { inversion H; subst. right. unfold getItem. rewrite Hs. reflexivity. }
  assert (H1 : getItem "refresh_token" w1 = getItem "refresh_token" w)
    by (unfold getItem; rewrite Hs; reflexivity).
  unfold onRejected_with in H.
  destruct (unauthorized e && negb (_retry (config e))).
  2:{ inversion H; subst. right. exact H1. }
  unfold refreshToken_with in H.
  destruct (negb (truthy (getItem "refresh_token" w1))).
  { inversion H; subst. left. unfold getItem, removeItem. simpl.
    apply lookup_delete_eq. }
  destruct (api backend fuel (refresh_config _) w1) as [[[res|err] w2]|] eqn:Hc;
    [| |discriminate].
  - apply IH in Hc.
    assert (Hnull : forall w3, Some (Rejected (mkError (with_retry (config e)) (response e)),
                     removeItem "refresh_token" (removeItem "access_token" w2))
                    = Some (out, w3) ->
                    getItem "refresh_token" w3 = None).
    { intros w3 E. inversion E; subst. unfold getItem, removeItem. simpl.
      apply lookup_delete_eq. }
    destruct (rdata res) eqn:Hd; try (left; apply Hnull; exact H);
      (destruct (truthy (body_field "access_token" _)) eqn:Htok;
       [| left; apply Hnull; exact H]);
      apply IH in H;
      rewrite getItem_setAuthToken, getItem_setItem_other in H by discriminate;
      rewrite <- H1; destruct H as [H|H]; auto; destruct Hc as [Hc|Hc];
        [left | right]; congruence.
  - inversion H; subst. left. unfold getItem, removeItem. simpl.
    apply lookup_delete_eq.
Qed.

Local Opaque setAuthToken setItem removeItem.

Lemma handleLogin_refresh_token_untouched fuel st w st' w' :
  Login.handleLogin backend fuel st w = Some (st', w') ->
  getItem "refresh_token" w' = None
  \/ getItem "refresh_token" w' = getItem "refresh_token" w.
Proof.
  unfold Login.handleLogin.
  destruct (negb (Login.emailRegex_test _)).
  { intros [= <- <-]. auto. }
  destruct (api backend fuel _ w) as [[[res|err] w1]|] eqn:Hc; [| |discriminate];
    apply api_refresh_token_untouched in Hc.
  - destruct (rdata res); try (intros [= <- <-]; exact Hc);
      (destruct (negb (truthy _)); intros [= <- <-]; [exact Hc|]);
      rewrite getItem_setAuthToken, getItem_setItem_other by discriminate;
      exact Hc.
  - intros [= <- <-]. exact Hc.
Qed.

Lemma refreshToken_refresh_token_untouched fuel w r w' :
  refreshToken backend fuel w = Some (r, w') ->
  getItem "refresh_token" w' = None
  \/ getItem "refresh_token" w' = getItem "refresh_token" w.
Proof.
  unfold refreshToken, refreshToken_with.
  destruct (negb (truthy (getItem "refresh_token" w))).
  { intros [= <- <-]. auto. }
  destruct (api backend fuel _ w) as [[[res|err] w1]|] eqn:Hc; [| |discriminate];
    apply api_refresh_token_untouched in Hc.
  - destruct (rdata res); try (intros [= <- <-]; exact Hc);
      (destruct (truthy _); intros [= <- <-]; [|exact Hc]);
      rewrite getItem_setAuthToken, getItem_setItem_other by discriminate;
      exact Hc.
  - intros [= <- <-]. exact Hc.
Qed.

Lemma initAuth_refresh_token_untouched fuel st w st' w' :
  Chat.initAuth backend fuel st w = Some (st', w') ->
  getItem "refresh_token" w' = None
  \/ getItem "refresh_token" w' = getItem "refresh_token" w.
Proof.
  unfold Chat.initAuth.
  destruct (negb (truthy (getItem "access_token" w))).
  { intros [= <- <-]. auto. }
  destruct (api backend fuel _ _) as [[[res|err] w1]|] eqn:Hc; [| |discriminate];
    apply api_refresh_token_untouched in Hc;
    rewrite getItem_setAuthToken in Hc.
  { intros [= <- <-]. exact Hc. }
  destruct (unauthorized err); [|intros [= <- <-]; exact Hc].
  destruct (refreshToken backend fuel w1) as [[[t|] w2]|] eqn:Hr; [| |discriminate];
    apply refreshToken_refresh_token_untouched in Hr.
  - destruct (api backend fuel _ (setAuthToken (Some t) w2)) as [[[res|err'] w4]|] eqn:Hc2;
      [| |discriminate];
      apply api_refresh_token_untouched in Hc2;
      rewrite getItem_setAuthToken in Hc2;
      intros [= <- <-];
      destruct Hc2 as [E|E]; auto; rewrite E;
      destruct Hr as [E'|E']; auto; rewrite E'; exact Hc.
  - intros [= <- <-]. left.
    unfold Chat.clear_credentials. apply getItem_removeItem_same.
Qed.

Lemma act_refresh_token_untouched fuel a w w' :
  Client.act backend fuel a w = Some w' ->
  getItem "refresh_token" w' = None
  \/ getItem "refresh_token" w' = getItem "refresh_token" w.
Proof.
  destruct a as [c|e p| | | | |id|]; unfold Client.act.
  - destruct (api backend fuel c w) as [[out w1]|] eqn:H; [|discriminate].
    intros [= <-]. eapply api_refresh_token_untouched, H.
  - destruct (Login.handleLogin backend fuel _ w) as [[st' w1]|] eqn:H; [|discriminate].
    intros [= <-]. eapply handleLogin_refresh_token_untouched, H.
  - destruct (Chat.initAuth backend fuel _ w) as [[st' w1]|] eqn:H; [|discriminate].
    intros [= <-]. eapply initAuth_refresh_token_untouched, H.
  - intros [= <-]. left. unfold Chat.handleLogout. cbn [snd].
    rewrite getItem_setAuthToken. apply getItem_removeItem_same.
  - intros [= <-]. left.
    rewrite getItem_setAuthToken, getItem_removeItem_other by discriminate.
    apply getItem_removeItem_same.
  - intros [= <-]. right.
    rewrite getItem_setAuthToken. apply getItem_removeItem_other. discriminate.
  - intros [= <-]. right. apply getItem_setItem_other. discriminate.
  - intros [= <-]. right. apply getItem_removeItem_other. discriminate.
Qed.

Local Transparent setAuthToken setItem removeItem.

(** No operation writes the key: over any execution that returns, from any
    localStorage, [refresh_token] holds what it held at the start or is
    gone. *)
Lemma refresh_token_only_ever_removed fuel actions : forall w w',
  Client.run backend fuel actions w = Some w' ->
  getItem "refresh_token" w' = None
  \/ getItem "refresh_token" w' = getItem "refresh_token" w.
Proof.
  induction actions as [|a rest IH]; intros w w' H; simpl in H.
  - inversion H; subst. auto.
  - destruct (Client.act backend fuel a w) as [w1|] eqn:Ha; [|discriminate].
    apply act_refresh_token_untouched in Ha. apply IH in H.
    destruct H as [H|H]; auto. rewrite H. exact Ha.
Qed.

(** X19. On mount, a 401 with no refresh token in store sends the user back
    to the login route with the credentials gone: the interceptor clears them
    and rejects, and [initAuth] finds no token to refresh with either. *)
Lemma initAuth_sends_back_to_login fuel st w e w1 :
  truthy (getItem "access_token" w) = true ->
  getItem "refresh_token" w = None ->
  transport backend
    (merge_defaults Chat.sessions_config (setAuthToken (getItem "access_token" w) w))
    (setAuthToken (getItem "access_token" w) w) = (Rejected e, w1) ->
  unauthorized e = true ->
  exists w',
    Chat.initAuth backend (S fuel) st w = Some (Chat.navigate "/" st, w')
    /\ getItem "access_token" w' = None
    /\ getItem "refresh_token" w' = None.
Proof.
  intros Hat Hrt Ht Hu. unfold Chat.initAuth. rewrite Hat. simpl negb. cbv iota.
  rewrite ApiFacts.api_without_refresh_token
    by (rewrite getItem_setAuthToken, Hrt; reflexivity).
  rewrite Ht, Hu. simpl andb. cbv iota.
  assert (Hu' : unauthorized (marked e) = true) by exact Hu.
  rewrite Hu'.
  destruct (ApiFacts.transport_storage _ _ _ _ _ Ht) as (Hs & _ & _).
  assert (Hw1 : getItem "refresh_token" w1 = None).
  { unfold getItem. rewrite Hs, setAuthToken_storage. exact Hrt. }
  rewrite refreshToken_keeps_absent
    by (apply getItem_removeItem_absent, getItem_removeItem_absent, Hw1).
  eexists. split; [reflexivity|]. unfold Chat.clear_credentials. split.
  - rewrite getItem_removeItem_other by discriminate.
    apply getItem_removeItem_same.
  - apply getItem_removeItem_same.
Qed.

End Executions.


Example refresh_token_is_never_written_witness :
  exists w',
    Client.run (scripted Sample.login_then_expired) 1
      [Client.HandleLogin "ann@example.org" "secret"; Client.InitAuth]
      Sample.fresh_browser = Some w'
    /\ getItem "refresh_token" w' = None
    /\ refreshToken (scripted Sample.login_then_expired) 0 w' = Some (None, w')
    /\ forall c, exists out w'',
         api (scripted Sample.login_then_expired) 1 c w' = Some (out, w'')
         /\ log w'' = log w' ++ [merge_defaults c w']
         /\ (forall r, out = Resolved r ->
               fst (transport (scripted Sample.login_then_expired)
                              (merge_defaults c w') w') = Resolved r).
Proof.
  apply (refresh_token_is_never_written (scripted Sample.login_then_expired) 0
           [Client.HandleLogin "ann@example.org" "secret"; Client.InitAuth]
           Sample.fresh_browser).
  reflexivity.
Defined.

(** The execution of the example, spelled out: the login stores the access
    token only; the 401 at mount is met without any refresh call, the token
    is dropped. *)
Example login_then_expired_run :
  Client.run (scripted Sample.login_then_expired) 1
    [Client.HandleLogin "ann@example.org" "secret"; Client.InitAuth]
    Sample.fresh_browser
  = Some (mkWorld ∅ (Some "Bearer stale")
            [mkConfig POST "/user/login"
               [("user_email", "ann@example.org"); ("user_password", "secret")]
               None false;
             mkConfig GET "/chat/history" [] (Some "Bearer stale") false]).
Proof. vm_compute. reflexivity. Qed.

End ClientFacts.

(** ** The chat page *)

Module ChatFacts.

Import Chat.

Lemma strict_eq_refl a : strict_eq a a = true.
Proof. destruct a; simpl; [apply String.eqb_refl | apply Nat.eqb_refl]. Qed.

Lemma strict_eq_sym a b : strict_eq a b = strict_eq b a.
Proof.
  destruct a, b; simpl; try reflexivity;
    [apply String.eqb_sym | apply Nat.eqb_sym].
Qed.

Lemma same_refl a : same a a = true.
Proof. destruct a; simpl; [apply strict_eq_refl | reflexivity]. Qed.

Lemma rerender_same st : rerender (activeSessionId st) st = st.
Proof. unfold rerender. rewrite same_refl. reflexivity. Qed.

(** A handler that leaves [activeSessionId] alone is not followed by the
    effect. *)
Lemma rerender_unchanged before st :
  activeSessionId st = before -> rerender before st = st.
Proof. intros <-. apply rerender_same. Qed.

(** *** sendMessage *)

(** C10. With an input that is empty or only whitespace, or with no active
    session, a press on Send (or Enter) changes nothing: messages, input,
    sessions, and the requests in flight and issued are what they were. *)
Theorem sendMessage_ignores_blank_input now st :
  all_space (input st) = true \/ activeSessionId st = None ->
  step (PressSend now) st = Some st
  /\ messages (sendMessage now st) = messages st
  /\ input (sendMessage now st) = input st
  /\ sessions (sendMessage now st) = sessions st
  /\ sent (sendMessage now st) = sent st
  /\ inflight (sendMessage now st) = inflight st.
Proof.
  intros H.
  assert (E : sendMessage now st = st).
  { unfold sendMessage. destruct H as [H|H].
    - apply trim_falsy in H. rewrite H. reflexivity.
    - rewrite H. simpl. rewrite orb_true_r. reflexivity. }
  unfold step, handle. rewrite !E. cbv iota. rewrite rerender_same.
  repeat split; reflexivity.
Qed.

Example sendMessage_ignores_blank_input_witness :
  step (PressSend "2024-05-01T10:00:00.000Z")
       (mkState [] "  " [VStr "s1"] (Some (VStr "s1")) "/chat" [] [] 0)
  = Some (mkState [] "  " [VStr "s1"] (Some (VStr "s1")) "/chat" [] [] 0).
Proof.
  apply (sendMessage_ignores_blank_input "2024-05-01T10:00:00.000Z"
           (mkState [] "  " [VStr "s1"] (Some (VStr "s1")) "/chat" [] [] 0)).
  left. reflexivity.
Defined.

Lemma sendMessage_sends now st id :
  all_space (input st) = false ->
  activeSessionId st = Some id -> truthy_val (Some id) = true ->
  sendMessage now st
  = mkState (messages st ++ [mkMessage (input st) user false (Some now);
                             typing_indicator])
            "" (sessions st) (Some id) (location st)
            (inflight st ++ [PostChat (input st) id])
            (sent st ++ [PostChat (input st) id]) (heap st).
Proof.
  intros Hin Ha Ht. unfold sendMessage.
  assert (truthy_str (trim (input st)) = true) as ->.
  { destruct (truthy_str (trim (input st))) eqn:E; [reflexivity|].
    apply trim_falsy in E. congruence. }
  rewrite Ha, Ht. simpl. unfold issue, setMessages, setInput. simpl.
  rewrite Ha, <- app_assoc. reflexivity.
Qed.

Lemma lookup_app_length {A} (l : list A) x l' : (l ++ x :: l') !! length l = Some x.
Proof. induction l as [|y l IH]; simpl; [reflexivity | exact IH]. Qed.

Lemma remove_nth_app_length {A} (l : list A) x l' :
  remove_nth (length l) (l ++ x :: l') = l ++ l'.
Proof. induction l as [|y l IH]; simpl; [reflexivity | rewrite IH; reflexivity]. Qed.

Lemma filter_not_typing_sent prev userMsg :
  isTyping userMsg = false ->
  List.filter (fun m => negb (isTyping m)) (prev ++ [userMsg; typing_indicator])
  = List.filter (fun m => negb (isTyping m)) prev ++ [userMsg].
Proof.
  intros H. rewrite List.filter_app. simpl. rewrite H. reflexivity.
Qed.


(** C5. With an input that is not blank and an active session, Send appends
    the user's message stamped with the client clock and a typing
    placeholder, empties the input and posts the message. When the reply
    arrives the placeholders are dropped and the bot's message is appended:
    the list ends with the user's message followed by the reply. When the
    post fails the placeholders are dropped and "Error sending message" is
    appended; in both cases nothing further is sent. *)
Theorem send_then_reply now now' o reply st id :
  all_space (input st) = false ->
  activeSessionId st = Some id -> truthy_val (Some id) = true ->
  field "reply" o = Some reply ->
  let userMsg := mkMessage (input st) user false (Some now) in
  let kept := List.filter (fun m => negb (isTyping m)) (messages st) in
  exists st1,
    step (PressSend now) st = Some st1
    /\ messages st1 = messages st ++ [userMsg; typing_indicator]
    /\ input st1 = ""
    /\ sent st1 = sent st ++ [PostChat (input st) id]
    /\ (exists st2,
          step (Settle (length (inflight st)) (Fulfilled (BObj o)) now') st1 = Some st2
          /\ messages st2 = kept ++ [userMsg; mkMessage reply bot false (Some now')]
          /\ sent st2 = sent st1 /\ inflight st2 = inflight st)
    /\ (exists st2,
          step (Settle (length (inflight st)) Failed now') st1 = Some st2
          /\ messages st2
             = kept ++ [userMsg; mkMessage "Error sending message" bot false (Some now')]
          /\ sent st2 = sent st1 /\ inflight st2 = inflight st).
Proof.
  intros Hin Ha Ht Hr userMsg kept.
  pose proof (sendMessage_sends now st id Hin Ha Ht) as Hs.
  eexists. split.
  { unfold step, handle. rewrite Hs. cbv iota.
    rewrite rerender_unchanged by (simpl; congruence). reflexivity. }
  simpl. repeat split.
  - eexists. split.
    + unfold step, handle. simpl. rewrite lookup_app_length. unfold settled. simpl.
      rewrite remove_nth_app_length, app_nil_r. simpl.
      rewrite rerender_unchanged by reflexivity. reflexivity.
    + simpl. unfold replace_typing.
      rewrite filter_not_typing_sent by reflexivity.
      rewrite Hr, <- app_assoc. simpl. repeat split.
  - eexists. split.
    + unfold step, handle. simpl. rewrite lookup_app_length. unfold settled. simpl.
      rewrite remove_nth_app_length, app_nil_r. simpl.
      rewrite rerender_unchanged by reflexivity. reflexivity.
    + simpl. unfold replace_typing.
      rewrite filter_not_typing_sent by reflexivity.
      rewrite <- app_assoc. simpl. repeat split.
Qed.

Example send_then_reply_witness :
  exists st1,
    step (PressSend "10:00")
         (mkState [] "hello" [VStr "s1"] (Some (VStr "s1")) "/chat" [] [] 0)
    = Some st1
    /\ messages st1 = [mkMessage "hello" user false (Some "10:00"); typing_indicator]
    /\ input st1 = ""
    /\ sent st1 = [PostChat "hello" (VStr "s1")]
    /\ (exists st2,
          step (Settle 0 (Fulfilled (BObj [("reply", "hi there")])) "10:01") st1 = Some st2
          /\ messages st2 = [mkMessage "hello" user false (Some "10:00");
                             mkMessage "hi there" bot false (Some "10:01")]
          /\ sent st2 = sent st1 /\ inflight st2 = [])
    /\ (exists st2,
          step (Settle 0 Failed "10:01") st1 = Some st2
          /\ messages st2 = [mkMessage "hello" user false (Some "10:00");
                             mkMessage "Error sending message" bot false (Some "10:01")]
          /\ sent st2 = sent st1 /\ inflight st2 = []).
Proof.
  apply (send_then_reply "10:00" "10:01" [("reply", "hi there")] "hi there"
           (mkState [] "hello" [VStr "s1"] (Some (VStr "s1")) "/chat" [] [] 0)
           (VStr "s1")); reflexivity.
Defined.

(** *** Typing placeholders *)

Lemma outstanding_issue r st :
  outstanding (issue r st)
  = outstanding st + (if is_PostChat r then 1 else 0).
Proof.
  unfold outstanding, issue. simpl. rewrite List.filter_app, length_app. simpl.
  destruct (is_PostChat r); reflexivity.
Qed.

Lemma filter_remove_nth {A} (P : A -> bool) r : forall i (l : list A),
  l !! i = Some r ->
  length (List.filter P l)
  = length (List.filter P (remove_nth i l)) + (if P r then 1 else 0).
Proof.
  induction i as [|i IH]; intros [|x l] H; try discriminate; simpl in *.
  - inversion H; subst. destruct (P r); simpl; lia.
  - pose proof (IH l H) as E. destruct (P x); simpl; lia.
Qed.

Lemma flatten_history_not_typing items :
  List.filter isTyping (flatten_history items) = [].
Proof.
  unfold flatten_history. induction items as [|item items IH]; [reflexivity|].
  simpl. rewrite List.filter_app, IH, app_nil_r.
  destruct item as [s|o]; [reflexivity|]. simpl.
  destruct (truthy (field "user_message" o)), (truthy (field "bot_message" o));
    reflexivity.
Qed.

Lemma replace_typing_not_typing msg prev :
  isTyping msg = false -> List.filter isTyping (replace_typing msg prev) = [].
Proof.
  intros H. unfold replace_typing. rewrite List.filter_app. simpl. rewrite H.
  rewrite app_nil_r. induction prev as [|m prev IH]; [reflexivity|].
  simpl. destruct (isTyping m) eqn:E; simpl; [exact IH|].
  rewrite E. exact IH.
Qed.

(** The effect may clear the list and start a history fetch; it adds no
    placeholder and no post. *)
Lemma rerender_placeholders before st :
  placeholders (rerender before st) <= placeholders st
  /\ outstanding (rerender before st) = outstanding st.
Proof.
  unfold rerender. destruct (same before (activeSessionId st)); [lia|].
  unfold fetchChat_effect.
  destruct (negb (truthy_val (activeSessionId st))); [lia|].
  destruct (activeSessionId st) as [a|]; [|lia].
  rewrite outstanding_issue. unfold placeholders, outstanding. simpl. lia.
Qed.

Lemma fetchChat_resolved_placeholders a data st :
  placeholders (fetchChat_resolved a data st) <= placeholders st
  /\ outstanding (fetchChat_resolved a data st) = outstanding st.
Proof.
  unfold fetchChat_resolved. destruct data as [o|items|s|]; try lia.
  pose proof (flatten_history_not_typing items) as Hn.
  destruct (flatten_history items) as [|first rest] eqn:E.
  - unfold placeholders, outstanding. simpl. lia.
  - destruct (from first).
    + destruct (rename_sessions _ _ _ _) as [renamed h].
      unfold placeholders, outstanding. cbn [messages inflight set_heap setSessions setMessages].
      rewrite Hn. simpl. lia.
    + unfold placeholders, outstanding. cbn [messages inflight setMessages].
      rewrite Hn. simpl. lia.
Qed.

Lemma resume_placeholders req r now st st' :
  resume req r now st = Some st' ->
  placeholders st <= outstanding st + (if is_PostChat req then 1 else 0) ->
  placeholders st' <= outstanding st'.
Proof.
  destruct req as [a| |x a ss|m id], r as [data|]; simpl; intros H Hb;
    try (inversion H; subst; lia).
  - inversion H; subst.
    destruct (fetchChat_resolved_placeholders a data st). lia.
  - unfold createNewSession_resolved in H.
    destruct data as [o|items|s|]; inversion H; subst;
      unfold placeholders; simpl; lia.
  - inversion H; subst. unfold deleteSession_resolved.
    destruct (same a (Some x)); [|unfold placeholders, outstanding in *; simpl; lia].
    destruct (without x ss);
      unfold placeholders, outstanding in *; simpl; lia.
  - unfold sendMessage_resolved in H.
    destruct data; try discriminate; inversion H; subst;
      unfold placeholders, setMessages; simpl;
      rewrite replace_typing_not_typing by reflexivity; simpl; lia.
  - inversion H; subst. unfold sendMessage_rejected, placeholders, setMessages. simpl.
    rewrite replace_typing_not_typing by reflexivity. simpl. lia.
Qed.

Lemma handle_placeholders e st st' :
  handle e st = Some st' ->
  placeholders st <= outstanding st ->
  placeholders st' <= outstanding st'.
Proof.
  destruct e as [items|v|now|k| |k confirmed|i r now]; simpl; intros H Hb.
  - inversion H; subst. unfold sessions_loaded.
    destruct (intern items (heap st)) as [vs h].
    destruct vs; unfold placeholders, outstanding in *; simpl; lia.
  - inversion H; subst. exact Hb.
  - inversion H; subst. unfold sendMessage.
    destruct (negb (truthy_str (trim (input st))) || negb (truthy_val (activeSessionId st)));
      [exact Hb|].
    destruct (activeSessionId st) as [id|]; [|exact Hb].
    rewrite outstanding_issue. simpl.
    unfold placeholders, outstanding in *. simpl.
    rewrite !List.filter_app, !length_app. simpl. lia.
  - destruct (sessions st !! k) as [s|]; [|discriminate].
    inversion H; subst. unfold selectSession.
    destruct (negb (same (Some s) (activeSessionId st))); [|exact Hb].
    unfold placeholders, outstanding in *. simpl. lia.
  - inversion H; subst. unfold createNewSession. rewrite outstanding_issue.
    unfold placeholders in *. simpl. lia.
  - destruct (sessions st !! k) as [s|]; [|discriminate].
    inversion H; subst. unfold deleteSession.
    destruct (negb confirmed); [exact Hb|].
    rewrite outstanding_issue. unfold placeholders in *. simpl. lia.
  - destruct (inflight st !! i) as [req|] eqn:Hi; [|discriminate].
    apply (resume_placeholders _ _ _ _ _ H).
    pose proof (filter_remove_nth is_PostChat req i (inflight st) Hi) as Hc.
    unfold placeholders, outstanding in *. simpl. lia.
Qed.

Lemma step_placeholders e st st' :
  step e st = Some st' ->
  placeholders st <= outstanding st ->
  placeholders st' <= outstanding st'.
Proof.
  unfold step. destruct (handle e st) as [st1|] eqn:H; [|discriminate].
  intros E Hb. inversion E; subst.
  pose proof (handle_placeholders _ _ _ H Hb).
  destruct (rerender_placeholders (activeSessionId st) st1). lia.
Qed.

Lemma run_placeholders es : forall st st',
  run es st = Some st' ->
  placeholders st <= outstanding st ->
  placeholders st' <= outstanding st'.
Proof.
  induction es as [|e es IH]; simpl; intros st st' H Hb.
  - inversion H; subst. exact Hb.
  - destruct (step e st) as [st1|] eqn:Hs; [|discriminate].
    eapply IH; [exact H|]. eapply step_placeholders; eassumption.
Qed.

(** C8. Whatever the user does and in whatever order the requests settle,
    the list never shows more typing placeholders than there are posts still
    awaiting their reply. A send that goes through appends the user's message
    and exactly one placeholder, and adds one outstanding post. When a post
    settles, by a reply or by a failure, the new list is the old one without
    every message marked isTyping, followed by the reply or by "Error sending
    message": no placeholder is left, and one post fewer is outstanding. (A
    2xx answer whose body is [null] leaves no list at all on pages/Chat.tsx:
    the page unmounts.) The completion paths of part_004 build the list in the
    same way; there the [null] body goes to the [catch]. *)
Theorem placeholders_bounded_by_outstanding_posts :
  (forall es st, run es init = Some st -> placeholders st <= outstanding st)
  /\ (forall now st id,
        all_space (input st) = false ->
        activeSessionId st = Some id -> truthy_val (Some id) = true ->
        messages (sendMessage now st)
        = messages st ++ [mkMessage (input st) user false (Some now); typing_indicator]
        /\ placeholders (sendMessage now st) = S (placeholders st)
        /\ outstanding (sendMessage now st) = S (outstanding st))
  /\ (forall i m id r now st,
        inflight st !! i = Some (PostChat m id) ->
        match r with
        | Fulfilled BNull => step (Settle i r now) st = None
        | _ =>
            exists st',
              step (Settle i r now) st = Some st'
              /\ messages st'
                 = List.filter (fun m => negb (isTyping m)) (messages st)
                   ++ [mkMessage
                         (match r with
                          | Fulfilled body => default "" (body_field "reply" body)
                          | Failed => "Error sending message"
                          end) bot false (Some now)]
              /\ placeholders st' = 0
              /\ S (outstanding st') = outstanding st
        end)
  /\ (forall data now now' st,
        (all_space (ChatV4.input st) = false ->
         ChatV4.messages (ChatV4.sendMessage now st)
         = ChatV4.messages st
           ++ [mkMessage (ChatV4.input st) user false (Some now); typing_indicator])
        /\ ChatV4.messages (ChatV4.sendMessage_resolved data now' st)
           = List.filter (fun m => negb (isTyping m)) (ChatV4.messages st)
             ++ [mkMessage
                   (match data with
                    | BNull => "Error sending message"
                    | body => default "" (body_field "reply" body)
                    end) bot false (Some now')]
        /\ ChatV4.messages (ChatV4.sendMessage_rejected now' st)
           = List.filter (fun m => negb (isTyping m)) (ChatV4.messages st)
             ++ [mkMessage "Error sending message" bot false (Some now')]).
Proof.
  split; [|split; [|split]].
  - intros es st H. apply (run_placeholders es init st H). reflexivity.
  - intros now st id Hin Ha Ht. rewrite (sendMessage_sends now st id Hin Ha Ht).
    unfold placeholders, outstanding. simpl.
    rewrite !List.filter_app, !length_app. simpl.
    split; [reflexivity | lia].
  - intros i m id r now st Hi.
    pose proof (filter_remove_nth is_PostChat (PostChat m id) i (inflight st) Hi) as Hc.
    assert (Hdone : forall msg,
              isTyping msg = false ->
              exists st',
                Some (rerender (activeSessionId st)
                        (setMessages (replace_typing msg) (settled i st))) = Some st'
                /\ messages st'
                   = List.filter (fun m => negb (isTyping m)) (messages st) ++ [msg]
                /\ placeholders st' = 0
                /\ S (outstanding st') = outstanding st).
    { intros msg Hmsg. eexists. split; [reflexivity|].
      rewrite rerender_unchanged by reflexivity.
      split; [reflexivity|]. split.
      - unfold placeholders, setMessages. simpl.
        rewrite replace_typing_not_typing by exact Hmsg. reflexivity.
      - unfold outstanding in *. simpl in *. lia. }
    unfold step, handle. rewrite Hi.
    destruct r as [[o|items|t|]|]; cbn [resume sendMessage_resolved sendMessage_rejected];
      try (apply Hdone; reflexivity).
    reflexivity.
  - intros data now now' st. split; [|split].
    + intros Hin. unfold ChatV4.sendMessage.
      assert (truthy_str (trim (ChatV4.input st)) = true) as ->.
      { destruct (truthy_str (trim (ChatV4.input st))) eqn:E; [reflexivity|].
        apply trim_falsy in E. congruence. }
      simpl. rewrite <- app_assoc. reflexivity.
    + destruct data; reflexivity.
    + reflexivity.
Qed.

Example placeholders_bounded_by_outstanding_posts_witness :
  match run [SessionsLoaded [IStr "s1"]; Typed "a"; PressSend "10:00";
             Typed "b"; PressSend "10:01";
             Settle 2 (Fulfilled (BObj [("reply", "B")])) "10:02"] init with
  | Some st => placeholders st <= outstanding st
  | None => False
  end
  /\ exists st',
       step (Settle 2 (Fulfilled (BObj [("reply", "B")])) "10:02")
            (mkState [mkMessage "a" user false (Some "10:00"); typing_indicator;
                      mkMessage "b" user false (Some "10:01"); typing_indicator]
                     "" [VStr "s1"] (Some (VStr "s1")) "/chat"
                     [GetHistory (VStr "s1"); PostChat "a" (VStr "s1");
                      PostChat "b" (VStr "s1")]
                     [GetHistory (VStr "s1"); PostChat "a" (VStr "s1");
                      PostChat "b" (VStr "s1")] 0)
       = Some st'
       /\ messages st' = [mkMessage "a" user false (Some "10:00");
                          mkMessage "b" user false (Some "10:01");
                          mkMessage "B" bot false (Some "10:02")]
       /\ placeholders st' = 0
       /\ S (outstanding st') = 2.
Proof.
  split.
  - destruct (run [SessionsLoaded [IStr "s1"]; Typed "a"; PressSend "10:00";
                   Typed "b"; PressSend "10:01";
                   Settle 2 (Fulfilled (BObj [("reply", "B")])) "10:02"] init)
      as [st|] eqn:H.
    + exact (proj1 placeholders_bounded_by_outstanding_posts _ st H).
    + vm_compute in H. discriminate H.
  - exact (proj1 (proj2 (proj2 placeholders_bounded_by_outstanding_posts))
             2 "b" (VStr "s1") (Fulfilled (BObj [("reply", "B")])) "10:02"
             (mkState [mkMessage "a" user false (Some "10:00"); typing_indicator;
                       mkMessage "b" user false (Some "10:01"); typing_indicator]
                      "" [VStr "s1"] (Some (VStr "s1")) "/chat"
                      [GetHistory (VStr "s1"); PostChat "a" (VStr "s1");
                       PostChat "b" (VStr "s1")]
                      [GetHistory (VStr "s1"); PostChat "a" (VStr "s1");
                       PostChat "b" (VStr "s1")] 0)
             eq_refl).
Defined.

(** Two sends in a row show two placeholders for two outstanding posts; the
    first reply to arrive removes both. *)
Example two_sends_race :
  match run [SessionsLoaded [IStr "s1"]; Typed "a"; PressSend "10:00";
             Typed "b"; PressSend "10:01"] init with
  | Some st =>
      placeholders st = 2 /\ outstanding st = 2
      /\ match step (Settle 2 (Fulfilled (BObj [("reply", "B")])) "10:02") st with
         | Some st' => placeholders st' = 0 /\ outstanding st' = 1
         | None => False
         end
  | None => False
  end.
Proof. vm_compute. auto. Qed.

(** *** deleteSession *)

Lemma strict_eq_transfer a x b :
  strict_eq a x = true -> strict_eq a b = strict_eq x b.
Proof.
  destruct a, x; simpl; try discriminate.
  - intros H%String.eqb_eq. subst. reflexivity.
  - intros H%Nat.eqb_eq. subst. reflexivity.
Qed.

Lemma without_spec x l :
  Forall (fun s => strict_eq s x = false) (without x l).
Proof.
  unfold without. induction l as [|s l IH]; simpl; [constructor|].
  destruct (strict_eq s x) eqn:E; simpl; [exact IH|].
  constructor; [exact E | exact IH].
Qed.

Lemma rerender_sessions before st : sessions (rerender before st) = sessions st.
Proof.
  unfold rerender, fetchChat_effect.
  destruct (same before (activeSessionId st)); [reflexivity|].
  destruct (negb (truthy_val (activeSessionId st))); [reflexivity|].
  destruct (activeSessionId st); reflexivity.
Qed.

Lemma rerender_active before st :
  activeSessionId (rerender before st) = activeSessionId st.
Proof.
  unfold rerender, fetchChat_effect.
  destruct (same before (activeSessionId st)); [reflexivity|].
  destruct (negb (truthy_val (activeSessionId st))); [reflexivity|].
  destruct (activeSessionId st) eqn:E; [simpl; exact E | exact E].
Qed.

(** The effect, when the active id changed to a usable one. *)
Lemma rerender_changed before st a :
  activeSessionId st = Some a -> truthy_val (Some a) = true ->
  same before (Some a) = false ->
  rerender before st = issue (GetHistory a) (setMessages (fun _ => []) st).
Proof.
  intros Ha Ht Hs. unfold rerender, fetchChat_effect.
  rewrite Ha, Hs, Ht. reflexivity.
Qed.

(** Deleting the row [x], when the backend confirms before anything else
    happens: the entries equal to [x] are gone from the list and the others
    are kept in order. If the active value is the row [x] itself (the test
    [activeSessionId === sessionId] of the source), the first remaining entry
    becomes active (with the list cleared for its history) or, when nothing
    remains, no session is active and the list is empty. Otherwise the active
    value and the messages stay. *)
Theorem deleteSession_falls_back x data now st :
  exists st',
    step (Settle (length (inflight st)) (Fulfilled data) now)
         (deleteSession x true st) = Some st'
    /\ sessions st' = without x (sessions st)
    /\ Forall (fun s => strict_eq s x = false) (sessions st')
    /\ (same (activeSessionId st) (Some x) = true ->
          activeSessionId st' = head (without x (sessions st))
          /\ (truthy_val (head (without x (sessions st))) = true
              \/ without x (sessions st) = [] ->
              messages st' = []))
    /\ (same (activeSessionId st) (Some x) = false ->
          activeSessionId st' = activeSessionId st
          /\ messages st' = messages st).
Proof.
  eexists. split.
  { unfold step, handle, deleteSession. simpl.
    rewrite lookup_app_length. unfold settled. simpl.
    rewrite remove_nth_app_length, app_nil_r. simpl. reflexivity. }
  rewrite rerender_sessions, rerender_active.
  unfold deleteSession_resolved.
  destruct (same (activeSessionId st) (Some x)) eqn:Hs.
  - pose proof (without_spec x (sessions st)) as Hw.
    destruct (without x (sessions st)) as [|first rest] eqn:Hr.
    + simpl. rewrite ?Hr. split; [reflexivity|]. split; [constructor|].
      split; [|discriminate]. intros _. split; [reflexivity|]. intros _.
      unfold rerender. simpl. destruct (activeSessionId st); reflexivity.
    + simpl. rewrite ?Hr. split; [reflexivity|]. split; [exact Hw|].
      split; [|discriminate]. intros _. split; [reflexivity|].
      intros [Ht|Ht]; [|discriminate].
      rewrite (rerender_changed _ _ first); try reflexivity; try exact Ht.
      destruct (activeSessionId st) as [a|]; [|reflexivity]. simpl in *.
      rewrite (strict_eq_transfer a x first Hs), strict_eq_sym.
      inversion Hw; subst. assumption.
  - simpl. split; [reflexivity|]. split; [apply without_spec|].
    split; [discriminate|]. intros _.
    rewrite rerender_unchanged by reflexivity. split; reflexivity.
Qed.

Example deleteSession_falls_back_witness :
  exists st',
    step (Settle 0 (Fulfilled (BText "")) "10:00")
         (deleteSession (VStr "A") true
            (mkState [mkMessage "old" user false None] ""
                     [VStr "A"; VStr "B"; VStr "C"] (Some (VStr "A")) "/chat" [] [] 0))
    = Some st'
    /\ sessions st' = [VStr "B"; VStr "C"]
    /\ activeSessionId st' = Some (VStr "B")
    /\ messages st' = [].
Proof.
  destruct (deleteSession_falls_back (VStr "A") (BText "") "10:00"
              (mkState [mkMessage "old" user false None] ""
                       [VStr "A"; VStr "B"; VStr "C"] (Some (VStr "A")) "/chat" [] [] 0))
    as (st' & Hstep & Hs & _ & Hactive & _).
  exists st'. split; [exact Hstep|]. split; [exact Hs|].
  destruct (Hactive eq_refl) as [Ha Hm].
  split; [exact Ha|]. apply Hm. left. reflexivity.
Defined.

(** C3 on pages/Chat.tsx. The session list [A, B] is loaded, a session N is
    created with "New chat" (the backend answers with the object of id "N"),
    and N, the active session, is deleted; every request is answered before
    the next action. The row N leaves the list, but the active id is still
    "N": [createNewSession] made the string [res.data.id] active while the row
    is the object [res.data], so the test [activeSessionId === sessionId] of
    [deleteSession] fails, nothing falls back to A, and no history is
    fetched. *)
Example deleting_the_created_session_keeps_it_active :
  run [SessionsLoaded [IObj [("id", "A")]; IObj [("id", "B")]];
       Settle 0 (Fulfilled (BArr [])) "09:59";
       ClickNewChat;
       Settle 0 (Fulfilled (BObj [("id", "N")])) "10:00";
       Settle 0 (Fulfilled (BArr [])) "10:00";
       ClickDelete 0 true;
       Settle 0 (Fulfilled (BText "")) "10:01"] init
  = Some (mkState [] "" [VObj 0 [("id", "A")]; VObj 1 [("id", "B")]]
                  (Some (VStr "N")) "/chat" []
                  [GetHistory (VObj 0 [("id", "A")]); PostCreateSession;
                   GetHistory (VStr "N");
                   DeleteHistory (VObj 2 [("id", "N")]) (Some (VStr "N"))
                     [VObj 2 [("id", "N")]; VObj 0 [("id", "A")];
                      VObj 1 [("id", "B")]]]
                  3).
Proof. vm_compute. reflexivity. Qed.

(** *** Switching sessions *)

Lemma last_snoc {A} (l : list A) x : last (l ++ [x]) = Some x.
Proof.
  induction l as [|y l IH]; [reflexivity|].
  simpl. destruct (l ++ [x]) eqn:E; [destruct l; discriminate | exact IH].
Qed.

(** C4 as stated fails: fetches are not cancelled. The history of A, asked
    for first, arrives after the user moved to B and after B's own history:
    B is active, no fetch is left in flight, and the list shows A's
    messages. *)
Example late_history_overwrites_newer_session :
  run [SessionsLoaded [IStr "A"; IStr "B"];
       ClickSession 1;
       Settle 1 (Fulfilled (BArr [Sample.record Sample.T1 "asked in B" "answered in B"])) "";
       Settle 0 (Fulfilled (BArr [Sample.record Sample.T0 "asked in A" "answered in A"])) ""]
      init
  = Some (mkState
            [mkMessage "asked in A" user false (Some Sample.T0);
             mkMessage "answered in A" bot false (Some Sample.T0)]
            "" [VStr "A"; VStr "B"] (Some (VStr "B")) "/chat" []
            [GetHistory (VStr "A"); GetHistory (VStr "B")] 0).
Proof. vm_compute. reflexivity. Qed.

(** [flatMap] keeps the order of the response: the messages of an earlier
    record come before those of a later one. *)
Lemma flatten_history_app l1 l2 :
  flatten_history (l1 ++ l2) = flatten_history l1 ++ flatten_history l2.
Proof. unfold flatten_history. apply flat_map_app. Qed.

Lemma fetchChat_resolved_messages a items st :
  messages (fetchChat_resolved a (BArr items) st) = flatten_history items.
Proof.
  unfold fetchChat_resolved.
  destruct (flatten_history items) as [|first rest]; [reflexivity|].
  destruct (from first); [|reflexivity].
  destruct (rename_sessions _ _ _ _); reflexivity.
Qed.

(** *** Switching without overlap *)

Lemma In_remove_nth {A} (x : A) : forall i l, In x (remove_nth i l) -> In x l.
Proof.
  induction i as [|i IH]; intros [|y l]; simpl; auto.
  intros [H|H]; auto.
Qed.

Lemma lookup_In {A} (l : list A) i x : l !! i = Some x -> In x l.
Proof.
  revert i. induction l as [|y l IH]; intros [|i]; simpl; try discriminate.
  - intros [= ->]. auto.
  - intros H. right. exact (IH i H).
Qed.

Lemma fetchChat_resolved_inflight a data st :
  inflight (fetchChat_resolved a data st) = inflight st
  /\ activeSessionId (fetchChat_resolved a data st) = activeSessionId st.
Proof.
  unfold fetchChat_resolved. destruct data as [o|items|s|]; auto.
  destruct (flatten_history items) as [|first rest]; auto.
  destruct (from first); auto.
  destruct (rename_sessions _ _ _ _); auto.
Qed.

(** After a handler that left the list empty with no history fetch in
    flight, the render keeps it so and starts at most the fetch for the active
    session. *)
Lemma rerender_after_switch before st :
  no_fetch st -> messages st = [] ->
  fetches_active (rerender before st) /\ messages (rerender before st) = [].
Proof.
  intros Hn Hm. unfold rerender, fetchChat_effect.
  assert (H0 : fetches_active st /\ messages st = []).
  { split; [|exact Hm]. intros a Ha. destruct (Hn a Ha). }
  destruct (same before (activeSessionId st)); [exact H0|].
  destruct (negb (truthy_val (activeSessionId st))); [exact H0|].
  destruct (activeSessionId st) as [a|] eqn:Ha; [|exact H0].
  split; [|reflexivity].
  intros b Hb. simpl in Hb. apply in_app_or in Hb.
  destruct Hb as [Hb|[Hb|[]]]; [destruct (Hn b Hb)|].
  inversion Hb; subst. simpl. exact Ha.
Qed.

Lemma no_fetch_settled i st : no_fetch st -> no_fetch (settled i st).
Proof.
  intros Hn a Ha. apply (Hn a). simpl in Ha. eapply In_remove_nth, Ha.
Qed.

Lemma fetches_active_settled i st :
  fetches_active st -> fetches_active (settled i st).
Proof.
  intros Hf a Ha. simpl in *. apply Hf. eapply In_remove_nth, Ha.
Qed.

Lemma calm_step_shows_active history e st st' :
  calm history e st ->
  fetches_active st -> shows_active history st ->
  step e st = Some st' ->
  fetches_active st' /\ shows_active history st'.
Proof.
  intros Hc Hf Hs Hstep. unfold step in Hstep.
  destruct e as [items|v|now|k| |k confirmed|i r now]; simpl in Hc.
  - (* the session list arrives *)
    destruct Hc as [Hm Hn].
    simpl in Hstep. inversion Hstep; subst.
    destruct (rerender_after_switch (activeSessionId st)
                (sessions_loaded (BArr items) st)) as [H1 H2].
    + unfold sessions_loaded. destruct (intern items (heap st)) as [vs h].
      destruct vs; assumption.
    + unfold sessions_loaded. destruct (intern items (heap st)) as [vs h].
      destruct vs; assumption.
    + split; [exact H1 | left; exact H2].
  - (* typing *)
    simpl in Hstep. inversion Hstep; subst.
    rewrite rerender_unchanged by reflexivity. split; assumption.
  - (* a send that sends nothing *)
    simpl in Hstep. injection Hstep as <-.
    assert (E : sendMessage now st = st).
    { unfold sendMessage. destruct Hc as [Hb|Hn].
      - apply trim_falsy in Hb. rewrite Hb. reflexivity.
      - rewrite Hn. simpl. rewrite orb_true_r. reflexivity. }
    rewrite E, rerender_same. split; assumption.
  - (* a click on a session *)
    simpl in Hstep. destruct (sessions st !! k) as [s|]; [|discriminate].
    inversion Hstep; subst. unfold selectSession.
    destruct (negb (same (Some s) (activeSessionId st))).
    + destruct (rerender_after_switch (activeSessionId st)
                  (setActiveSessionId (Some s) (setMessages (fun _ => []) st)))
        as [H1 H2]; [exact Hc | reflexivity |].
      split; [exact H1 | left; exact H2].
    + rewrite rerender_same. split; assumption.
  - (* a click on New chat *)
    simpl in Hstep. injection Hstep as <-.
    rewrite rerender_unchanged by reflexivity. split; [|exact Hs].
    intros a Ha. simpl in Ha. apply in_app_or in Ha.
    destruct Ha as [Ha|[Ha|[]]]; [apply Hf, Ha | discriminate Ha].
  - (* a click on a delete button *)
    simpl in Hstep. destruct (sessions st !! k) as [s|]; [|discriminate].
    injection Hstep as <-. unfold deleteSession.
    destruct (negb confirmed); [rewrite rerender_same; split; assumption|].
    rewrite rerender_unchanged by reflexivity. split; [|exact Hs].
    intros a Ha. simpl in Ha. apply in_app_or in Ha.
    destruct Ha as [Ha|[Ha|[]]]; [apply Hf, Ha | discriminate Ha].
  - (* a request settles *)
    unfold handle in Hstep.
    destruct (inflight st !! i) as [[a| |x a ss|m id]|] eqn:Hi; try contradiction.
    + (* a history fetch *)
      pose proof (Hf a (lookup_In _ _ _ Hi)) as Ha.
      assert (Hkeep : fetches_active (rerender (activeSessionId st) (settled i st))
                      /\ shows_active history
                           (rerender (activeSessionId st) (settled i st))).
      { rewrite rerender_unchanged by reflexivity. split; [|exact Hs].
        apply fetches_active_settled, Hf. }
      destruct r as [data|]; cbn [resume] in Hstep;
        apply (inj Some) in Hstep; subst st'; [|exact Hkeep].
      destruct data as [o|items|t|]; try exact Hkeep.
      subst items.
      destruct (fetchChat_resolved_inflight a (BArr (history a)) (settled i st))
        as [E1 E2].
      rewrite rerender_unchanged by exact E2. split.
      * intros b Hb. rewrite E1 in Hb. rewrite E2.
        apply (fetches_active_settled i st Hf b Hb).
      * right. exists a. rewrite E2. split; [exact Ha|].
        apply fetchChat_resolved_messages.
    + (* the creation of a session *)
      destruct r as [data|]; cbn [resume] in Hstep.
      * destruct (createNewSession_resolved data (settled i st)) as [st1|] eqn:Hcr;
          [|discriminate].
        injection Hstep as <-.
        destruct (rerender_after_switch (activeSessionId st) st1) as [H1 H2].
        -- intros a Ha. apply (no_fetch_settled i st Hc a).
           unfold createNewSession_resolved in Hcr.
           destruct data; try discriminate; injection Hcr as <-; exact Ha.
        -- unfold createNewSession_resolved in Hcr.
           destruct data; try discriminate; injection Hcr as <-; reflexivity.
        -- split; [exact H1 | left; exact H2].
      * injection Hstep as <-.
        rewrite rerender_unchanged by reflexivity. split; [|exact Hs].
        apply fetches_active_settled, Hf.
    + (* a deletion *)
      destruct r as [data|]; cbn [resume] in Hstep; injection Hstep as <-.
      2:{ rewrite rerender_unchanged by reflexivity. split; [|exact Hs].
          apply fetches_active_settled, Hf. }
      unfold deleteSession_resolved.
      destruct (same a (Some x)) eqn:Hax.
      2:{ rewrite rerender_unchanged by reflexivity. split; [|exact Hs].
          intros b Hb. simpl in *. apply Hf. eapply In_remove_nth, Hb. }
      destruct Hc as [Hc|[(Hn & Hcur & Htr)|(Hn & Hnil)]]; [discriminate Hc| |].
      * destruct (without x ss) as [|first rest] eqn:Hw; [discriminate Htr|].
        simpl in Htr.
        pose proof (without_spec x ss) as Hsp. rewrite Hw in Hsp.
        inversion Hsp as [|? ? Hfx _]; subst.
        assert (Hne : same (activeSessionId st) (Some first) = false).
        { destruct (activeSessionId st) as [x'|]; [|reflexivity]. simpl in *.
          rewrite (strict_eq_transfer x' x first Hax), strict_eq_sym. exact Hfx. }
        rewrite (rerender_changed _ _ first); try reflexivity; try assumption.
        split.
        -- intros b Hb. simpl in Hb. apply in_app_or in Hb.
           destruct Hb as [Hb|[Hb|[]]].
           ++ destruct (Hn b). eapply In_remove_nth, Hb.
           ++ injection Hb as <-. reflexivity.
        -- left. reflexivity.
      * rewrite Hnil.
        destruct (rerender_after_switch (activeSessionId st)
                    (setMessages (fun _ => [])
                       (setActiveSessionId None
                          (setSessions (fun prev => without x prev) (settled i st)))))
          as [H1 H2].
        -- intros b Hb. apply (no_fetch_settled i st Hn b). exact Hb.
        -- reflexivity.
        -- split; [exact H1 | left; exact H2].
Qed.
Lemma calm_run_shows_active history es : forall st st',
  calm_run history es st ->
  fetches_active st -> shows_active history st ->
  run es st = Some st' ->
  fetches_active st' /\ shows_active history st'.
Proof.
  induction es as [|e es IH]; simpl; intros st st' Hc Hf Hs Hrun.
  - inversion Hrun; subst. auto.
  - destruct Hc as [Hc Hrest].
    destruct (step e st) as [st1|] eqn:Hstep; [|discriminate].
    destruct (calm_step_shows_active history e st st1 Hc Hf Hs Hstep) as [Hf1 Hs1].
    exact (IH st1 st' Hrest Hf1 Hs1 Hrun).
Qed.

(** C4, as amended. There is one active value at a time (a single nullable
    cell). Every step that changes it to a truthy value leaves the list empty
    and the fetch of that session's history as the latest request in flight.
    When a history fetch resolves with an array, the list becomes its
    flattened records and the active value stays: this holds for the fetch of
    any session, active or not. Over the runs in which nothing is posted and
    the active session changes only while no history fetch is in flight
    ([calm_run]: arrival of the list, clicks, new chats and deletions as
    [calm] has them), the list on display is empty or is the history of the
    active session, at every state. Runs with messages posted are not covered
    by the third part. *)
Theorem switch_clears_then_fetch_replaces :
  (forall e st st' a,
      step e st = Some st' ->
      activeSessionId st' = Some a -> truthy_val (Some a) = true ->
      same (activeSessionId st) (Some a) = false ->
      messages st' = [] /\ last (inflight st') = Some (GetHistory a))
  /\ (forall i a items now st,
        inflight st !! i = Some (GetHistory a) ->
        exists st',
          step (Settle i (Fulfilled (BArr items)) now) st = Some st'
          /\ messages st' = flatten_history items
          /\ activeSessionId st' = activeSessionId st)
  /\ (forall history es st,
        calm_run history es init -> run es init = Some st ->
        shows_active history st).
Proof.
  split; [|split].
  3:{ intros history es st Hc Hrun.
      refine (proj2 (calm_run_shows_active history es init st Hc _ _ Hrun)).
      - intros a [].
      - left. reflexivity. }
  - intros e st st' a Hstep Ha Ht Hs. unfold step in Hstep.
    destruct (handle e st) as [st1|]; [|discriminate].
    inversion Hstep; subst. rewrite rerender_active in Ha.
    rewrite (rerender_changed _ _ a Ha Ht Hs). simpl.
    split; [reflexivity | apply last_snoc].
  - intros i a items now st Hi. eexists. split.
    { unfold step, handle. rewrite Hi. simpl. reflexivity. }
    rewrite rerender_active.
    assert (E : activeSessionId (fetchChat_resolved a (BArr items) (settled i st))
                = activeSessionId st).
    { unfold fetchChat_resolved.
      destruct (flatten_history items) as [|first rest]; [reflexivity|].
      destruct (from first); [|reflexivity].
      destruct (rename_sessions _ _ _ _); reflexivity. }
    split; [|exact E].
    rewrite rerender_unchanged by exact E.
    unfold fetchChat_resolved.
    destruct (flatten_history items) as [|first rest]; [reflexivity|].
    destruct (from first); [|reflexivity].
    destruct (rename_sessions _ _ _ _); reflexivity.
Qed.

(** A run without overlap: A's history arrives before the click on B. *)
Example switching_without_overlap :
  calm_run Sample.history
    [SessionsLoaded [IStr "A"; IStr "B"];
     Settle 0 (Fulfilled (BArr (Sample.history (VStr "A")))) "";
     ClickSession 1;
     Settle 0 (Fulfilled (BArr (Sample.history (VStr "B")))) ""] init
  /\ run [SessionsLoaded [IStr "A"; IStr "B"];
          Settle 0 (Fulfilled (BArr (Sample.history (VStr "A")))) "";
          ClickSession 1;
          Settle 0 (Fulfilled (BArr (Sample.history (VStr "B")))) ""] init
     = Some (mkState
               [mkMessage "asked in B" user false (Some Sample.T1);
                mkMessage "answered in B" bot false (Some Sample.T1)]
               "" [VStr "A"; VStr "B"] (Some (VStr "B")) "/chat" []
               [GetHistory (VStr "A"); GetHistory (VStr "B")] 0).
Proof.
  split; [|vm_compute; reflexivity].
  simpl. repeat split; try (intros a []); try reflexivity.
Qed.

(** A run with a new chat and two deletions, each request answered before
    the next action: A is loaded and shown, N is created, A is deleted while N
    is active, B is opened and then deleted while active, which falls back to
    the remaining row. *)
Example browsing_with_new_chat_and_deletion :
  calm_run Sample.history
    [SessionsLoaded [IStr "A"; IStr "B"];
     Settle 0 (Fulfilled (BArr (Sample.history (VStr "A")))) "";
     ClickNewChat;
     Settle 0 (Fulfilled (BObj [("id", "N")])) "";
     Settle 0 (Fulfilled (BArr (Sample.history (VStr "N")))) "";
     ClickDelete 1 true;
     Settle 0 (Fulfilled (BText "")) "";
     ClickSession 1;
     Settle 0 (Fulfilled (BArr (Sample.history (VStr "B")))) "";
     ClickDelete 1 true;
     Settle 0 (Fulfilled (BText "")) ""] init
  /\ run [SessionsLoaded [IStr "A"; IStr "B"];
          Settle 0 (Fulfilled (BArr (Sample.history (VStr "A")))) "";
          ClickNewChat;
          Settle 0 (Fulfilled (BObj [("id", "N")])) "";
          Settle 0 (Fulfilled (BArr (Sample.history (VStr "N")))) "";
          ClickDelete 1 true;
          Settle 0 (Fulfilled (BText "")) "";
          ClickSession 1;
          Settle 0 (Fulfilled (BArr (Sample.history (VStr "B")))) "";
          ClickDelete 1 true;
          Settle 0 (Fulfilled (BText "")) ""] init
     = Some (mkState [] "" [VObj 0 [("id", "N")]]
               (Some (VObj 0 [("id", "N")])) "/chat"
               [GetHistory (VObj 0 [("id", "N")])]
               [GetHistory (VStr "A"); PostCreateSession; GetHistory (VStr "N");
                DeleteHistory (VStr "A") (Some (VStr "N"))
                  [VObj 0 [("id", "N")]; VStr "A"; VStr "B"];
                GetHistory (VStr "B");
                DeleteHistory (VStr "B") (Some (VStr "B"))
                  [VObj 0 [("id", "N")]; VStr "B"];
                GetHistory (VObj 0 [("id", "N")])]
               1).
Proof.
  split; [|vm_compute; reflexivity].
  vm_compute.
  repeat match goal with |- _ /\ _ => split end;
    try exact I; try reflexivity;
    try (intros a H; repeat (destruct H as [H|H]; [discriminate H|]); destruct H).
  - left. reflexivity.
  - right. left. split; [|split; reflexivity].
    intros a H; repeat (destruct H as [H|H]; [discriminate H|]); destruct H.
Qed.

Example switch_clears_then_fetch_replaces_witness :
  messages (rerender (Some (VStr "A"))
              (selectSession (VStr "B")
                 (mkState [mkMessage "asked in A" user false None] ""
                          [VStr "A"; VStr "B"] (Some (VStr "A")) "/chat" [] [] 0)))
  = []
  /\ last (inflight (rerender (Some (VStr "A"))
              (selectSession (VStr "B")
                 (mkState [mkMessage "asked in A" user false None] ""
                          [VStr "A"; VStr "B"] (Some (VStr "A")) "/chat" [] [] 0))))
     = Some (GetHistory (VStr "B")).
Proof.
  apply (proj1 switch_clears_then_fetch_replaces (ClickSession 1)
           (mkState [mkMessage "asked in A" user false None] ""
                    [VStr "A"; VStr "B"] (Some (VStr "A")) "/chat" [] [] 0)
           _ (VStr "B")); reflexivity.
Defined.

(** *** The history as displayed *)

(** C2 on pages/Chat.tsx. The history of the active session arrives with
    the records stamped T2, T0, T1 (T0 < T1 < T2). Each record is flattened
    into its user message followed by its bot message, and the list is
    displayed in the order of the response, T2, T0, T1: [fetchChat] has no
    sort. *)
Example fetchChat_shows_response_order :
  run [SessionsLoaded [IStr "s1"];
       Settle 0 (Fulfilled (BArr Sample.unordered_history)) ""] init
  = Some (mkState
            [mkMessage "q2" user false (Some Sample.T2);
             mkMessage "a2" bot false (Some Sample.T2);
             mkMessage "q0" user false (Some Sample.T0);
             mkMessage "a0" bot false (Some Sample.T0);
             mkMessage "q1" user false (Some Sample.T1);
             mkMessage "a1" bot false (Some Sample.T1)]
            "" [VStr "s1"] (Some (VStr "s1")) "/chat" []
            [GetHistory (VStr "s1")] 0).
Proof. vm_compute. reflexivity. Qed.
End ChatFacts.

(** ** The older pages *)

Module ChatV3Facts.

Import Api.

(** In part_003 the deletion of the active session leaves no session
    active, even when others remain, and the stored id is dropped. *)
Lemma deleteSession_resets_active sessionId st w :
  ChatV3.activeSessionId st = Some sessionId ->
  let '(st', w') := ChatV3.deleteSession_resolved sessionId st w in
  ChatV3.activeSessionId st' = None
  /\ ChatV3.messages st' = []
  /\ getItem "activeSessionId" w' = None.
Proof.
  intros H. unfold ChatV3.deleteSession_resolved. rewrite H, String.eqb_refl.
  simpl. repeat split. apply ClientFacts.getItem_removeItem_same.
Qed.

(** In part_003 a click on another session keeps the old messages on
    display until the fetch resolves. *)
Lemma selectSession_keeps_messages id st w :
  ChatV3.messages (fst (ChatV3.selectSession id st w)) = ChatV3.messages st.
Proof. reflexivity. Qed.

End ChatV3Facts.

Module ChatV4Facts.

Import Chat ChatV4.

Section Sorting.

Variable Date_getTime : string -> option Z.

Local Abbreviation getTime := (ChatV4.getTime Date_getTime).
Local Abbreviation SortCompare := (ChatV4.SortCompare Date_getTime).
Local Abbreviation insert_sorted := (ChatV4.insert_sorted Date_getTime).
Local Abbreviation sort := (ChatV4.sort Date_getTime).

(** [a] may stand before [b]. *)
Local Abbreviation ordered := (fun a b => (SortCompare a b <= 0)%Z).

Lemma SortCompare_valid a b ta tb :
  getTime a = Some ta -> getTime b = Some tb ->
  SortCompare a b = (ta - tb)%Z.
Proof.
  intros Ha Hb. unfold ChatV4.SortCompare, comparefn. rewrite Ha, Hb. reflexivity.
Qed.

Lemma insert_sorted_perm x l : Permutation (insert_sorted x l) (x :: l).
Proof.
  induction l as [|y l IH]; simpl; [reflexivity|].
  destruct (SortCompare x y <=? 0)%Z; [reflexivity|].
  rewrite IH. apply perm_swap.
Qed.

Lemma sort_perm l : Permutation (sort l) l.
Proof.
  induction l as [|x l IH]; simpl; [reflexivity|].
  rewrite insert_sorted_perm, IH. reflexivity.
Qed.

Lemma insert_sorted_HdRel y x l :
  ordered y x -> HdRel ordered y l -> HdRel ordered y (insert_sorted x l).
Proof.
  intros Hyx Hl. destruct l as [|z l]; simpl; [constructor; exact Hyx|].
  destruct (SortCompare x z <=? 0)%Z; constructor; [exact Hyx|].
  inversion Hl; assumption.
Qed.

Lemma insert_sorted_sorted x l :
  is_Some (getTime x) -> Forall (fun m => is_Some (getTime m)) l ->
  Sorted ordered l -> Sorted ordered (insert_sorted x l).
Proof.
  intros [tx Hx] Hv Hs. induction l as [|y l IH]; simpl.
  - repeat constructor.
  - destruct (SortCompare x y <=? 0)%Z eqn:E.
    + constructor; [exact Hs|]. constructor. apply Z.leb_le, E.
    + inversion Hs; subst. inversion Hv as [|? ? [ty Hy] Hv']; subst.
      constructor; [apply IH; assumption|].
      apply insert_sorted_HdRel; [|assumption].
      apply Z.leb_gt in E.
      rewrite (SortCompare_valid _ _ _ _ Hx Hy) in E.
      rewrite (SortCompare_valid _ _ _ _ Hy Hx). lia.
Qed.

Lemma sort_valid l :
  Forall (fun m => is_Some (getTime m)) l ->
  Forall (fun m => is_Some (getTime m)) (sort l).
Proof.
  intros H. eapply Permutation_Forall; [|exact H].
  symmetry. apply sort_perm.
Qed.

(** With valid dates the sorted history is ascending by time. *)
Lemma sort_sorted l :
  Forall (fun m => is_Some (getTime m)) l -> Sorted ordered (sort l).
Proof.
  induction l as [|x l IH]; simpl; intros H; [constructor|].
  inversion H; subst.
  apply insert_sorted_sorted; [assumption | apply sort_valid; assumption | auto].
Qed.

(** The messages stamped [t], in the order they have in [l]. *)
Local Abbreviation stamped t :=
  (List.filter (fun m => match getTime m with
                         | Some t' => (t' =? t)%Z
                         | None => false
                         end)).

Lemma insert_sorted_stable t x l :
  is_Some (getTime x) -> Forall (fun m => is_Some (getTime m)) l ->
  stamped t (insert_sorted x l) = stamped t (x :: l).
Proof.
  intros [tx Hx] Hv. induction l as [|y l IH]; [reflexivity|].
  inversion Hv as [|? ? [ty Hy] Hv']; subst.
  cbn [ChatV4.insert_sorted].
  destruct (SortCompare x y <=? 0)%Z eqn:E; [reflexivity|].
  apply Z.leb_gt in E. rewrite (SortCompare_valid _ _ _ _ Hx Hy) in E.
  cbn [List.filter]. rewrite (IH Hv'). cbn [List.filter].
  rewrite Hx, Hy.
  destruct (tx =? t)%Z eqn:E1, (ty =? t)%Z eqn:E2; try reflexivity.
  apply Z.eqb_eq in E1, E2. lia.
Qed.

(** The sort is stable: messages with equal stamps keep the order of the
    response. *)
Lemma sort_stable t l :
  Forall (fun m => is_Some (getTime m)) l ->
  stamped t (sort l) = stamped t l.
Proof.
  induction l as [|x l IH]; intros H; [reflexivity|].
  inversion H; subst. cbn [ChatV4.sort].
  rewrite insert_sorted_stable by (try apply sort_valid; assumption).
  cbn [List.filter]. rewrite (IH ltac:(assumption)). reflexivity.
Qed.

End Sorting.

(** X22. The send flow of part_004 is that of pages/Chat.tsx without the
    session. Its guard: an input that is empty or all whitespace sends
    nothing and changes nothing. *)
Lemma single_thread_ignores_blank_input now st :
  all_space (ChatV4.input st) = true -> ChatV4.sendMessage now st = st.
Proof.
  intros H. unfold ChatV4.sendMessage. apply trim_falsy in H. rewrite H.
  reflexivity.
Qed.

(** X23. Its round trip: an input that is not blank is appended as the
    user's message, and when the post resolves the placeholders are dropped
    and the reply is appended after it. *)
Lemma single_thread_send_then_reply now now' o reply st :
  all_space (ChatV4.input st) = false ->
  field "reply" o = Some reply ->
  ChatV4.messages
    (ChatV4.sendMessage_resolved (BObj o) now' (ChatV4.sendMessage now st))
  = List.filter (fun m => negb (isTyping m)) (ChatV4.messages st)
    ++ [mkMessage (ChatV4.input st) user false (Some now);
        mkMessage reply bot false (Some now')].
Proof.
  intros Hin Hr. unfold ChatV4.sendMessage.
  assert (truthy_str (trim (ChatV4.input st)) = true) as ->.
  { destruct (truthy_str (trim (ChatV4.input st))) eqn:E; [reflexivity|].
    apply trim_falsy in E. congruence. }
  simpl. rewrite Hr. unfold replace_typing.
  rewrite !List.filter_app. simpl. rewrite app_nil_r, <- app_assoc. reflexivity.
Qed.

(** The single-thread page of part_004 does sort what it fetches: the
    records stamped T2, T0, T1 are displayed as T0, T1, T2. *)
Example fetchChatHistory_sorts :
  fetchChatHistory_resolved Sample.sample_getTime (BArr Sample.unordered_history) []
  = [mkMessage "q0" user false (Some Sample.T0);
     mkMessage "a0" bot false (Some Sample.T0);
     mkMessage "q1" user false (Some Sample.T1);
     mkMessage "a1" bot false (Some Sample.T1);
     mkMessage "q2" user false (Some Sample.T2);
     mkMessage "a2" bot false (Some Sample.T2)].
Proof. vm_compute. reflexivity. Qed.

End ChatV4Facts.

(** ** More on the API client *)

Module ApiMore.

Import Api.

Section Wire.

Variable backend : list Config -> Config -> Reply.

Lemma merge_defaults_target c w :
  method (merge_defaults c w) = method c /\ url (merge_defaults c w) = url c.
Proof. unfold merge_defaults. destruct (authorization c); auto. Qed.

Lemma is_refresh_merge c w : is_refresh (merge_defaults c w) = is_refresh c.
Proof.
  unfold is_refresh. destruct (merge_defaults_target c w) as [-> ->]. reflexivity.
Qed.

(** What one call puts on the wire: its request, then refresh traffic, then
    at most one more request, marked, to the same method and url. A marked
    request goes alone. *)
Lemma api_wire fuel : forall c w out w',
  api backend fuel c w = Some (out, w') ->
  exists refreshes tail,
    log w' = log w ++ merge_defaults c w :: refreshes ++ tail
    /\ Forall (fun r => is_refresh r = true) refreshes
    /\ (tail = []
        \/ exists r, tail = [r] /\ method r = method c /\ url r = url c
                     /\ _retry r = true)
    /\ (_retry c = true -> refreshes = [] /\ tail = []).
Proof.
  induction fuel as [|fuel IH]; intros c w out w' H; [discriminate|].
  simpl in H.
  destruct (transport backend (merge_defaults c w) w) as [[r|e] w1] eqn:Ht;
    destruct (ApiFacts.transport_storage _ _ _ _ _ Ht) as (_ & _ & Hl1).
  { injection H as <- <-. exists [], []. rewrite Hl1. auto. }
  pose proof (ApiFacts.transport_rejected_config _ _ _ _ _ Ht) as He.
  unfold onRejected_with in H. rewrite He, ApiFacts.merge_defaults_retry in H.
  destruct (unauthorized e && negb (_retry c)) eqn:Hcond.
  2:{ injection H as <- <-. exists [], []. rewrite Hl1. auto. }
  apply andb_prop in Hcond. destruct Hcond as [_ Hr%negb_true_iff].
  unfold refreshToken_with in H.
  destruct (negb (truthy (getItem "refresh_token" w1))).
  { injection H as <- <-. exists [], []. simpl. rewrite Hl1.
    repeat split; auto. }
  destruct (api backend fuel (refresh_config _) w1) as [[o2 w2]|] eqn:Hc;
    [|discriminate].
  destruct (IH _ _ _ _ Hc) as (rs & tl & Hl2 & Hrs & Htl & _).
  set (rq := merge_defaults (refresh_config (default "" (getItem "refresh_token" w1))) w1) in *.
  assert (Hall : Forall (fun r => is_refresh r = true) (rq :: rs ++ tl)).
  { constructor; [unfold rq; rewrite is_refresh_merge; reflexivity|].
    apply Forall_app. split; [exact Hrs|].
    destruct Htl as [->|(r & -> & Hm & Hu & _)]; constructor; [|constructor].
    unfold is_refresh. rewrite Hm, Hu. reflexivity. }
  assert (Hnull : forall err, Some (Rejected err,
                     removeItem "refresh_token" (removeItem "access_token" w2))
                   = Some (out, w') ->
          exists refreshes tail,
            log w' = log w ++ merge_defaults c w :: refreshes ++ tail
            /\ Forall (fun r => is_refresh r = true) refreshes
            /\ (tail = []
                \/ exists r, tail = [r] /\ method r = method c /\ url r = url c
                             /\ _retry r = true)
            /\ (_retry c = true -> refreshes = [] /\ tail = [])).
  { intros err E. injection E as <- <-. exists (rq :: rs ++ tl), [].
    simpl. rewrite Hl2, Hl1, <- app_assoc, app_nil_r. simpl.
    repeat split; auto; congruence. }
  assert (Hretry : forall a w0,
            let rt := merge_defaults (with_authorization a (config (marked e))) w0 in
            method rt = method c /\ url rt = url c /\ _retry rt = true).
  { intros a w0. unfold merge_defaults, with_authorization, marked. simpl.
    rewrite He. destruct (merge_defaults_target c w) as [Hm Hu]. auto. }
  destruct o2 as [res|err]; [|exact (Hnull _ H)].
  destruct (rdata res) eqn:Hd; try exact (Hnull _ H);
    (destruct (truthy (body_field "access_token" _)); [|exact (Hnull _ H)]);
    apply IH in H; destruct H as (rs2 & tl2 & Hl3 & _ & _ & Hmk);
    (destruct Hmk as [-> ->]; [reflexivity|]);
    rewrite ClientFacts.setAuthToken_log in Hl3; simpl in Hl3;
    match type of Hl3 with
    | log w' = _ ++ ?rt :: _ =>
        exists (rq :: rs ++ tl), [rt]; split;
          [ rewrite Hl3, Hl2, Hl1, <- !app_assoc; simpl; rewrite <- app_assoc; reflexivity
          | split; [exact Hall|]; split;
            [ right; exists rt; split; [reflexivity | apply Hretry]
            | congruence ] ]
    end.
Qed.

(** X1. Whatever the backend answers, a call that settles has put its own
    request on the wire at most twice: everything else it sent is a POST
    /user/refresh. *)
Theorem request_sent_at_most_twice fuel c w out w' :
  api backend fuel c w = Some (out, w') ->
  exists added,
    log w' = log w ++ added
    /\ length (List.filter (fun r => negb (is_refresh r)) added) <= 2
    /\ Forall (fun r => is_refresh r = true
                        \/ (method r = method c /\ url r = url c)) added.
Proof.
  intros H. destruct (api_wire fuel c w out w' H) as (rs & tl & Hl & Hrs & Htl & _).
  exists (merge_defaults c w :: rs ++ tl). split; [exact Hl|].
  assert (Hz : List.filter (fun r => negb (is_refresh r)) rs = []).
  { clear Hl. induction Hrs as [|r rs Hr _ IH]; [reflexivity|].
    simpl. rewrite Hr. exact IH. }
  split.
  - simpl. rewrite List.filter_app, Hz. simpl.
    destruct Htl as [->|(r & -> & _)]; simpl;
      repeat match goal with |- context [if ?b then _ else _] => destruct b end;
      simpl; lia.
  - constructor; [right; apply merge_defaults_target|].
    apply Forall_app. split.
    + eapply Forall_impl; [exact Hrs|]. intros r Hr. left. exact Hr.
    + destruct Htl as [->|(r & -> & Hm & Hu & _)]; constructor; auto.
Qed.

(** X2. While a refresh token is stored and the backend answers every
    request with 401, the refresh too, a call never settles: the refresh
    request goes through the same interceptor with a fresh config, and each
    one starts the next. *)
Theorem refresh_loop_on_persistent_401 fuel c w rt :
  (forall sent c, exists body, backend sent c = HttpReply 401 body) ->
  getItem "refresh_token" w = Some rt -> truthy_str rt = true ->
  _retry c = false ->
  api backend fuel c w = None.
Proof.
  intros H401 Hrt Hrt' Hr.
  exact (ApiFacts.refresh_answered_401_never_settles backend H401 fuel c w rt Hrt Hrt' Hr).
Qed.

Lemma defaults_auth_setAuthToken v w :
  truthy_str v = true -> defaults_auth (setAuthToken (Some v) w) = Some (bearer v).
Proof. intros H. simpl. rewrite H. reflexivity. Qed.

Lemma getItem_setItem_same k v w : getItem k (setItem k v w) = Some v.
Proof. unfold getItem, setItem. simpl. apply lookup_insert_eq. Qed.

Lemma log_setItem k v w : log (setItem k v w) = log w.
Proof. reflexivity. Qed.

Lemma log_removeItem k w : log (removeItem k w) = log w.
Proof. reflexivity. Qed.

Lemma defaults_auth_setItem k v w : defaults_auth (setItem k v w) = defaults_auth w.
Proof. reflexivity. Qed.

Lemma defaults_auth_removeItem k w : defaults_auth (removeItem k w) = defaults_auth w.
Proof. reflexivity. Qed.

Local Opaque setAuthToken setItem removeItem.

(** X3. When [refreshToken] returns a token, that token is not empty, it is
    the [access_token] of localStorage and the bearer of the default header,
    and the first thing sent was the POST of the stored refresh token. *)
Theorem refreshToken_returns_stored_token fuel w t w' :
  refreshToken backend fuel w = Some (Some t, w') ->
  truthy_str t = true
  /\ getItem "access_token" w' = Some t
  /\ defaults_auth w' = Some (bearer t)
  /\ exists rt rest,
       getItem "refresh_token" w = Some rt /\ truthy_str rt = true
       /\ log w' = log w ++ merge_defaults (refresh_config rt) w :: rest.
Proof.
  unfold refreshToken, refreshToken_with.
  destruct (getItem "refresh_token" w) as [rt|] eqn:Hrt; [|discriminate].
  simpl. destruct (truthy_str rt) eqn:Hrt'; [|discriminate]. simpl.
  destruct (api backend fuel (refresh_config rt) w) as [[[res|err] w1]|] eqn:Hc;
    try discriminate.
  destruct (api_wire fuel _ _ _ _ Hc) as (rs & tl & Hl & _).
  assert (Hgo : forall body,
            (if truthy (body_field "access_token" body)
             then Some (Some (default "" (body_field "access_token" body)),
                        setAuthToken (Some (default "" (body_field "access_token" body)))
                          (setItem "access_token"
                             (default "" (body_field "access_token" body)) w1))
             else Some (None, w1)) = Some (Some t, w') ->
            truthy_str t = true
            /\ getItem "access_token" w' = Some t
            /\ defaults_auth w' = Some (bearer t)
            /\ exists rt0 rest,
                 Some rt = Some rt0 /\ truthy_str rt0 = true
                 /\ log w' = log w ++ merge_defaults (refresh_config rt0) w :: rest).
  { intros body. destruct (body_field "access_token" body) as [v|]; simpl;
      [|discriminate].
    destruct (truthy_str v) eqn:Hv; [|discriminate].
    intros [= <- <-]. split; [exact Hv|]. split.
    - rewrite ClientFacts.getItem_setAuthToken. apply getItem_setItem_same.
    - split; [apply defaults_auth_setAuthToken, Hv|].
      exists rt, (rs ++ tl). rewrite ClientFacts.setAuthToken_log, log_setItem.
      auto. }
  destruct (rdata res) as [o|items|s|]; try discriminate.
  intros H. apply (Hgo (BObj o)). exact H.
Qed.

Local Transparent setAuthToken setItem removeItem.

(** X4. A 401 with no refresh token in store empties the stored credentials
    but leaves the default header of the instance: the next request still
    carries the old bearer. *)
Theorem forced_logout_keeps_default_header fuel c w e w1 :
  transport backend (merge_defaults c w) w = (Rejected e, w1) ->
  unauthorized e = true -> _retry c = false ->
  truthy (getItem "refresh_token" w) = false ->
  exists w',
    api backend (S fuel) c w = Some (Rejected (marked e), w')
    /\ getItem "access_token" w' = None
    /\ defaults_auth w' = defaults_auth w
    /\ forall c2, authorization c2 = None ->
         authorization (merge_defaults c2 w') = defaults_auth w.
Proof.
  intros Ht Hu Hr Hrt.
  rewrite (ApiFacts.api_without_refresh_token backend fuel c w Hrt), Ht, Hu, Hr.
  destruct (ApiFacts.transport_storage _ _ _ _ _ Ht) as (_ & Hd & _).
  eexists. split; [reflexivity|]. split.
  - rewrite ClientFacts.getItem_removeItem_other by discriminate.
    apply ClientFacts.getItem_removeItem_same.
  - simpl. split; [exact Hd|]. intros c2 Hc2. unfold merge_defaults.
    rewrite Hc2. simpl. exact Hd.
Qed.

End Wire.


Example request_sent_at_most_twice_witness :
  match api (scripted Sample.expired_twice) 2 Chat.sessions_config
            Sample.with_refresh_token with
  | Some (_, w') =>
      exists added,
        log w' = log Sample.with_refresh_token ++ added
        /\ length (List.filter (fun r => negb (is_refresh r)) added) <= 2
        /\ Forall (fun r => is_refresh r = true
                            \/ (method r = method Chat.sessions_config
                                /\ url r = url Chat.sessions_config)) added
  | None => False
  end.
Proof.
  destruct (api (scripted Sample.expired_twice) 2 Chat.sessions_config
                Sample.with_refresh_token) as [[out w']|] eqn:H.
  - exact (request_sent_at_most_twice _ _ _ _ _ _ H).
  - vm_compute in H. discriminate H.
Defined.

Example refresh_loop_on_persistent_401_witness :
  api (always 401) 64 Chat.sessions_config Sample.with_refresh_token = None.
Proof.
  apply (refresh_loop_on_persistent_401 (always 401) 64 Chat.sessions_config
           Sample.with_refresh_token "r1").
  - intros sent c. exists BNull. reflexivity.
  - reflexivity.
  - reflexivity.
  - reflexivity.
Defined.

Example refreshToken_returns_stored_token_witness :
  match refreshToken (scripted [HttpReply 200 (BObj [("access_token", "fresh")])]) 1
                     Sample.with_refresh_token with
  | Some (Some t, w') =>
      truthy_str t = true
      /\ getItem "access_token" w' = Some t
      /\ defaults_auth w' = Some (bearer t)
      /\ exists rt rest,
           getItem "refresh_token" Sample.with_refresh_token = Some rt
           /\ truthy_str rt = true
           /\ log w' = log Sample.with_refresh_token
                       ++ merge_defaults (refresh_config rt) Sample.with_refresh_token
                          :: rest
  | _ => False
  end.
Proof.
  destruct (refreshToken (scripted [HttpReply 200 (BObj [("access_token", "fresh")])]) 1
                         Sample.with_refresh_token) as [[[t|] w']|] eqn:H.
  - exact (refreshToken_returns_stored_token _ _ _ _ _ H).
  - vm_compute in H. discriminate H.
  - vm_compute in H. discriminate H.
Defined.

Example forced_logout_keeps_default_header_witness :
  exists w',
    api (scripted [HttpReply 401 BNull]) 1 Chat.sessions_config Sample.logged_in
    = Some (Rejected (mkError (mkConfig GET "/chat/history" [] (Some "Bearer stale") true)
                              (Some (mkResponse 401 BNull))), w')
    /\ getItem "access_token" w' = None
    /\ defaults_auth w' = Some "Bearer stale"
    /\ forall c2, authorization c2 = None ->
         authorization (merge_defaults c2 w') = Some "Bearer stale".
Proof.
  apply (forced_logout_keeps_default_header (scripted [HttpReply 401 BNull]) 0
           Chat.sessions_config Sample.logged_in
           (mkError (mkConfig GET "/chat/history" [] (Some "Bearer stale") false)
                    (Some (mkResponse 401 BNull)))
           (mkWorld (storage Sample.logged_in) (Some "Bearer stale")
                    [mkConfig GET "/chat/history" [] (Some "Bearer stale") false]));
    reflexivity.
Defined.
End ApiMore.

(** ** What the client keeps in localStorage *)

Module StorageFacts.

Import Api.

Lemma storage_setItem k v w : storage (setItem k v w) = <[k:=v]> (storage w).
Proof. reflexivity. Qed.

Lemma storage_removeItem k w : storage (removeItem k w) = delete k (storage w).
Proof. reflexivity. Qed.

Section Invariant.

Variable backend : list Config -> Config -> Reply.

(** A property of the store that survives the three kinds of writes the
    sources contain: removing a key, storing a non-empty access token,
    storing the active session id. *)
Variable Q : gmap string string -> Prop.
Hypothesis Q_delete : forall k m, Q m -> Q (delete k m).
Hypothesis Q_token :
  forall t m, truthy_str t = true -> Q m -> Q (<["access_token" := t]> m).
Hypothesis Q_session : forall v m, Q m -> Q (<["activeSessionId" := v]> m).

Local Opaque setAuthToken setItem removeItem.

Lemma Q_stored_token v w :
  truthy v = true -> Q (storage w) ->
  Q (storage (setAuthToken (Some (default "" v)) (setItem "access_token" (default "" v) w))).
Proof.
  intros Hv HQ. rewrite ClientFacts.setAuthToken_storage, storage_setItem.
  apply Q_token; [|exact HQ]. destruct v; [exact Hv | discriminate].
Qed.

Lemma Q_cleared w :
  Q (storage w) ->
  Q (storage (removeItem "refresh_token" (removeItem "access_token" w))).
Proof. intros HQ. rewrite !storage_removeItem. auto. Qed.

Lemma api_keeps fuel : forall c w out w',
  api backend fuel c w = Some (out, w') -> Q (storage w) -> Q (storage w').
Proof.
  induction fuel as [|fuel IH]; intros c w out w' H HQ; [discriminate|].
  simpl in H.
  destruct (transport backend (merge_defaults c w) w) as [[r|e] w1] eqn:Ht;
    destruct (ApiFacts.transport_storage _ _ _ _ _ Ht) as (Hs & _ & _);
    rewrite <- Hs in HQ.
  { injection H as <- <-. exact HQ. }
  unfold onRejected_with in H.
  destruct (unauthorized e && negb (_retry (config e))).
  2:{ injection H as <- <-. exact HQ. }
  unfold refreshToken_with in H.
  destruct (negb (truthy (getItem "refresh_token" w1))).
  { injection H as <- <-. apply Q_cleared, HQ. }
  destruct (api backend fuel (refresh_config _) w1) as [[[res|err] w2]|] eqn:Hc;
    [| |discriminate]; apply IH in Hc; try exact HQ.
  - destruct (rdata res) as [o|items|s|];
      try (injection H as <- <-; apply Q_cleared, Hc).
    destruct (truthy (body_field "access_token" (BObj o))) eqn:Hv.
    + eapply IH; [exact H|]. apply Q_stored_token; assumption.
    + injection H as <- <-. apply Q_cleared, Hc.
  - injection H as <- <-. apply Q_cleared, Hc.
Qed.

Lemma refreshToken_keeps fuel w r w' :
  refreshToken backend fuel w = Some (r, w') -> Q (storage w) -> Q (storage w').
Proof.
  unfold refreshToken, refreshToken_with. intros H HQ.
  destruct (negb (truthy (getItem "refresh_token" w))).
  { injection H as <- <-. exact HQ. }
  destruct (api backend fuel (refresh_config _) w) as [[[res|err] w1]|] eqn:Hc;
    [| |discriminate]; apply api_keeps in Hc; try exact HQ.
  - destruct (rdata res) as [o|items|s|]; try (injection H as <- <-; exact Hc).
    destruct (truthy (body_field "access_token" (BObj o))) eqn:Hv.
    + injection H as <- <-. apply Q_stored_token; assumption.
    + injection H as <- <-. exact Hc.
  - injection H as <- <-. exact Hc.
Qed.

Lemma handleLogin_keeps fuel st w st' w' :
  Login.handleLogin backend fuel st w = Some (st', w') ->
  Q (storage w) -> Q (storage w').
Proof.
  unfold Login.handleLogin. intros H HQ.
  destruct (negb (Login.emailRegex_test _)).
  { injection H as <- <-. exact HQ. }
  destruct (api backend fuel _ w) as [[[res|err] w1]|] eqn:Hc; [| |discriminate];
    apply api_keeps in Hc; try exact HQ.
  - destruct (rdata res) as [o|items|s|]; try (injection H as <- <-; exact Hc).
    destruct (truthy (body_field "access_token" (BObj o))) eqn:Hv; simpl in H.
    + injection H as <- <-. apply Q_stored_token; assumption.
    + injection H as <- <-. exact Hc.
  - injection H as <- <-. exact Hc.
Qed.

Lemma initAuth_keeps fuel st w st' w' :
  Chat.initAuth backend fuel st w = Some (st', w') ->
  Q (storage w) -> Q (storage w').
Proof.
  unfold Chat.initAuth. intros H HQ.
  destruct (negb (truthy (getItem "access_token" w))).
  { injection H as <- <-. exact HQ. }
  destruct (api backend fuel _ _) as [[[res|err] w1]|] eqn:Hc; [| |discriminate];
    apply api_keeps in Hc;
    try (rewrite ClientFacts.setAuthToken_storage; exact HQ).
  { injection H as <- <-. exact Hc. }
  destruct (unauthorized err); [|injection H as <- <-; exact Hc].
  destruct (refreshToken backend fuel w1) as [[[t|] w2]|] eqn:Hr; [| |discriminate];
    apply refreshToken_keeps in Hr; try exact Hc.
  - destruct (api backend fuel _ (setAuthToken (Some t) w2)) as [[[res|err'] w4]|] eqn:Hc2;
      [| |discriminate];
      apply api_keeps in Hc2;
      try (rewrite ClientFacts.setAuthToken_storage; exact Hr);
      injection H as <- <-; exact Hc2.
  - injection H as <- <-. unfold Chat.clear_credentials. apply Q_cleared, Hr.
Qed.

Lemma act_keeps fuel a w w' :
  Client.act backend fuel a w = Some w' -> Q (storage w) -> Q (storage w').
Proof.
  destruct a as [c|e p| | | | |id|]; unfold Client.act; intros H HQ.
  - destruct (api backend fuel c w) as [[out w1]|] eqn:E; [|discriminate].
    injection H as <-. eapply api_keeps; eassumption.
  - destruct (Login.handleLogin backend fuel _ w) as [[st' w1]|] eqn:E; [|discriminate].
    injection H as <-. eapply handleLogin_keeps; eassumption.
  - destruct (Chat.initAuth backend fuel _ w) as [[st' w1]|] eqn:E; [|discriminate].
    injection H as <-. eapply initAuth_keeps; eassumption.
  - injection H as <-. unfold Chat.handleLogout. cbn [snd].
    rewrite ClientFacts.setAuthToken_storage. apply Q_cleared, HQ.
  - injection H as <-. rewrite ClientFacts.setAuthToken_storage, storage_removeItem.
    apply Q_delete, Q_cleared, HQ.
  - injection H as <-. rewrite ClientFacts.setAuthToken_storage, storage_removeItem.
    apply Q_delete, HQ.
  - injection H as <-. rewrite storage_setItem. apply Q_session, HQ.
  - injection H as <-. rewrite storage_removeItem. apply Q_delete, HQ.
Qed.

Lemma run_keeps fuel actions : forall w w',
  Client.run backend fuel actions w = Some w' -> Q (storage w) -> Q (storage w').
Proof.
  induction actions as [|a rest IH]; intros w w' H HQ; simpl in H.
  - injection H as <-. exact HQ.
  - destruct (Client.act backend fuel a w) as [w1|] eqn:Ha; [|discriminate].
    eapply IH; [exact H|]. eapply act_keeps; eassumption.
Qed.

Local Transparent setAuthToken setItem removeItem.

End Invariant.


(** X5. Over any sequence of client operations that returns, a stored
    [access_token] is never the empty string, provided it was not at the
    start: login and refresh store a token only when it is truthy. *)
Theorem stored_access_token_never_empty backend fuel actions w w' :
  Client.run backend fuel actions w = Some w' ->
  match getItem "access_token" w with
  | Some v => truthy_str v = true
  | None => True
  end ->
  match getItem "access_token" w' with
  | Some v => truthy_str v = true
  | None => True
  end.
Proof.
  intros Hrun H0.
  pose (Q := fun m : gmap string string =>
               match m !! "access_token" with
               | Some v => truthy_str v = true
               | None => True
               end).
  assert (HQ : Q (storage w')).
  { apply (run_keeps backend Q) with (fuel := fuel) (actions := actions) (w := w);
      unfold Q; try assumption.
    - intros k m Hm. rewrite lookup_delete.
      destruct (decide (k = "access_token")); auto.
    - intros t m Ht _. rewrite lookup_insert_eq. exact Ht.
    - intros v m Hm. rewrite lookup_insert_ne by discriminate. exact Hm. }
  exact HQ.
Qed.

Example stored_access_token_never_empty_witness :
  match Client.run (scripted Sample.login_then_expired) 1
          [Client.HandleLogin "ann@example.org" "secret"] Sample.fresh_browser with
  | Some w' =>
      match getItem "access_token" w' with
      | Some v => truthy_str v = true
      | None => True
      end
  | None => False
  end.
Proof.
  destruct (Client.run (scripted Sample.login_then_expired) 1
              [Client.HandleLogin "ann@example.org" "secret"] Sample.fresh_browser)
    as [w'|] eqn:H.
  - exact (stored_access_token_never_empty _ _ _ _ _ H I).
  - vm_compute in H. discriminate H.
Defined.

(** X6. The client writes two keys only, [access_token] and
    [activeSessionId]: over any sequence of its operations that returns,
    every other key of localStorage holds what it held at the start, or is
    gone. *)
Theorem other_keys_are_never_written backend fuel actions w w' k :
  Client.run backend fuel actions w = Some w' ->
  k <> "access_token" -> k <> "activeSessionId" ->
  getItem k w' = None \/ getItem k w' = getItem k w.
Proof.
  intros Hrun Hk1 Hk2.
  pose (Q := fun m : gmap string string =>
               m !! k = None \/ m !! k = storage w !! k).
  assert (HQ : Q (storage w')).
  { apply (run_keeps backend Q) with (fuel := fuel) (actions := actions) (w := w);
      unfold Q; try assumption.
    - intros k' m Hm. rewrite lookup_delete.
      destruct (decide (k' = k)); [left; reflexivity | exact Hm].
    - intros t m _ Hm. rewrite lookup_insert_ne by congruence. exact Hm.
    - intros v m Hm. rewrite lookup_insert_ne by congruence. exact Hm.
    - right. reflexivity. }
  exact HQ.
Qed.

Example other_keys_are_never_written_witness :
  match Client.run (scripted Sample.expired_then_refreshed) 2
          [Client.Call Chat.sessions_config; Client.RememberSession "s1"]
          Sample.with_refresh_token with
  | Some w' =>
      getItem "refresh_token" w' = None
      \/ getItem "refresh_token" w' = getItem "refresh_token" Sample.with_refresh_token
  | None => False
  end.
Proof.
  destruct (Client.run (scripted Sample.expired_then_refreshed) 2
              [Client.Call Chat.sessions_config; Client.RememberSession "s1"]
              Sample.with_refresh_token) as [w'|] eqn:H.
  - apply (other_keys_are_never_written _ _ _ _ _ "refresh_token" H); discriminate.
  - vm_compute in H. discriminate H.
Defined.
End StorageFacts.

(** ** The login form *)

Module LoginFacts.

Import Api.
Import Login.

Lemma append_cons c a b : (String c a ++ b)%string = String c (a ++ b)%string.
Proof. reflexivity. Qed.

Lemma append_nil b : ("" ++ b)%string = b.
Proof. reflexivity. Qed.

Lemma all_plain_app a b : all_plain (a ++ b)%string = all_plain a && all_plain b.
Proof.
  induction a as [|c a IH]; [reflexivity|].
  rewrite append_cons. simpl. rewrite IH. apply andb_assoc.
Qed.

Lemma split_at_sign_app s : forall l d,
  split_at_sign s = Some (l, d) -> s = (l ++ String "@" d)%string.
Proof.
  induction s as [|c s IH]; intros l d H; simpl in H; [discriminate|].
  destruct (Ascii.eqb c "@") eqn:Hc.
  - apply Ascii.eqb_eq in Hc. subst c. injection H as <- <-. reflexivity.
  - destruct (split_at_sign s) as [[l' d']|]; [|discriminate].
    injection H as <- <-. rewrite append_cons. f_equal. apply IH. reflexivity.
Qed.

Lemma split_at_sign_plain l d :
  all_plain l = true -> split_at_sign (l ++ String "@" d)%string = Some (l, d).
Proof.
  induction l as [|c l IH]; intros H; [reflexivity|].
  simpl in H. apply andb_prop in H. destruct H as [Hc Hl].
  unfold plain_char in Hc. apply andb_prop in Hc. destruct Hc as [_ Hc].
  apply negb_true_iff in Hc. rewrite append_cons. simpl.
  rewrite Hc, (IH Hl). reflexivity.
Qed.

Lemma dot_inside_split s : forall seen,
  dot_inside seen s = true -> all_plain s = true ->
  exists a b, s = (a ++ String "." b)%string
              /\ (seen = true \/ a <> "") /\ b <> ""
              /\ all_plain a = true /\ all_plain b = true.
Proof.
  induction s as [|c s IH]; intros seen H Hp; simpl in H; [discriminate|].
  simpl in Hp. apply andb_prop in Hp. destruct Hp as [Hc Hs].
  apply orb_prop in H. destruct H as [H|H].
  - apply andb_prop in H. destruct H as [H Hb].
    apply andb_prop in H. destruct H as [Hseen Hdot].
    apply Ascii.eqb_eq in Hdot. subst c.
    exists "", s.
    split; [reflexivity|]. split; [left; exact Hseen|].
    split; [apply truthy_str_nonempty, Hb|]. split; [reflexivity|exact Hs].
  - destruct (IH true H Hs) as (a & b & -> & _ & Hb & Ha & Hb').
    exists (String c a), b.
    split; [reflexivity|]. split; [right; discriminate|].
    split; [exact Hb|]. split; [|exact Hb'].
    simpl. rewrite Hc, Ha. reflexivity.
Qed.

Lemma dot_inside_app a b : forall seen,
  seen = true \/ a <> "" -> b <> "" ->
  dot_inside seen (a ++ String "." b)%string = true.
Proof.
  induction a as [|c a IH]; intros seen Hs Hb.
  - destruct Hs as [->|Hs]; [|congruence].
    rewrite append_nil. simpl.
    apply truthy_str_nonempty in Hb. rewrite Hb. reflexivity.
  - rewrite append_cons. simpl. rewrite (IH true) by auto. apply orb_true_r.
Qed.

Lemma plain_dot : plain_char "." = true.
Proof. reflexivity. Qed.

(** X7. The address check accepts exactly the strings of the shape
    local@domain.rest in which the three parts are non-empty and contain
    neither whitespace nor another at-sign (dots are allowed in each). *)
Theorem emailRegex_accepts_exactly s :
  emailRegex_test s = true
  <-> exists l a b,
        s = (l ++ "@" ++ a ++ "." ++ b)%string
        /\ l <> "" /\ a <> "" /\ b <> ""
        /\ all_plain l = true /\ all_plain a = true /\ all_plain b = true.
Proof.
  unfold emailRegex_test. split.
  - destruct (split_at_sign s) as [[l d]|] eqn:Hs; [|discriminate].
    intros H. apply andb_prop in H. destruct H as [H Hdot].
    apply andb_prop in H. destruct H as [H Hd].
    apply andb_prop in H. destruct H as [Hl Hpl].
    destruct (dot_inside_split d false Hdot Hd) as (a & b & -> & Ha & Hb & Hpa & Hpb).
    exists l, a, b. repeat split; auto.
    + apply split_at_sign_app, Hs.
    + apply truthy_str_nonempty, Hl.
    + destruct Ha as [Ha|Ha]; [discriminate|exact Ha].
  - intros (l & a & b & -> & Hl & Ha & Hb & Hpl & Hpa & Hpb).
    change (l ++ "@" ++ a ++ "." ++ b)%string
      with (l ++ String "@" (a ++ String "." b))%string.
    rewrite (split_at_sign_plain _ _ Hpl).
    apply truthy_str_nonempty in Hl. rewrite Hl, Hpl.
    rewrite all_plain_app.
    change (all_plain (String "." b)) with (plain_char "." && all_plain b).
    rewrite Hpa, plain_dot, Hpb.
    rewrite dot_inside_app by auto. reflexivity.
Qed.

Section Form.

Variable backend : list Config -> Config -> Reply.

Lemma error_message_marked e : error_message (marked e) = error_message e.
Proof. reflexivity. Qed.

Lemma shown_error_truthy m :
  truthy_str (if truthy m then default "" m
              else "Login failed. Check your email or password.") = true.
Proof. destruct m as [[|c s]|]; reflexivity. Qed.

Local Opaque setAuthToken setItem removeItem.

(** X8. However [handleLogin] ends, it leaves the form in one of two
    states. Either it went to /chat with no error shown, and then the address
    passed the check, a non-empty token is in localStorage and the default
    header is its bearer form; or it stayed on the page it was on with a
    non-empty error message. An address that fails the check costs no
    request and leaves the client state as it was. *)
Theorem handleLogin_outcome fuel st w st' w' :
  handleLogin backend fuel st w = Some (st', w') ->
  email st' = email st /\ password st' = password st
  /\ ((location st' = "/chat" /\ error st' = ""
       /\ emailRegex_test (email st) = true
       /\ exists t, truthy_str t = true
                    /\ getItem "access_token" w' = Some t
                    /\ defaults_auth w' = Some (bearer t))
      \/ (location st' = location st /\ truthy_str (error st') = true))
  /\ (emailRegex_test (email st) = false -> w' = w).
Proof.
  unfold handleLogin. simpl email. simpl password.
  destruct (emailRegex_test (email st)) eqn:Hre; simpl negb; cbv iota.
  2:{ intros [= <- <-].
      split; [reflexivity|]. split; [reflexivity|]. split; [|reflexivity].
      right. split; reflexivity. }
  destruct (api backend fuel (login_config (email st) (password st)) w)
    as [[[res|err] w1]|]; [| |discriminate].
  - assert (Hbad : forall msg, truthy_str msg = true ->
              Some (setError msg (setError "" st), w1) = Some (st', w') ->
              email st' = email st /\ password st' = password st
              /\ ((location st' = "/chat" /\ error st' = ""
                   /\ true = true
                   /\ exists t, truthy_str t = true
                                /\ getItem "access_token" w' = Some t
                                /\ defaults_auth w' = Some (bearer t))
                  \/ (location st' = location st /\ truthy_str (error st') = true))
              /\ (true = false -> w' = w)).
    { intros msg Hm [= <- <-].
      split; [reflexivity|]. split; [reflexivity|]. split; [|discriminate].
      right. split; [reflexivity|]. exact Hm. }
    destruct (rdata res) as [o| | |]; try (apply Hbad; reflexivity);
      simpl body_field;
      try (simpl truthy; simpl negb; cbv iota; apply Hbad; reflexivity).
    destruct (field "access_token" o) as [t|] eqn:Hf; simpl truthy;
      [|simpl negb; cbv iota; apply Hbad; reflexivity].
    destruct (truthy_str t) eqn:Ht; simpl negb; cbv iota;
      [|apply Hbad; reflexivity].
    intros [= <- <-]. simpl default.
    split; [reflexivity|]. split; [reflexivity|]. split; [|discriminate].
    left. split; [reflexivity|]. split; [reflexivity|]. split; [reflexivity|].
    exists t. split; [exact Ht|]. split.
    + rewrite ClientFacts.getItem_setAuthToken. apply ApiMore.getItem_setItem_same.
    + apply ApiMore.defaults_auth_setAuthToken, Ht.
  - intros [= <- <-].
    split; [reflexivity|]. split; [reflexivity|]. split; [|discriminate].
    right. split; [reflexivity|]. apply shown_error_truthy.
Qed.

(** X9. A login answered with 401 is treated like an expired session. With
    no refresh token in store the interceptor removes the access token that
    was there, one request has gone out, and the form shows the message of
    the server, or the stock one when the server sent none. *)
Theorem rejected_login_clears_stored_token fuel st w e w1 :
  emailRegex_test (email st) = true ->
  truthy (getItem "refresh_token" w) = false ->
  transport backend (merge_defaults (login_config (email st) (password st)) w) w
  = (Rejected e, w1) ->
  unauthorized e = true ->
  exists st' w',
    handleLogin backend (S fuel) st w = Some (st', w')
    /\ getItem "access_token" w' = None
    /\ log w' = log w ++ [merge_defaults (login_config (email st) (password st)) w]
    /\ location st' = location st
    /\ error st' = (if truthy (error_message e) then default "" (error_message e)
                    else "Login failed. Check your email or password.").
Proof.
  intros Hre Hrt Ht Hu. unfold handleLogin. simpl email. simpl password.
  rewrite Hre. simpl negb. cbv iota.
  rewrite (ApiFacts.api_without_refresh_token backend fuel _ w Hrt), Ht, Hu.
  simpl andb. cbv iota. rewrite error_message_marked.
  destruct (ApiFacts.transport_storage _ _ _ _ _ Ht) as (_ & _ & Hl).
  eexists _, _. split; [reflexivity|]. repeat split.
  - rewrite ClientFacts.getItem_removeItem_other by discriminate.
    apply ClientFacts.getItem_removeItem_same.
  - rewrite !ApiMore.log_removeItem. exact Hl.
Qed.

(** X10. Login and mount fit together. A login with a well-formed address
    that the backend accepts with a non-empty token [t], in a browser with no
    refresh token in store, ends on /chat with no error shown and [t] stored;
    the chat page mounted then always settles, whatever the backend answers,
    and its one request is GET /chat/history with [t] as bearer: the requests
    of login and mount together are the login post followed by that GET. *)
Theorem login_then_mount_presents_token fuel fuel' st w res w0 t cst :
  emailRegex_test (email st) = true ->
  truthy (getItem "refresh_token" w) = false ->
  transport backend (merge_defaults (login_config (email st) (password st)) w) w
  = (Resolved res, w0) ->
  body_field "access_token" (rdata res) = Some t -> truthy_str t = true ->
  exists st' w1 r,
    handleLogin backend (S fuel) st w = Some (st', w1)
    /\ location st' = "/chat" /\ error st' = ""
    /\ getItem "access_token" w1 = Some t
    /\ Chat.initAuth backend (S fuel') cst w1 = Some r
    /\ log (snd r)
       = log w ++ [merge_defaults (login_config (email st) (password st)) w;
                   mkConfig GET "/chat/history" [] (Some (bearer t)) false].
Proof.
  intros Hre Hrt Hlogin Hbody Ht.
  destruct (ApiFacts.transport_storage _ _ _ _ _ Hlogin) as (Hs0 & _ & Hl0).
  set (w1 := setAuthToken (Some t) (setItem "access_token" t w0)).
  assert (Hlog : handleLogin backend (S fuel) st w
                 = Some (navigate "/chat" (setError "" st), w1)).
  { unfold handleLogin. simpl email. simpl password. rewrite Hre.
    simpl negb. cbv iota.
    change (api backend (S fuel) (login_config (email st) (password st)) w)
      with (match transport backend
                    (merge_defaults (login_config (email st) (password st)) w) w with
            | (Resolved r, w1) => Some (Resolved r, w1)
            | (Rejected e, w1) => onRejected_with (api backend fuel) e w1
            end).
    rewrite Hlogin.
    destruct (rdata res) as [o| | |]; try discriminate Hbody.
    cbn [body_field] in Hbody. cbn [body_field]. cbv zeta.
    rewrite Hbody. simpl truthy. rewrite Ht. reflexivity. }
  assert (Hg : getItem "access_token" w1 = Some t).
  { unfold w1. rewrite ClientFacts.getItem_setAuthToken.
    apply ApiMore.getItem_setItem_same. }
  set (w2 := setAuthToken (Some t) w1).
  assert (Hrt2 : truthy (getItem "refresh_token" w2) = false).
  { unfold w2, w1. rewrite !ClientFacts.getItem_setAuthToken.
    rewrite ClientFacts.getItem_setItem_other by discriminate.
    unfold getItem in *. rewrite Hs0. exact Hrt. }
  assert (Hreq : merge_defaults Chat.sessions_config w2
                 = mkConfig GET "/chat/history" [] (Some (bearer t)) false).
  { unfold merge_defaults, w2. simpl.
    rewrite ApiMore.defaults_auth_setAuthToken by exact Ht. reflexivity. }
  assert (Hl2 : log w2 = log w ++ [merge_defaults (login_config (email st) (password st)) w]).
  { unfold w2, w1. rewrite !ClientFacts.setAuthToken_log, ApiMore.log_setItem.
    exact Hl0. }
  assert (Hmount : exists r,
             Chat.initAuth backend (S fuel') cst w1 = Some r
             /\ log (snd r) = log w2 ++ [merge_defaults Chat.sessions_config w2]).
  { unfold Chat.initAuth. rewrite Hg. simpl truthy. rewrite Ht.
    simpl negb. cbv iota. fold w2.
    rewrite (ApiFacts.api_without_refresh_token backend fuel' _ w2 Hrt2).
    destruct (transport backend (merge_defaults Chat.sessions_config w2) w2)
      as [[r|e] w3] eqn:Hget;
      destruct (ApiFacts.transport_storage _ _ _ _ _ Hget) as (Hs3 & _ & Hl3).
    { eexists. split; [reflexivity | exact Hl3]. }
    simpl negb. rewrite andb_true_r.
    destruct (unauthorized e) eqn:Hu.
    - assert (Hu' : unauthorized (marked e) = true) by exact Hu.
      rewrite Hu'.
      rewrite ClientFacts.refreshToken_keeps_absent
        by apply ClientFacts.getItem_removeItem_same.
      eexists. split; [reflexivity|]. cbn [snd]. unfold Chat.clear_credentials.
      rewrite !ApiMore.log_removeItem. exact Hl3.
    - rewrite Hu. eexists. split; [reflexivity | exact Hl3]. }
  destruct Hmount as (r & Hr & Hlr).
  exists (navigate "/chat" (setError "" st)), w1, r.
  split; [exact Hlog|]. split; [reflexivity|]. split; [reflexivity|].
  split; [exact Hg|]. split; [exact Hr|].
  rewrite Hlr, Hl2, Hreq, <- app_assoc. reflexivity.
Qed.

(** X11. Logout and mount fit together: after [handleLogout] both tokens
    and the default header are gone, and a chat page mounted then goes to the
    login route without sending anything. *)
Theorem logout_then_mount_redirects fuel st cst w :
  let w1 := snd (Chat.handleLogout st w) in
  Chat.location (fst (Chat.handleLogout st w)) = "/"
  /\ getItem "access_token" w1 = None
  /\ getItem "refresh_token" w1 = None
  /\ defaults_auth w1 = None
  /\ log w1 = log w
  /\ Chat.initAuth backend fuel cst w1 = Some (Chat.navigate "/" cst, w1).
Proof.
  simpl.
  assert (Ha : getItem "access_token"
                 (setAuthToken None (Chat.clear_credentials w)) = None).
  { rewrite ClientFacts.getItem_setAuthToken. unfold Chat.clear_credentials.
    rewrite ClientFacts.getItem_removeItem_other by discriminate.
    apply ClientFacts.getItem_removeItem_same. }
  repeat split.
  - exact Ha.
  - rewrite ClientFacts.getItem_setAuthToken. unfold Chat.clear_credentials.
    apply ClientFacts.getItem_removeItem_same.
  - unfold Chat.initAuth. rewrite Ha. reflexivity.
Qed.

Local Transparent setAuthToken setItem removeItem.

End Form.

Example handleLogin_outcome_witness :
  match handleLogin (scripted Sample.login_then_expired) 1
          (mkState "ann@example.org" "secret" "old error" "/") Sample.fresh_browser with
  | Some (st', w') =>
      email st' = "ann@example.org" /\ password st' = "secret"
      /\ ((location st' = "/chat" /\ error st' = ""
           /\ emailRegex_test "ann@example.org" = true
           /\ exists t, truthy_str t = true
                        /\ getItem "access_token" w' = Some t
                        /\ defaults_auth w' = Some (bearer t))
          \/ (location st' = "/" /\ truthy_str (error st') = true))
  | None => False
  end.
Proof.
  destruct (handleLogin (scripted Sample.login_then_expired) 1
              (mkState "ann@example.org" "secret" "old error" "/") Sample.fresh_browser)
    as [[st' w']|] eqn:H.
  - destruct (handleLogin_outcome _ _ _ _ _ _ H) as (He & Hp & Hd & _).
    auto.
  - vm_compute in H. discriminate H.
Defined.

Example rejected_login_clears_stored_token_witness :
  exists st' w',
    handleLogin (scripted [HttpReply 401 (BObj [("message", "Wrong password")])]) 1
      (mkState "ann@example.org" "guess" "" "/") Sample.logged_in = Some (st', w')
    /\ getItem "access_token" w' = None
    /\ log w' = [mkConfig POST "/user/login"
                   [("user_email", "ann@example.org"); ("user_password", "guess")]
                   (Some "Bearer stale") false]
    /\ location st' = "/"
    /\ error st' = "Wrong password".
Proof.
  exact (rejected_login_clears_stored_token
           (scripted [HttpReply 401 (BObj [("message", "Wrong password")])]) 0
           (mkState "ann@example.org" "guess" "" "/") Sample.logged_in
           _ _ eq_refl eq_refl eq_refl eq_refl).
Defined.

Example login_then_mount_presents_token_witness :
  exists st' w1 r,
    handleLogin (scripted Sample.login_then_expired) 1
      (mkState "ann@example.org" "secret" "" "/") Sample.fresh_browser
    = Some (st', w1)
    /\ location st' = "/chat" /\ error st' = ""
    /\ getItem "access_token" w1 = Some "stale"
    /\ Chat.initAuth (scripted Sample.login_then_expired) 1 Chat.init w1 = Some r
    /\ log (snd r)
       = [mkConfig POST "/user/login"
            [("user_email", "ann@example.org"); ("user_password", "secret")] None false;
          mkConfig GET "/chat/history" [] (Some "Bearer stale") false].
Proof.
  exact (login_then_mount_presents_token (scripted Sample.login_then_expired) 0 0
           (mkState "ann@example.org" "secret" "" "/") Sample.fresh_browser
           (mkResponse 200 (BObj [("access_token", "stale")]))
           (mkWorld ∅ None
              [mkConfig POST "/user/login"
                 [("user_email", "ann@example.org"); ("user_password", "secret")]
                 None false])
           "stale" Chat.init eq_refl eq_refl eq_refl eq_refl eq_refl).
Defined.

End LoginFacts.

(** ** More on the chat page *)

Module ChatMore.

Import Api.
Import Chat.

(** *** The requests the page sends *)

(** What the guards of the page let through: a post carries a message that
    is not blank and a truthy session value, a history fetch a truthy session
    value. Truthy is all the guards test: a non-empty string or any object. *)
Local Abbreviation sendable :=
  (fun r : InFlight =>
     match r with
     | PostChat m id => all_space m = false /\ truthy_val (Some id) = true
     | GetHistory a => truthy_val (Some a) = true
     | PostCreateSession | DeleteHistory _ _ _ => True
     end).

Local Abbreviation grows st st' :=
  (exists added, sent st' = sent st ++ added /\ Forall sendable added).

Lemma grows_same st st' : sent st' = sent st -> grows st st'.
Proof. intros H. exists []. rewrite app_nil_r. split; [exact H | constructor]. Qed.

Lemma grows_trans st1 st2 st3 : grows st1 st2 -> grows st2 st3 -> grows st1 st3.
Proof.
  intros (a & Ha & Fa) (b & Hb & Fb). exists (a ++ b).
  rewrite Hb, Ha, app_assoc. split; [reflexivity|].
  apply Forall_app. split; assumption.
Qed.

Lemma rerender_grows before st : grows st (rerender before st).
Proof.
  unfold rerender. destruct (same before (activeSessionId st));
    [apply grows_same; reflexivity|].
  unfold fetchChat_effect.
  destruct (truthy_val (activeSessionId st)) eqn:Ht; simpl;
    [|apply grows_same; reflexivity].
  destruct (activeSessionId st) as [a|]; [|apply grows_same; reflexivity].
  exists [GetHistory a]. split; [reflexivity|].
  constructor; [exact Ht | constructor].
Qed.

Lemma fetchChat_resolved_sent a data st :
  sent (fetchChat_resolved a data st) = sent st.
Proof.
  unfold fetchChat_resolved. destruct data as [o|items|s|]; auto.
  destruct (flatten_history items) as [|first rest]; auto.
  destruct (from first); auto.
  destruct (rename_sessions _ _ _ _); auto.
Qed.

Lemma resume_sent req r now st st' :
  resume req r now st = Some st' -> sent st' = sent st.
Proof.
  destruct req as [a| |x a ss|m id], r as [data|]; simpl; intros H;
    try (injection H as <-; reflexivity).
  - injection H as <-. apply fetchChat_resolved_sent.
  - destruct data as [o|items|s|]; simpl in H; try discriminate;
      injection H as <-; reflexivity.
  - injection H as <-. unfold deleteSession_resolved.
    destruct (same a (Some x)); [|reflexivity].
    destruct (without x ss); reflexivity.
  - destruct data; simpl in H; try discriminate; injection H as <-; reflexivity.
Qed.

Lemma handle_grows e st st' : handle e st = Some st' -> grows st st'.
Proof.
  destruct e as [items|v|now|k| |k confirmed|i r now]; simpl; intros H.
  - injection H as <-. apply grows_same. unfold sessions_loaded.
    destruct (intern items (heap st)) as [vs h]. destruct vs; reflexivity.
  - injection H as <-. apply grows_same. reflexivity.
  - injection H as <-. unfold sendMessage.
    destruct (truthy_str (trim (input st))) eqn:Hin; simpl;
      [|apply grows_same; reflexivity].
    destruct (truthy_val (activeSessionId st)) eqn:Ht; simpl;
      [|apply grows_same; reflexivity].
    destruct (activeSessionId st) as [id|]; [|apply grows_same; reflexivity].
    exists [PostChat (input st) id]. split; [reflexivity|].
    constructor; [|constructor]. split; [|exact Ht].
    destruct (all_space (input st)) eqn:Hs; [|reflexivity].
    apply trim_falsy in Hs. congruence.
  - destruct (sessions st !! k) as [s|]; [|discriminate].
    injection H as <-. apply grows_same. unfold selectSession.
    destruct (negb (same (Some s) (activeSessionId st))); reflexivity.
  - injection H as <-. exists [PostCreateSession]. split; [reflexivity|].
    constructor; [exact I | constructor].
  - destruct (sessions st !! k) as [s|]; [|discriminate].
    injection H as <-. unfold deleteSession.
    destruct (negb confirmed); [apply grows_same; reflexivity|].
    eexists [_]. split; [reflexivity|]. constructor; [exact I | constructor].
  - destruct (inflight st !! i) as [req|]; [|discriminate].
    apply grows_same. rewrite (resume_sent _ _ _ _ _ H). reflexivity.
Qed.

Lemma step_grows e st st' : step e st = Some st' -> grows st st'.
Proof.
  unfold step. destruct (handle e st) as [st1|] eqn:H; [|discriminate].
  intros [= <-]. apply (grows_trans st st1); [apply (handle_grows e), H|].
  apply rerender_grows.
Qed.

(** X12. Whatever the user does and however the requests settle, every
    request the page adds to those it has sent has passed its guard: a post
    carries a message that is not blank together with a truthy session value,
    and a history fetch is for a truthy session value. Truthy means a
    non-empty string or any object: the guards do not ask for an id string, so
    on a session list of objects the row object itself is what the page
    fetches and posts with. Requests once sent stay on record in their
    order. *)
Theorem sent_requests_passed_their_guards es : forall st st',
  run es st = Some st' ->
  exists added,
    sent st' = sent st ++ added
    /\ Forall (fun r =>
                 match r with
                 | PostChat m id => all_space m = false /\ truthy_val (Some id) = true
                 | GetHistory a => truthy_val (Some a) = true
                 | PostCreateSession | DeleteHistory _ _ _ => True
                 end) added.
Proof.
  induction es as [|e es IH]; intros st st' H; simpl in H.
  - injection H as <-. apply grows_same. reflexivity.
  - destruct (step e st) as [st1|] eqn:Hs; [|discriminate].
    apply (grows_trans st st1); [apply step_grows with e, Hs | apply IH, H].
Qed.

Example sent_requests_passed_their_guards_witness :
  match run [SessionsLoaded [IObj [("id", "s1")]; IStr ""]; Typed "  ";
             PressSend "10:00"; Typed "hi"; PressSend "10:01"; ClickSession 1;
             PressSend "10:02"; ClickNewChat] init with
  | Some st' =>
      exists added,
        sent st' = sent init ++ added
        /\ Forall (fun r =>
                     match r with
                     | PostChat m id => all_space m = false /\ truthy_val (Some id) = true
                     | GetHistory a => truthy_val (Some a) = true
                     | PostCreateSession | DeleteHistory _ _ _ => True
                     end) added
  | None => False
  end.
Proof.
  destruct (run [SessionsLoaded [IObj [("id", "s1")]; IStr ""]; Typed "  ";
                 PressSend "10:00"; Typed "hi"; PressSend "10:01"; ClickSession 1;
                 PressSend "10:02"; ClickNewChat] init) as [st'|] eqn:H.
  - exact (sent_requests_passed_their_guards _ _ _ H).
  - vm_compute in H. discriminate H.
Defined.

(** The run of the example: the list holds a row object, and the row object
    is what the history is fetched for and what the post carries as id. *)
Example row_object_is_sent_as_id :
  match run [SessionsLoaded [IObj [("id", "s1")]; IStr ""]; Typed "hi";
             PressSend "10:01"] init with
  | Some st' =>
      sent st' = [GetHistory (VObj 0 [("id", "s1")]);
                  PostChat "hi" (VObj 0 [("id", "s1")])]
  | None => False
  end.
Proof. vm_compute. reflexivity. Qed.

(** X13. A reply is shown in whatever session is open when it arrives. Send
    in session [a], switch to another row [b], and let the post resolve: the
    list, emptied by the switch, now holds the reply to the message of [a] as
    its only entry, while the history of [b] is still being fetched. *)
Theorem reply_lands_in_the_open_session now now' k o st a b :
  all_space (input st) = false ->
  activeSessionId st = Some a -> truthy_val (Some a) = true ->
  sessions st !! k = Some b ->
  strict_eq b a = false -> truthy_val (Some b) = true ->
  exists st',
    run [PressSend now; ClickSession k;
         Settle (length (inflight st)) (Fulfilled (BObj o)) now'] st = Some st'
    /\ activeSessionId st' = Some b
    /\ messages st' = [mkMessage (default "" (field "reply" o)) bot false (Some now')]
    /\ inflight st' = inflight st ++ [GetHistory b]
    /\ sent st' = sent st ++ [PostChat (input st) a; GetHistory b].
Proof.
  intros Hin Ha Hta Hk Hba Htb.
  assert (Hab : strict_eq a b = false) by (rewrite ChatFacts.strict_eq_sym; exact Hba).
  unfold run, step. simpl handle.
  rewrite (ChatFacts.sendMessage_sends now st a Hin Ha Hta).
  rewrite ChatFacts.rerender_unchanged by (simpl; congruence).
  cbn [handle sessions]. rewrite Hk. unfold selectSession.
  cbn [activeSessionId same]. rewrite Hba. simpl negb. cbv iota.
  rewrite (ChatFacts.rerender_changed _ _ b) by (try reflexivity; assumption).
  cbn [handle issue setMessages setActiveSessionId inflight messages input sessions
       activeSessionId location sent heap].
  assert (Hfl : (inflight st ++ [PostChat (input st) a]) ++ [GetHistory b]
                = inflight st ++ PostChat (input st) a :: [GetHistory b])
    by (rewrite <- app_assoc; reflexivity).
  rewrite Hfl, ChatFacts.lookup_app_length. unfold settled. simpl.
  rewrite Hfl, ChatFacts.remove_nth_app_length.
  rewrite ChatFacts.rerender_unchanged by reflexivity.
  eexists. split; [reflexivity|]. simpl.
  split; [reflexivity|]. split; [reflexivity|]. split; [reflexivity|].
  rewrite <- app_assoc. reflexivity.
Qed.

Example reply_lands_in_the_open_session_witness :
  exists st',
    run [PressSend "10:00"; ClickSession 1;
         Settle 0 (Fulfilled (BObj [("reply", "about A")])) "10:01"]
        (mkState [] "question for A" [VStr "A"; VStr "B"] (Some (VStr "A"))
                 "/chat" [] [] 0) = Some st'
    /\ activeSessionId st' = Some (VStr "B")
    /\ messages st' = [mkMessage "about A" bot false (Some "10:01")]
    /\ inflight st' = [GetHistory (VStr "B")]
    /\ sent st' = [PostChat "question for A" (VStr "A"); GetHistory (VStr "B")].
Proof.
  exact (reply_lands_in_the_open_session "10:00" "10:01" 1 [("reply", "about A")]
           (mkState [] "question for A" [VStr "A"; VStr "B"] (Some (VStr "A"))
                    "/chat" [] [] 0)
           (VStr "A") (VStr "B") eq_refl eq_refl eq_refl eq_refl eq_refl eq_refl).
Defined.

(** X14. What a history response puts on display: at most two messages per
    record, none of them a typing placeholder, none with an empty text; each
    is the user_message or the bot_message of one of the records and carries
    that record's createdAt. Entries that are not objects give nothing. *)
Theorem flatten_history_shape items :
  length (flatten_history items) <= 2 * length items
  /\ Forall (fun m =>
               isTyping m = false /\ truthy_str (text m) = true
               /\ exists o,
                    In (IObj o) items
                    /\ createdAt m = field "createdAt" o
                    /\ field (match from m with
                              | user => "user_message"
                              | bot => "bot_message"
                              end) o = Some (text m))
            (flatten_history items).
Proof.
  induction items as [|item items [IHl IHf]]; [split; [simpl; lia | constructor]|].
  change (flatten_history (item :: items))
    with (flatten_item item ++ flatten_history items).
  assert (Hrest : Forall (fun m =>
               isTyping m = false /\ truthy_str (text m) = true
               /\ exists o,
                    In (IObj o) (item :: items)
                    /\ createdAt m = field "createdAt" o
                    /\ field (match from m with
                              | user => "user_message"
                              | bot => "bot_message"
                              end) o = Some (text m))
            (flatten_history items)).
  { eapply Forall_impl; [exact IHf|].
    intros m (Ht & Hx & o & Hi & Hc & Hf). split; [exact Ht|]. split; [exact Hx|].
    exists o. split; [right; exact Hi|]. split; assumption. }
  destruct item as [s|o]; [split; [simpl in *; lia | exact Hrest]|].
  unfold flatten_item.
  destruct (field "user_message" o) as [u|] eqn:Hu;
    destruct (field "bot_message" o) as [b|] eqn:Hb; simpl truthy;
    try destruct (truthy_str u) eqn:Htu; try destruct (truthy_str b) eqn:Htb;
    (split; [simpl in *; lia|]); simpl app;
    repeat (constructor;
            [simpl; split; [reflexivity|]; split; [assumption|];
             exists o; split; [left; reflexivity|]; split; [reflexivity | assumption] |]);
    exact Hrest.
Qed.

(** *** Session titles *)

Lemma field_set_field_same k v o : field k (set_field k v o) = Some v.
Proof.
  induction o as [|[k' v'] o IH]; simpl.
  - rewrite String.eqb_refl. reflexivity.
  - destruct (String.eqb k k') eqn:E; simpl.
    + rewrite String.eqb_refl. reflexivity.
    + rewrite E. exact IH.
Qed.

Lemma field_set_field_other k k0 v o :
  k0 <> k -> field k0 (set_field k v o) = field k0 o.
Proof.
  intros Hne. apply String.eqb_neq in Hne.
  induction o as [|[k' v'] o IH]; simpl.
  - rewrite Hne. reflexivity.
  - destruct (String.eqb k k') eqn:E; simpl.
    + apply String.eqb_eq in E. subst k'. rewrite Hne. reflexivity.
    + destruct (String.eqb k0 k'); [reflexivity | exact IH].
Qed.

Lemma rename_sessions_noop a title prev : forall h,
  (forall s i, In s prev -> prop "id" s = Some i -> strict_eq (VStr i) a = false) ->
  rename_sessions a title prev h = (prev, h).
Proof.
  induction prev as [|s prev IH]; intros h H; [reflexivity|].
  assert (Hrest : rename_sessions a title prev h = (prev, h)).
  { apply IH. intros s' i Hi. apply H. right. exact Hi. }
  destruct s as [x|r o]; cbn [rename_sessions prop].
  - rewrite Hrest. reflexivity.
  - destruct (field "id" o) as [i|] eqn:E.
    + rewrite (H (VObj r o) i (or_introl eq_refl) E), Hrest. reflexivity.
    + rewrite Hrest. reflexivity.
Qed.

(** X15. The title of a session is taken from its history only for an entry
    that is an object whose id equals the active id as a string. Where no
    entry is of that kind (the active value is itself an entry object, as
    after the list was loaded or a row was clicked, or the list holds plain
    strings), a history response leaves the session list exactly as it
    was. *)
Theorem rename_needs_matching_string_id a data st :
  (forall s i, In s (sessions st) -> prop "id" s = Some i ->
               strict_eq (VStr i) a = false) ->
  sessions (fetchChat_resolved a data st) = sessions st
  /\ heap (fetchChat_resolved a data st) = heap st.
Proof.
  intros H. unfold fetchChat_resolved. destruct data as [o|items|s|]; auto.
  destruct (flatten_history items) as [|first rest]; auto.
  destruct (from first); auto.
  cbn [sessions heap setMessages].
  rewrite (rename_sessions_noop a (text first) (sessions st) (heap st) H).
  auto.
Qed.

Lemma rename_sessions_spec i title prev : forall h,
  h <= snd (rename_sessions (VStr i) title prev h)
  /\ Forall2 (fun s s' =>
       match s with
       | VObj r o =>
           if match field "id" o with Some j => String.eqb j i | None => false end
           then exists r', s' = VObj r' (set_field "title" title o) /\ h <= r'
           else s' = s
       | VStr _ => s' = s
       end) prev (fst (rename_sessions (VStr i) title prev h)).
Proof.
  induction prev as [|s prev IH]; intros h; [split; [simpl; lia | constructor]|].
  assert (Hmiss : forall s0 : JsVal,
            (let '(rest, h2) := rename_sessions (VStr i) title prev h in
             (s0 :: rest, h2))
            = (s0 :: fst (rename_sessions (VStr i) title prev h),
               snd (rename_sessions (VStr i) title prev h))).
  { intros s0. destruct (rename_sessions (VStr i) title prev h); reflexivity. }
  destruct s as [x|r o]; cbn [rename_sessions prop strict_eq].
  - rewrite Hmiss. destruct (IH h) as [Hle HF]. simpl.
    split; [exact Hle|]. constructor; [reflexivity | exact HF].
  - destruct (field "id" o) as [j|] eqn:Hf; [destruct (String.eqb j i) eqn:Hj|].
    + destruct (IH (S h)) as [Hle HF].
      destruct (rename_sessions (VStr i) title prev (S h)) as [rest h2]. simpl in *.
      split; [lia|]. constructor.
      * rewrite Hf, Hj. exists h. split; [reflexivity | lia].
      * eapply Forall2_impl; [exact HF|].
        intros [x|r0 o0] s'; [auto|].
        destruct (match field "id" o0 with
                  | Some j0 => String.eqb j0 i
                  | None => false
                  end); [|auto].
        intros (r' & -> & Hr). exists r'. split; [reflexivity | lia].
    + rewrite Hmiss. destruct (IH h) as [Hle HF]. simpl.
      split; [exact Hle|]. constructor; [rewrite Hf, Hj; reflexivity | exact HF].
    + rewrite Hmiss. destruct (IH h) as [Hle HF]. simpl.
      split; [exact Hle|]. constructor; [rewrite Hf; reflexivity | exact HF].
Qed.

(** X16. When the history of the active session (its id a string [i])
    starts with a user message, every entry of the session list that is an
    object with id [i] is replaced by a new object whose title is the text of
    that message and whose other fields are those of the old one; every other
    entry, and every plain string, stays as it is, in place. *)
Theorem history_titles_the_session_by_id i items first more st :
  flatten_history items = first :: more -> from first = user ->
  messages (fetchChat_resolved (VStr i) (BArr items) st) = first :: more
  /\ Forall2 (fun s s' =>
       match s with
       | VObj r o =>
           if match field "id" o with Some j => String.eqb j i | None => false end
           then exists r' o',
                  s' = VObj r' o' /\ heap st <= r'
                  /\ field "title" o' = Some (text first)
                  /\ forall k, k <> "title" -> field k o' = field k o
           else s' = s
       | VStr _ => s' = s
       end) (sessions st)
            (sessions (fetchChat_resolved (VStr i) (BArr items) st)).
Proof.
  intros Hh Hu. split.
  { rewrite ChatFacts.fetchChat_resolved_messages. exact Hh. }
  unfold fetchChat_resolved. rewrite Hh, Hu.
  cbn [sessions heap setMessages].
  destruct (rename_sessions_spec i (text first) (sessions st) (heap st)) as [_ HF].
  destruct (rename_sessions (VStr i) (text first) (sessions st) (heap st))
    as [renamed h]. simpl in *.
  eapply Forall2_impl; [exact HF|].
  intros [x|r o] s'; [auto|].
  destruct (match field "id" o with
            | Some j => String.eqb j i
            | None => false
            end); [|auto].
  intros (r' & -> & Hr). exists r', (set_field "title" (text first) o).
  split; [reflexivity|]. split; [exact Hr|]. split.
  - apply field_set_field_same.
  - intros k Hk. apply field_set_field_other, Hk.
Qed.

(** *** The session list *)

Lemma intern_length items : forall h, length (fst (intern items h)) = length items.
Proof.
  induction items as [|[s|o] items IH]; intros h; simpl; [reflexivity| |].
  - specialize (IH h). destruct (intern items h). simpl in *. lia.
  - specialize (IH (S h)). destruct (intern items (S h)). simpl in *. lia.
Qed.

(** X17. When the session list arrives on a page with no active session,
    its first entry becomes the active one; if that entry is usable (an
    object, or a non-empty string) the message list is emptied and exactly one
    request, the history of that entry, is started. An empty list makes
    nothing active and starts nothing. *)
Theorem session_list_opens_first_session it rest st :
  activeSessionId st = None ->
  let first := match it with
               | IStr s => VStr s
               | IObj o => VObj (heap st) o
               end in
  (exists st',
      step (SessionsLoaded (it :: rest)) st = Some st'
      /\ head (sessions st') = Some first
      /\ length (sessions st') = S (length rest)
      /\ activeSessionId st' = Some first
      /\ (if truthy_val (Some first)
          then messages st' = [] /\ inflight st' = inflight st ++ [GetHistory first]
          else messages st' = messages st /\ inflight st' = inflight st))
  /\ (exists st0,
        step (SessionsLoaded []) st = Some st0
        /\ sessions st0 = [] /\ activeSessionId st0 = None
        /\ messages st0 = messages st /\ inflight st0 = inflight st).
Proof.
  intros Ha first. split.
  - unfold step. cbn [handle]. eexists. split; [reflexivity|].
    rewrite ChatFacts.rerender_sessions, ChatFacts.rerender_active.
    unfold sessions_loaded.
    assert (Hi : exists vs h, intern (it :: rest) (heap st) = (first :: vs, h)
                              /\ length vs = length rest).
    { unfold first. destruct it as [s|o]; simpl.
      - pose proof (intern_length rest (heap st)) as Hl.
        destruct (intern rest (heap st)) as [vs h]. exists vs, h. auto.
      - pose proof (intern_length rest (S (heap st))) as Hl.
        destruct (intern rest (S (heap st))) as [vs h]. exists vs, h. auto. }
    destruct Hi as (vs & h & -> & Hl).
    cbn [sessions activeSessionId setActiveSessionId set_heap setSessions head length].
    split; [reflexivity|]. split; [rewrite Hl; reflexivity|].
    split; [reflexivity|].
    unfold rerender, fetchChat_effect. rewrite Ha.
    cbn [sessions activeSessionId setActiveSessionId set_heap setSessions same].
    destruct (truthy_val (Some first)); simpl; auto.
  - unfold step. simpl. rewrite ChatFacts.rerender_unchanged by reflexivity.
    eexists. split; [reflexivity|]. simpl. auto.
Qed.

(** X18. A session created here and then deleted stays the target of the
    page. The new entry is the response object, the active id is the string
    [id] of that object; when the entry is deleted the comparison of the
    active id with the deleted entry fails, so the entry leaves the list
    while the active id stays, and no other session is opened. *)
Theorem deleted_new_session_stays_active now now' o i data st :
  field "id" o = Some i -> truthy_str i = true ->
  same (activeSessionId st) (Some (VStr i)) = false ->
  exists st1 st2,
    run [ClickNewChat; Settle (length (inflight st)) (Fulfilled (BObj o)) now] st
    = Some st1
    /\ sessions st1 = VObj (heap st) o :: sessions st
    /\ activeSessionId st1 = Some (VStr i)
    /\ messages st1 = []
    /\ inflight st1 = inflight st ++ [GetHistory (VStr i)]
    /\ run [ClickDelete 0 true;
            Settle (S (length (inflight st))) (Fulfilled data) now'] st1
       = Some st2
    /\ Forall (fun s => strict_eq s (VObj (heap st) o) = false) (sessions st2)
    /\ activeSessionId st2 = Some (VStr i)
    /\ inflight st2 = inflight st1.
Proof.
  intros Hid Hi Hs.
  set (st1 := mkState [] (input st) (VObj (heap st) o :: sessions st)
                      (Some (VStr i)) (location st)
                      (inflight st ++ [GetHistory (VStr i)])
                      (sent st ++ [PostCreateSession; GetHistory (VStr i)])
                      (S (heap st))).
  assert (H1 : run [ClickNewChat;
                    Settle (length (inflight st)) (Fulfilled (BObj o)) now] st
               = Some st1).
  { unfold run, step. cbn [handle]. unfold createNewSession.
    rewrite ChatFacts.rerender_unchanged by reflexivity.
    cbn [handle]. unfold issue at 1. cbn [inflight].
    rewrite ChatFacts.lookup_app_length. unfold settled, issue. simpl.
    rewrite ChatFacts.remove_nth_app_length, app_nil_r, Hid.
    rewrite (ChatFacts.rerender_changed _ _ (VStr i)); try reflexivity; try assumption.
    unfold issue, setMessages. simpl. unfold st1.
    rewrite <- app_assoc. reflexivity. }
  exists st1.
  assert (Hl : forall (l : list InFlight) x y, (l ++ [x; y]) !! S (length l) = Some y).
  { intros l x y. induction l as [|z l IH]; [reflexivity | exact IH]. }
  assert (Hr : forall (l : list InFlight) x y, remove_nth (S (length l)) (l ++ [x; y]) = l ++ [x]).
  { intros l x y. induction l as [|z l IH]; [reflexivity|].
    simpl in *. rewrite IH. reflexivity. }
  eexists. split; [exact H1|].
  split; [reflexivity|]. split; [reflexivity|]. split; [reflexivity|].
  split; [reflexivity|].
  split.
  { unfold run, step, handle, deleteSession, st1. simpl.
    rewrite ChatFacts.rerender_unchanged by reflexivity.
    unfold issue, settled.
    cbn [inflight messages input sessions activeSessionId location sent heap].
    rewrite <- (app_assoc (inflight st)). simpl app. rewrite Hl, Hr.
    cbn [resume]. unfold deleteSession_resolved. simpl.
    rewrite ChatFacts.rerender_unchanged by reflexivity.
    reflexivity. }
  simpl. split; [|split; reflexivity].
  rewrite Nat.eqb_refl. simpl. apply (ChatFacts.without_spec (VObj (heap st) o)).
Qed.

Example rename_needs_matching_string_id_witness :
  sessions (fetchChat_resolved (VObj 0 [("id", "s1")])
              (BArr [Sample.record Sample.T0 "hello" "hi"])
              (mkState [] "" [VObj 0 [("id", "s1")]; VStr "s2"]
                       (Some (VObj 0 [("id", "s1")])) "/chat" [] [] 1))
  = [VObj 0 [("id", "s1")]; VStr "s2"]
  /\ heap (fetchChat_resolved (VObj 0 [("id", "s1")])
             (BArr [Sample.record Sample.T0 "hello" "hi"])
             (mkState [] "" [VObj 0 [("id", "s1")]; VStr "s2"]
                      (Some (VObj 0 [("id", "s1")])) "/chat" [] [] 1))
     = 1.
Proof.
  apply (rename_needs_matching_string_id (VObj 0 [("id", "s1")])
           (BArr [Sample.record Sample.T0 "hello" "hi"])
           (mkState [] "" [VObj 0 [("id", "s1")]; VStr "s2"]
                    (Some (VObj 0 [("id", "s1")])) "/chat" [] [] 1)).
  intros s i _ _. reflexivity.
Defined.

Example history_titles_the_session_by_id_witness :
  messages (fetchChat_resolved (VStr "n1")
              (BArr [Sample.record Sample.T0 "hello" "hi"])
              (mkState [] "" [VObj 0 [("id", "n1")]; VStr "s2"]
                       (Some (VStr "n1")) "/chat" [] [] 1))
  = [mkMessage "hello" user false (Some Sample.T0);
     mkMessage "hi" bot false (Some Sample.T0)]
  /\ Forall2 (fun s s' =>
       match s with
       | VObj r o =>
           if match field "id" o with Some j => String.eqb j "n1" | None => false end
           then exists r' o',
                  s' = VObj r' o' /\ 1 <= r'
                  /\ field "title" o' = Some "hello"
                  /\ forall k, k <> "title" -> field k o' = field k o
           else s' = s
       | VStr _ => s' = s
       end) [VObj 0 [("id", "n1")]; VStr "s2"]
            (sessions (fetchChat_resolved (VStr "n1")
                         (BArr [Sample.record Sample.T0 "hello" "hi"])
                         (mkState [] "" [VObj 0 [("id", "n1")]; VStr "s2"]
                                  (Some (VStr "n1")) "/chat" [] [] 1))).
Proof.
  exact (history_titles_the_session_by_id "n1"
           [Sample.record Sample.T0 "hello" "hi"]
           (mkMessage "hello" user false (Some Sample.T0))
           [mkMessage "hi" bot false (Some Sample.T0)]
           (mkState [] "" [VObj 0 [("id", "n1")]; VStr "s2"]
                    (Some (VStr "n1")) "/chat" [] [] 1)
           eq_refl eq_refl).
Defined.

Example session_list_opens_first_session_witness :
  (exists st',
      step (SessionsLoaded [IStr "s1"; IStr "s2"]) init = Some st'
      /\ head (sessions st') = Some (VStr "s1")
      /\ length (sessions st') = 2
      /\ activeSessionId st' = Some (VStr "s1")
      /\ messages st' = [] /\ inflight st' = [GetHistory (VStr "s1")])
  /\ (exists st0,
        step (SessionsLoaded []) init = Some st0
        /\ sessions st0 = [] /\ activeSessionId st0 = None
        /\ messages st0 = [] /\ inflight st0 = []).
Proof.
  exact (session_list_opens_first_session (IStr "s1") [IStr "s2"] init eq_refl).
Defined.

Example deleted_new_session_stays_active_witness :
  exists st1 st2,
    run [ClickNewChat; Settle 0 (Fulfilled (BObj [("id", "n1")])) "10:00"] init
    = Some st1
    /\ sessions st1 = [VObj 0 [("id", "n1")]]
    /\ activeSessionId st1 = Some (VStr "n1")
    /\ messages st1 = []
    /\ inflight st1 = [GetHistory (VStr "n1")]
    /\ run [ClickDelete 0 true; Settle 1 (Fulfilled (BText "")) "10:01"] st1
       = Some st2
    /\ Forall (fun s => strict_eq s (VObj 0 [("id", "n1")]) = false) (sessions st2)
    /\ activeSessionId st2 = Some (VStr "n1")
    /\ inflight st2 = inflight st1.
Proof.
  exact (deleted_new_session_stays_active "10:00" "10:01" [("id", "n1")] "n1"
           (BText "") init eq_refl eq_refl eq_refl).
Defined.

(** The worked case of [ClientFacts.initAuth_sends_back_to_login]: a stored
    token that the backend no longer accepts, and nothing to refresh with. *)
Example initAuth_sends_back_to_login_witness :
  exists w',
    initAuth (scripted [HttpReply 401 BNull]) 1 init Sample.logged_in
    = Some (navigate "/" init, w')
    /\ getItem "access_token" w' = None
    /\ getItem "refresh_token" w' = None.
Proof.
  exact (ClientFacts.initAuth_sends_back_to_login (scripted [HttpReply 401 BNull]) 0
           init Sample.logged_in _ _ eq_refl eq_refl eq_refl eq_refl).
Defined.

End ChatMore.

(** ** More on the single-thread page (src/unnamed/part_004) *)

Module ChatV4More.

Import Chat ChatV4.

Section Order.

Variable Date_getTime : string -> option Z.

Local Abbreviation getTime := (ChatV4.getTime Date_getTime).
Local Abbreviation sort := (ChatV4.sort Date_getTime).

Lemma Sorted_by_time l :
  Forall (fun m => is_Some (getTime m)) l ->
  Sorted (fun a b => (ChatV4.SortCompare Date_getTime a b <= 0)%Z) l ->
  Sorted (fun a b => exists ta tb,
            getTime a = Some ta /\ getTime b = Some tb /\ (ta <= tb)%Z) l.
Proof.
  intros Hv Hs. induction Hs as [|a l Hs IH Hd]; [constructor|].
  inversion Hv as [|? ? [ta Ha] Hv']; subst.
  constructor; [apply IH, Hv'|].
  destruct Hd as [|b l Hab]; constructor.
  inversion Hv' as [|? ? [tb Hb] _]; subst.
  rewrite (ChatV4Facts.SortCompare_valid _ _ _ _ _ Ha Hb) in Hab.
  exists ta, tb. split; [exact Ha|]. split; [exact Hb | lia].
Qed.

Lemma sort_of_sorted l :
  Sorted (fun a b => (ChatV4.SortCompare Date_getTime a b <= 0)%Z) l -> sort l = l.
Proof.
  intros Hs. induction Hs as [|a l Hs IH Hd]; [reflexivity|].
  cbn [ChatV4.sort]. rewrite IH.
  destruct Hd as [|b l Hab]; [reflexivity|].
  cbn [ChatV4.insert_sorted].
  apply Z.leb_le in Hab. rewrite Hab. reflexivity.
Qed.

(** X20. When every message of the response has a readable time (a
    createdAt that parses, or none, which counts as time 0), the list that
    [fetchChatHistory] puts on display holds exactly the messages of the
    response, in ascending order of time, and messages with the same time
    keep the order they had in the response. *)
Theorem fetchChatHistory_orders_by_time items messages :
  Forall (fun m => is_Some (getTime m)) (flatten_history items) ->
  let shown := fetchChatHistory_resolved Date_getTime (BArr items) messages in
  Permutation shown (flatten_history items)
  /\ Sorted (fun a b => exists ta tb,
               getTime a = Some ta /\ getTime b = Some tb /\ (ta <= tb)%Z) shown
  /\ forall t,
       List.filter (fun m => match getTime m with
                             | Some t' => (t' =? t)%Z
                             | None => false
                             end) shown
       = List.filter (fun m => match getTime m with
                               | Some t' => (t' =? t)%Z
                               | None => false
                               end) (flatten_history items).
Proof.
  intros Hv. cbn [fetchChatHistory_resolved]. split; [|split].
  - apply ChatV4Facts.sort_perm.
  - apply Sorted_by_time.
    + apply ChatV4Facts.sort_valid, Hv.
    + apply ChatV4Facts.sort_sorted, Hv.
  - intros t. apply ChatV4Facts.sort_stable, Hv.
Qed.

(** X21. A response whose messages are already in ascending order of time
    is displayed as it came: on such a response this page and pages/Chat.tsx,
    which does not sort, show the same list. *)
Theorem ordered_history_is_shown_as_received items messages a st :
  Forall (fun m => is_Some (getTime m)) (flatten_history items) ->
  Sorted (fun a b => exists ta tb,
            getTime a = Some ta /\ getTime b = Some tb /\ (ta <= tb)%Z)
         (flatten_history items) ->
  fetchChatHistory_resolved Date_getTime (BArr items) messages
  = flatten_history items
  /\ fetchChatHistory_resolved Date_getTime (BArr items) messages
     = Chat.messages (fetchChat_resolved a (BArr items) st).
Proof.
  intros Hv Hs.
  assert (E : fetchChatHistory_resolved Date_getTime (BArr items) messages
              = flatten_history items).
  { cbn [fetchChatHistory_resolved]. apply sort_of_sorted.
    clear Hv. induction Hs as [|x l Hs IH Hd]; [constructor|].
    constructor; [exact IH|].
    destruct Hd as [|y l (tx & ty & Hx & Hy & Hle)]; constructor.
    rewrite (ChatV4Facts.SortCompare_valid _ _ _ _ _ Hx Hy). lia. }
  split; [exact E|]. rewrite E, ChatFacts.fetchChat_resolved_messages. reflexivity.
Qed.

End Order.

Example fetchChatHistory_orders_by_time_witness :
  Permutation
    (fetchChatHistory_resolved Sample.sample_getTime (BArr Sample.unordered_history) [])
    (flatten_history Sample.unordered_history)
  /\ Sorted (fun a b => exists ta tb,
               ChatV4.getTime Sample.sample_getTime a = Some ta
               /\ ChatV4.getTime Sample.sample_getTime b = Some tb /\ (ta <= tb)%Z)
            (fetchChatHistory_resolved Sample.sample_getTime
               (BArr Sample.unordered_history) [])
  /\ forall t,
       List.filter (fun m => match ChatV4.getTime Sample.sample_getTime m with
                             | Some t' => (t' =? t)%Z
                             | None => false
                             end)
         (fetchChatHistory_resolved Sample.sample_getTime
            (BArr Sample.unordered_history) [])
       = List.filter (fun m => match ChatV4.getTime Sample.sample_getTime m with
                               | Some t' => (t' =? t)%Z
                               | None => false
                               end) (flatten_history Sample.unordered_history).
Proof.
  apply (fetchChatHistory_orders_by_time Sample.sample_getTime
           Sample.unordered_history []).
  repeat constructor; eexists; reflexivity.
Defined.

Example ordered_history_is_shown_as_received_witness :
  fetchChatHistory_resolved Sample.sample_getTime
    (BArr [Sample.record Sample.T0 "q0" "a0"; Sample.record Sample.T1 "q1" "a1"]) []
  = flatten_history
      [Sample.record Sample.T0 "q0" "a0"; Sample.record Sample.T1 "q1" "a1"]
  /\ fetchChatHistory_resolved Sample.sample_getTime
       (BArr [Sample.record Sample.T0 "q0" "a0"; Sample.record Sample.T1 "q1" "a1"]) []
     = Chat.messages
         (fetchChat_resolved (VStr "s1")
            (BArr [Sample.record Sample.T0 "q0" "a0"; Sample.record Sample.T1 "q1" "a1"])
            Chat.init).
Proof.
  apply (ordered_history_is_shown_as_received Sample.sample_getTime
           [Sample.record Sample.T0 "q0" "a0"; Sample.record Sample.T1 "q1" "a1"]
           [] (VStr "s1") Chat.init).
  - repeat constructor; eexists; reflexivity.
  - repeat constructor;
      (eexists _, _; split; [reflexivity|]; split; [reflexivity|]; vm_compute;
       discriminate).
Defined.

Example single_thread_ignores_blank_input_witness :
  ChatV4.sendMessage "10:00" (ChatV4.mkState [] "   " [])
  = ChatV4.mkState [] "   " [].
Proof.
  exact (ChatV4Facts.single_thread_ignores_blank_input "10:00"
           (ChatV4.mkState [] "   " []) eq_refl).
Defined.

Example single_thread_send_then_reply_witness :
  ChatV4.messages
    (ChatV4.sendMessage_resolved (BObj [("reply", "hello")]) "10:01"
       (ChatV4.sendMessage "10:00" (ChatV4.mkState [] "hi" [])))
  = [mkMessage "hi" user false (Some "10:00");
     mkMessage "hello" bot false (Some "10:01")].
Proof.
  exact (ChatV4Facts.single_thread_send_then_reply "10:00" "10:01"
           [("reply", "hello")] "hello" (ChatV4.mkState [] "hi" []) eq_refl eq_refl).
Defined.

End ChatV4More.

(** ** More on the older page with sessions (src/unnamed/part_003) *)

Module ChatV3More.

Import Api.
Import ChatV3.

(** X24. The session picked in the sidebar survives a reload: the click
    stores its id, and when the session list arrives on the reloaded page
    that id is made active whatever the list holds, even a list in which the
    session no longer occurs. *)
Theorem selection_survives_reload id st w entries :
  truthy_str id = true ->
  let w' := snd (selectSession id st w) in
  getItem "activeSessionId" w' = Some id
  /\ activeSessionId (sessions_loaded entries init w') = Some id
  /\ sessions (sessions_loaded entries init w') = entries.
Proof.
  intros Hid. cbn [selectSession snd].
  assert (Hg : getItem "activeSessionId" (setItem "activeSessionId" id w) = Some id)
    by apply ApiMore.getItem_setItem_same.
  split; [exact Hg|]. unfold sessions_loaded. rewrite Hg. simpl truthy.
  rewrite Hid. split; reflexivity.
Qed.

(** X25. After [createNewSession] and the reload it ends with, the active
    session is the [_id] of the created object when that is a non-empty
    string. When the response carries no [_id], the string "undefined" was
    stored and becomes the active id; when the [_id] is empty the first
    session of the list is opened instead. *)
Theorem created_session_is_active_after_reload o st w entries :
  activeSessionId
    (sessions_loaded entries init (snd (createNewSession_resolved o st w)))
  = match field "_id" o with
    | None => Some "undefined"
    | Some i =>
        if truthy_str i then Some i
        else match entries with
             | first :: _ => field "_id" first
             | [] => None
             end
    end.
Proof.
  cbn [createNewSession_resolved snd]. unfold sessions_loaded.
  rewrite ApiMore.getItem_setItem_same.
  destruct (field "_id" o) as [i|]; [|reflexivity].
  simpl. destruct (truthy_str i); [reflexivity|].
  destruct entries; reflexivity.
Qed.

(** X26. Deleting the active session leaves no session active and drops
    the stored id, so that after a reload the first session of the list is
    opened (none when the list is empty, or when that session has no
    [_id]). *)
Theorem deleted_active_session_falls_back_on_reload sessionId st w entries :
  activeSessionId st = Some sessionId ->
  let st' := fst (deleteSession_resolved sessionId st w) in
  let w' := snd (deleteSession_resolved sessionId st w) in
  activeSessionId st' = None
  /\ messages st' = []
  /\ Forall (fun s => field "_id" s <> Some sessionId) (sessions st')
  /\ getItem "activeSessionId" w' = None
  /\ activeSessionId (sessions_loaded entries init w')
     = match entries with
       | first :: _ => field "_id" first
       | [] => None
       end.
Proof.
  intros Ha. unfold deleteSession_resolved. rewrite Ha, String.eqb_refl.
  cbn [fst snd activeSessionId messages sessions].
  assert (Hg : getItem "activeSessionId" (removeItem "activeSessionId" w) = None)
    by apply ClientFacts.getItem_removeItem_same.
  split; [reflexivity|]. split; [reflexivity|]. split; [|split; [exact Hg|]].
  - apply List.Forall_forall. intros s Hs. apply List.filter_In in Hs.
    destruct Hs as [_ Hs]. unfold other_id in Hs.
    destruct (field "_id" s) as [i|]; [|discriminate].
    apply negb_true_iff, String.eqb_neq in Hs. congruence.
  - unfold sessions_loaded. rewrite Hg. simpl. destruct entries; reflexivity.
Qed.

Example selection_survives_reload_witness :
  getItem "activeSessionId"
    (snd (selectSession "s2" init Sample.logged_in)) = Some "s2"
  /\ activeSessionId
       (sessions_loaded [[("_id", "s1")]] init
          (snd (selectSession "s2" init Sample.logged_in))) = Some "s2"
  /\ sessions
       (sessions_loaded [[("_id", "s1")]] init
          (snd (selectSession "s2" init Sample.logged_in))) = [[("_id", "s1")]].
Proof.
  exact (selection_survives_reload "s2" init Sample.logged_in [[("_id", "s1")]]
           eq_refl).
Defined.

Example deleted_active_session_falls_back_on_reload_witness :
  match deleteSession_resolved "s2"
          (mkState [] [[("_id", "s1")]; [("_id", "s2")]] (Some "s2"))
          (setItem "activeSessionId" "s2" Sample.logged_in) with
  | (st', w') =>
      activeSessionId st' = None
      /\ messages st' = []
      /\ Forall (fun s => field "_id" s <> Some "s2") (sessions st')
      /\ getItem "activeSessionId" w' = None
      /\ activeSessionId (sessions_loaded [[("_id", "s1")]] init w') = Some "s1"
  end.
Proof.
  exact (deleted_active_session_falls_back_on_reload "s2"
           (mkState [] [[("_id", "s1")]; [("_id", "s2")]] (Some "s2"))
           (setItem "activeSessionId" "s2" Sample.logged_in)
           [[("_id", "s1")]] eq_refl).
Defined.

End ChatV3More.

(** ** The first chat page (src/unnamed/part_000) *)

Module ChatV0Facts.

Import ChatV0.

Lemma step_posted e st st' :
  step e st = Some st' ->
  exists added,
    posted st' = posted st ++ added
    /\ Forall (fun m => truthy_str m = true) added
    /\ length (inflight st') + (match e with Settle _ _ => 1 | _ => 0 end)
       = length (inflight st) + length added.
Proof.
  destruct e as [v| |i r]; simpl; intros H.
  - injection H as <-. exists []. simpl. rewrite app_nil_r. auto.
  - injection H as <-. unfold sendMessage.
    destruct (truthy_str (input st)) eqn:Hin; simpl.
    + exists [input st]. simpl. rewrite length_app. simpl.
      split; [reflexivity|]. split; [|lia]. constructor; [exact Hin | constructor].
    + exists []. simpl. rewrite app_nil_r. auto.
  - destruct (inflight st !! i) as [snapshot|] eqn:Hi; [|discriminate].
    assert (Hlen : length (Chat.remove_nth i (inflight st)) + 1 = length (inflight st)).
    { clear H. revert i Hi. induction (inflight st) as [|x l IH]; intros [|i] Hi;
        simpl in *; try discriminate; [lia|].
      specialize (IH i Hi). lia. }
    exists []. rewrite app_nil_r. simpl length. rewrite Nat.add_0_r.
    destruct r as [data|]; [destruct data|]; injection H as <-; simpl; auto.
Qed.

(** X27. On the first chat page nothing empty is ever posted, and every
    post is accounted for: over any run of typing, sending and settling, each
    message added to the posts is non-empty, and the posts still awaited are
    the posts added less the ones that settled. *)
Theorem nothing_empty_is_posted es : forall st st',
  run es st = Some st' ->
  exists added,
    posted st' = posted st ++ added
    /\ Forall (fun m => truthy_str m = true) added
    /\ length (inflight st')
       + length (List.filter (fun e => match e with Settle _ _ => true | _ => false end) es)
       = length (inflight st) + length added.
Proof.
  induction es as [|e es IH]; intros st st' H; simpl in H.
  - injection H as <-. exists []. simpl. rewrite app_nil_r. auto.
  - destruct (step e st) as [st1|] eqn:Hs; [|discriminate].
    destruct (step_posted _ _ _ Hs) as (a1 & Hp1 & Hf1 & Hl1).
    destruct (IH _ _ H) as (a2 & Hp2 & Hf2 & Hl2).
    exists (a1 ++ a2). rewrite Hp2, Hp1, <- app_assoc.
    split; [reflexivity|]. split; [apply Forall_app; split; assumption|].
    rewrite length_app. simpl List.filter.
    destruct e; simpl length in *; lia.
Qed.

(** X28. A reply overwrites what was sent after its question. Each post
    keeps the list of its own render and writes that list back, extended by
    the answer, when it settles. With two posts in flight the first answer
    removes the second question from the display, and the second answer then
    removes the first. *)
Theorem reply_overwrites_later_messages a b o1 o2 st :
  truthy_str a = true -> truthy_str b = true ->
  exists st1 st2,
    run [Typed a; PressSend; Typed b; PressSend;
         Settle (length (inflight st)) (Chat.Fulfilled (BObj o1))] st = Some st1
    /\ messages st1
       = messages st ++ [mkMessage a Chat.user;
                         mkMessage (default "" (field "reply" o1)) Chat.bot]
    /\ step (Settle (length (inflight st)) (Chat.Fulfilled (BObj o2))) st1 = Some st2
    /\ messages st2
       = messages st ++ [mkMessage a Chat.user; mkMessage b Chat.user;
                         mkMessage (default "" (field "reply" o2)) Chat.bot]
    /\ posted st2 = posted st ++ [a; b]
    /\ inflight st2 = inflight st.
Proof.
  intros Ha Hb.
  assert (Hl : forall (l : list (list ChatMessage)) x y,
             (l ++ [x; y]) !! length l = Some x).
  { intros l x y. induction l as [|z l IH]; [reflexivity | exact IH]. }
  assert (Hr : forall (l : list (list ChatMessage)) x y,
             Chat.remove_nth (length l) (l ++ [x; y]) = l ++ [y]).
  { intros l x y. induction l as [|z l IH]; [reflexivity|].
    simpl in *. rewrite IH. reflexivity. }
  assert (Hl1 : forall (l : list (list ChatMessage)) x,
             (l ++ [x]) !! length l = Some x).
  { intros l x. induction l as [|z l IH]; [reflexivity | exact IH]. }
  assert (Hr1 : forall (l : list (list ChatMessage)) x,
             Chat.remove_nth (length l) (l ++ [x]) = l).
  { intros l x. induction l as [|z l IH]; [reflexivity|].
    simpl in *. rewrite IH. reflexivity. }
  eexists _, _. split.
  { unfold run, step, sendMessage, setInput.
    cbn [input messages inflight posted]. rewrite Ha. cbn [negb].
    cbn [input messages inflight posted]. rewrite Hb. cbn [negb].
    cbn [input messages inflight posted].
    rewrite <- (app_assoc (inflight st)). simpl app.
    rewrite Hl, Hr. reflexivity. }
  cbn [sendMessage_resolved messages inflight posted input body_field].
  split; [rewrite <- app_assoc; reflexivity|].
  split.
  { unfold step. cbn [inflight messages input posted]. rewrite Hl1, Hr1. reflexivity. }
  cbn [sendMessage_resolved messages inflight posted input body_field].
  split; [rewrite <- !app_assoc; reflexivity|].
  split; [rewrite <- app_assoc; reflexivity | reflexivity].
Qed.

Example nothing_empty_is_posted_witness :
  match run [Typed ""; PressSend; Typed " "; PressSend; Typed "hi"; PressSend;
             Settle 0 Chat.Failed] init with
  | Some st' =>
      exists added,
        posted st' = posted init ++ added
        /\ Forall (fun m => truthy_str m = true) added
        /\ length (inflight st') + 1 = length (inflight init) + length added
  | None => False
  end.
Proof.
  destruct (run [Typed ""; PressSend; Typed " "; PressSend; Typed "hi"; PressSend;
                 Settle 0 Chat.Failed] init) as [st'|] eqn:H.
  - exact (nothing_empty_is_posted _ _ _ H).
  - vm_compute in H. discriminate H.
Defined.

Example reply_overwrites_later_messages_witness :
  exists st1 st2,
    run [Typed "one"; PressSend; Typed "two"; PressSend;
         Settle 0 (Chat.Fulfilled (BObj [("reply", "1")]))] init = Some st1
    /\ messages st1 = [mkMessage "one" Chat.user; mkMessage "1" Chat.bot]
    /\ step (Settle 0 (Chat.Fulfilled (BObj [("reply", "2")]))) st1 = Some st2
    /\ messages st2
       = [mkMessage "one" Chat.user; mkMessage "two" Chat.user; mkMessage "2" Chat.bot]
    /\ posted st2 = ["one"; "two"]
    /\ inflight st2 = [].
Proof.
  exact (reply_overwrites_later_messages "one" "two" [("reply", "1")] [("reply", "2")]
           init eq_refl eq_refl).
Defined.

End ChatV0Facts.
